(** * Sidekick hooks: trigger gate, transcript cursor, sanitizer, memory, nudge gate and delivery

    A shallow embedding of the Python hooks under [hooks/]:
    - [sidekick-counter.py]                 (module [Counter]),
    - [sidekick-nudge.py]                   (module [Nudge]),
    - [sidekick-review-worker.py]           (module [Worker]),
    - [sidekick-review-worker-enhanced.py]  (module [Enhanced]),
    - [sidekick-memory-advanced.py]         (module [Advanced]),
    - [enforce-pnpm.py]                     (module [EnforcePnpm]),
    and of [bin/last_messages.py]           (module [LastMessages]).

    Conventions.  Python [str] is [string], read as ASCII text (bytes above
    127 are carried along and belong to no character class); [int] is [Z];
    the [float]s read from the clock and the score of a verdict are exact
    rationals [Q] (no rounding is modelled); a JSON object is a record whose
    optional keys are [option] fields; the files of the per-project state
    directory are explicit state that every [main] takes and returns.  What
    lies outside the repository (the clock, SHA-256, the reasoning service,
    whether the worker can be spawned) is an argument of the [main] that
    uses it. *)

From Stdlib Require Import ZArith QArith Lqa Lia List String Ascii Bool.
From Stdlib Require Import OrderedTypeEx DecimalString Sorted.
From Stdlib Require DecimalFacts DecimalPos.
Import ListNotations.
Open Scope string_scope.

(** ** Python primitives used by the hooks *)
Module Py.

(** [d.get(k, default)] on an optional key. *)
Definition get {A} (o : option A) (default : A) : A :=
  match o with Some v => v | None => default end.

(** Truthiness of a [str]: non-empty. *)
Definition truthy (s : string) : bool :=
  match s with EmptyString => false | String _ _ => true end.

(** [o or ""] for an optional string: [None] and [""] both give [""]. *)
Definition or_empty (o : option string) : string := get o "".

(** Index normalisation of a slice bound against a sequence of length [n]. *)
Definition clamp (n : nat) (i : Z) : nat :=
  if (i <? 0)%Z then Z.to_nat (Z.max (i + Z.of_nat n) 0)
  else Nat.min (Z.to_nat i) n.

(** [l[start:stop]] with optional bounds (step 1). *)
Definition slice {A} (start stop : option Z) (l : list A) : list A :=
  let n := List.length l in
  let s := match start with Some i => clamp n i | None => O end in
  let e := match stop with Some i => clamp n i | None => n end in
  skipn s (firstn e l).

(** [l[-k:]] and [l[:k]]. *)
Definition last_n {A} (k : Z) (l : list A) : list A := slice (Some (- k)%Z) None l.
Definition first_n {A} (k : Z) (l : list A) : list A := slice None (Some k) l.

Definition chars (s : string) : list ascii := list_ascii_of_string s.
Definition str (l : list ascii) : string := string_of_list_ascii l.

(** [s[start:stop]] on strings. *)
Definition sslice (start stop : option Z) (s : string) : string :=
  str (slice start stop (chars s)).

(** [a % b]: floor modulo, the sign follows the divisor; [None] is
    [ZeroDivisionError]. *)
Definition mod_ (a b : Z) : option Z :=
  if (b =? 0)%Z then None else Some (a mod b)%Z.

(** [str(n)] for an [int]. *)
Definition str_of_Z (n : Z) : string := NilZero.string_of_int (Z.to_int n).

Definition code (c : ascii) : nat := nat_of_ascii c.
Definition between (lo hi : nat) (c : ascii) : bool :=
  (lo <=? code c)%nat && (code c <=? hi)%nat.

Definition LF : ascii := ascii_of_nat 10.
Definition CR : ascii := ascii_of_nat 13.
Definition ESC : ascii := ascii_of_nat 27.
Definition nl : string := String LF "".

(** [c.isspace()] on ASCII: TAB..CR, FS..US and the space. *)
Definition is_space (c : ascii) : bool :=
  between 9 13 c || between 28 31 c || (code c =? 32)%nat.

(** The ASCII line boundaries of [str.splitlines]: LF, VT, FF, CR, FS, GS, RS. *)
Definition is_linebreak (c : ascii) : bool :=
  between 10 13 c || between 28 30 c.

Fixpoint lstrip (s : string) : string :=
  match s with
  | String c r => if is_space c then lstrip r else s
  | EmptyString => EmptyString
  end.

Fixpoint rstrip (s : string) : string :=
  match s with
  | EmptyString => EmptyString
  | String c r =>
      match rstrip r with
      | EmptyString => if is_space c then EmptyString else String c EmptyString
      | r' => String c r'
      end
  end.

(** [s.strip()]. *)
Definition strip (s : string) : string := rstrip (lstrip s).

Definition lower_char (c : ascii) : ascii :=
  if between 65 90 c then ascii_of_nat (code c + 32) else c.
Definition upper_char (c : ascii) : ascii :=
  if between 97 122 c then ascii_of_nat (code c - 32) else c.

Fixpoint map_chars (f : ascii -> ascii) (s : string) : string :=
  match s with
  | EmptyString => EmptyString
  | String c r => String (f c) (map_chars f r)
  end.

(** [s.lower()] and [s.upper()] on ASCII letters. *)
Definition lower : string -> string := map_chars lower_char.
Definition upper : string -> string := map_chars upper_char.

(** [needle in hay] for strings. *)
Fixpoint contains (needle hay : string) : bool :=
  String.prefix needle hay
  || match hay with
     | EmptyString => false
     | String _ r => contains needle r
     end.

(** [s.splitlines()]: the lines of [s] without their terminators; CR LF is
    one terminator and a final terminator opens no further line. *)
Fixpoint splitlines (s : string) : list string :=
  match s with
  | EmptyString => []
  | String c rest =>
      if is_linebreak c then
        match rest with
        | String c2 rest' =>
            if Ascii.eqb c CR && Ascii.eqb c2 LF
            then EmptyString :: splitlines rest'
            else EmptyString :: splitlines rest
        | EmptyString => [EmptyString]
        end
      else
        match splitlines rest with
        | [] => [String c EmptyString]
        | l :: ls => String c l :: ls
        end
  end.

(** [sep.join(parts)]. *)
Definition join (sep : string) (parts : list string) : string :=
  String.concat sep parts.

(** [len(s.splitlines())]. *)
Definition line_count (s : string) : Z := Z.of_nat (List.length (splitlines s)).

(** No character of [s] is a line boundary. *)
Fixpoint unbroken (s : string) : bool :=
  match s with
  | EmptyString => true
  | String c r => negb (is_linebreak c) && unbroken r
  end.

(** [len(l)] as an [int]. *)
Definition len {A} (l : list A) : Z := Z.of_nat (List.length l).

(** [c * n] for a one-character string. *)
Fixpoint repeat_char (c : ascii) (n : nat) : string :=
  match n with O => EmptyString | S k => String c (repeat_char c k) end.

(** [s.split("\n")]: the pieces between line feeds; never empty. *)
Fixpoint split_lf (s : string) : list string :=
  match s with
  | EmptyString => [EmptyString]
  | String c r =>
      if Ascii.eqb c LF then EmptyString :: split_lf r
      else
        match split_lf r with
        | [] => [String c EmptyString]
        | l :: ls => String c l :: ls
        end
  end.

(** Every character of [s] satisfies [p]. *)
Fixpoint every (p : ascii -> bool) (s : string) : bool :=
  match s with
  | EmptyString => true
  | String c r => p c && every p r
  end.

(** [s.capitalize()]: the first character in upper case, the others in lower
    case. *)
Definition capitalize (s : string) : string :=
  match s with
  | EmptyString => EmptyString
  | String c r => String (upper_char c) (lower r)
  end.

(** [int(s)] for a text of decimal digits, continuing from [acc]. *)
Fixpoint int_from (acc : Z) (s : string) : Z :=
  match s with
  | EmptyString => acc
  | String c r => int_from (10 * acc + (Z.of_nat (code c) - 48)) r
  end.

(** [s.zfill(width)] for a text without sign. *)
Definition zfill (width : nat) (s : string) : string :=
  repeat_char "0" (width - String.length s) ++ s.

(** [f"{n:0{width}d}"]: the sign, if any, then zeros, then the digits, on
    [width] characters at least. *)
Definition format_0d (width : nat) (n : Z) : string :=
  if (n <? 0)%Z then "-" ++ zfill (width - 1) (str_of_Z (- n))
  else zfill width (str_of_Z n).

End Py.

(** ** The pending-nudge record, [pending_feedback.json] *)
Module Pending.

(** The JSON object; a missing key is [None].  [created_at] is the instant the
    ISO-8601 text denotes, in seconds ([None] also when [fromisoformat]
    rejects the text). *)
Record t := {
  created_at : option Q;
  ttl_seconds : option Z;
  nudge_markdown : option string;
  commands : list string;
  score : option Q;
  reason : option string;
  context : option string
}.

(** The file on disk. *)
Inductive file :=
| Absent
| Unparseable            (* [json.loads] raises *)
| Stored (data : t).

End Pending.

(** ** [sidekick-nudge.py]: delivery of the pending nudge *)
Module Nudge.
Import Pending.

(** What the hook prints to stderr and its exit status. *)
Inductive outcome :=
| Exit0                          (* nothing shown *)
| Exit1 (stderr : list string).  (* the lines printed, shown by the host *)

Definition banner : string := "🤖 GPT-5 Sidekick suggestion".

(** [age > ttl]. *)
Definition stale (ttl : Z) (age : Q) : bool := negb (Qle_bool age (inject_Z ttl)).

(** [main] from the point where [PENDING] is known.  [now] is the clock
    reading that dates the record's age; [fallback] is the earlier reading
    taken when [created_at] does not parse.  Every [unlink] is taken to
    succeed. *)
Definition main (fallback now : Q) (pending : file) : file * outcome :=
  match pending with
  | Absent => (Absent, Exit0)
  | Unparseable => (Unparseable, Exit0)
  | Stored data =>
      let ttl := Py.get (ttl_seconds data) 600%Z in
      let created_ts := Py.get (created_at data) fallback in
      let age := now - created_ts in
      if stale ttl age then (Absent, Exit0)
      else
        let nudge := Py.strip (Py.get (nudge_markdown data) "") in
        let reason := Py.get (reason data) "" in
        if Py.truthy nudge then
          (Absent,
           Exit1 (banner
                  :: List.app
                       (if Py.truthy reason then ["_Why_: " ++ reason ++ Py.nl] else [])
                       [nudge]))
        else (pending, Exit0)
  end.

(** The two tests of [main] on a stored record. *)
Definition is_stale (fallback now : Q) (data : Pending.t) : bool :=
  stale (Py.get (ttl_seconds data) 600%Z) (now - Py.get (created_at data) fallback).

Definition has_body (data : Pending.t) : bool :=
  Py.truthy (Py.strip (Py.get (nudge_markdown data) "")).

End Nudge.

(** ** [sidekick-counter.py]: the trigger gate *)
Module Counter.

(** [INTERVAL] and [COOLDOWN_S], read from the environment with [int(...)]. *)
Record config := { INTERVAL : Z; COOLDOWN_S : Z }.

Definition default_config : config := {| INTERVAL := 10; COOLDOWN_S := 120 |}.

(** The JSON object kept in [state.json]; both keys are optional. *)
Record state := { count : option Z; last_run : option Q }.

Definition empty_state : state := {| count := None; last_run := None |}.

(** [load_state]: the parsed file, or [{}] when it is absent or unreadable. *)
Definition load_state (state_file : option state) : state :=
  Py.get state_file empty_state.

(** What the try block around [subprocess.Popen] meets. *)
Inductive spawn_env :=
| WorkerRuns      (* the worker script exists and [Popen] returns *)
| WorkerMissing   (* [worker.exists()] is false *)
| PopenRaises.    (* [Popen] (or [exists]) raises; the handler passes *)

(** How [main] ends: [sys.exit(0)] with the value of [should_launch] and whether
    a worker was spawned, or the uncaught [ZeroDivisionError] of [count % INTERVAL]. *)
Inductive outcome :=
| Exit0 (should_launch spawned : bool)
| ZeroDivisionError.

Definition set_count (s : state) (c : Z) : state :=
  {| count := Some c; last_run := last_run s |}.
Definition set_last_run (s : state) (t : Q) : state :=
  {| count := count s; last_run := Some t |}.

(** [main]: one PostToolUse event at clock reading [now].  The state file after
    the event and the outcome. *)
Definition main (cfg : config) (now : Q) (env : spawn_env)
    (state_file : option state) : option state * outcome :=
  let s := load_state state_file in
  let count := (Py.get (count s) 0 + 1)%Z in
  let last_run := Py.get (last_run s) 0%Q in
  let s := set_count s count in
  (* save_state(STATE_FILE, s) *)
  match Py.mod_ count (INTERVAL cfg) with
  | None => (Some s, ZeroDivisionError)
  | Some r =>
      let should_launch :=
        (r =? 0)%Z && Qle_bool (inject_Z (COOLDOWN_S cfg)) (now - last_run) in
      if should_launch then
        match env with
        | WorkerRuns => (Some (set_last_run s now), Exit0 true true)
        | WorkerMissing | PopenRaises => (Some s, Exit0 true false)
        end
      else (Some s, Exit0 false false)
  end.

(** The gate fired: [should_launch] was true. *)
Definition fires (o : outcome) : Prop := exists spawned, o = Exit0 true spawned.

Definition firesb (o : outcome) : bool :=
  match o with Exit0 true _ => true | _ => false end.

(** The persisted counter and last fire time, as [main] reads them. *)
Definition counter_of (state_file : option state) : Z :=
  Py.get (count (load_state state_file)) 0%Z.
Definition last_run_of (state_file : option state) : Q :=
  Py.get (last_run (load_state state_file)) 0%Q.

(** A run of events, each with its clock reading and spawn environment. *)
Fixpoint run (cfg : config) (events : list (Q * spawn_env))
    (state_file : option state) : option state * list outcome :=
  match events with
  | [] => (state_file, [])
  | (now, env) :: rest =>
      let '(f1, o) := main cfg now env state_file in
      let '(f2, os) := run cfg rest f1 in
      (f2, o :: os)
  end.

End Counter.

(** ** Files of the state directory, as a reader may observe them *)
Module FS.

(** A [pathlib.Path]: directory, final name without suffix, suffix. *)
Record path := { parent : string; stem : string; suffix : string }.

(** [p.with_suffix(sfx)]. *)
Definition with_suffix (p : path) (sfx : string) : path :=
  {| parent := parent p; stem := stem p; suffix := sfx |}.

Definition path_eqb (p q : path) : bool :=
  String.eqb (parent p) (parent q) && String.eqb (stem p) (stem q)
  && String.eqb (suffix p) (suffix q).

(** The content of every file; [None] where there is no file. *)
Definition t := path -> option string.

Definition set (p : path) (v : option string) (fs : t) : t :=
  fun q => if path_eqb q p then v else fs q.

(** The system calls a save is made of.  Between any two of them another
    process may read. *)
Inductive op :=
| Truncate (p : path)                 (* [open(p, "w")]: create or empty the file *)
| Append (p : path) (chunk : string)  (* written data reaching the file *)
| Replace (src dst : path).           (* [src.replace(dst)]: rename over [dst] *)

Definition step (o : op) (fs : t) : t :=
  match o with
  | Truncate p => set p (Some "") fs
  | Append p chunk => set p (Some (Py.get (fs p) "" ++ chunk)) fs
  | Replace src dst =>
      match fs src with
      | Some data => set src None (set dst (Some data) fs)
      | None => fs
      end
  end.

(** The states after each call of a sequence, in order. *)
Fixpoint trace (ops : list op) (fs : t) : list t :=
  match ops with
  | [] => []
  | o :: rest => step o fs :: trace rest (step o fs)
  end.

Definition exec (ops : list op) (fs : t) : t := fold_left (fun s o => step o s) ops fs.

(** [open(p, "w")] followed by the writes of [chunks] and the close. *)
Definition write_file (p : path) (chunks : list string) : list op :=
  Truncate p :: map (Append p) chunks.

Definition text_of (chunks : list string) : string := String.concat "" chunks.

End FS.

(** ** [sidekick-counter.py]: saving the state file *)
Module CounterFile.

(** [save_state(state_file, data)]: dump into a new temporary file of the
    same directory, then rename it over the state file.  [tmp_name] is the
    name [NamedTemporaryFile] picked (without its [.tmp] suffix). *)
Definition save_state (tmp_name : string) (state_file : FS.path)
    (chunks : list string) : list FS.op :=
  let tmp_path :=
    {| FS.parent := FS.parent state_file; FS.stem := tmp_name; FS.suffix := ".tmp" |} in
  List.app (FS.write_file tmp_path chunks) [FS.Replace tmp_path state_file].

End CounterFile.

(** ** The transcript: one JSON object per line *)
Module Transcript.

(** A value of a tool's [input] object, by the two ways the workers render
    it: [shown] is what an f-string prints, [dumped] is its [json.dumps]. *)
Record jvalue := { shown : string; dumped : string }.

(** An element of a structured [content] list. *)
Inductive segment :=
| Text (text : option string)
| ToolUse (name : option string) (input : list (string * jvalue))
| ToolResult (output content : option string)
| OtherSegment.

Inductive content :=
| Segments (cs : list segment)
| Plain (s : string)
| OtherContent.

(** The ["message"] object of an entry. *)
Record message := { role : option string; body : option content }.

(** A parsed line.  [type_] and [timestamp] are strings when present. *)
Record entry := {
  timestamp : option string;
  type_ : option string;
  msg : option message
}.

(** A line of the file: [None] where [json.loads] raises. *)
Definition line := option entry.

(** What [read_messages_since] appends to [msgs]. *)
Record event := {
  e_role : string;
  e_text : string;
  e_timestamp : string;
  e_tools : list string
}.

Definition dq : string := String (ascii_of_nat 34) "".

(** [k in inp] and [inp.get(k)]. *)
Fixpoint lookup (k : string) (inp : list (string * jvalue)) : option jvalue :=
  match inp with
  | [] => None
  | (k', v) :: rest => if String.eqb k k' then Some v else lookup k rest
  end.

(** [json.dumps] of an object with plain keys. *)
Definition dumps_object (kvs : list (string * jvalue)) : string :=
  "{" ++ Py.join ", " (map (fun kv => dq ++ fst kv ++ dq ++ ": " ++ dumped (snd kv)) kvs)
  ++ "}".

(** [{k: inp.get(k) for k in keys if k in inp}]. *)
Fixpoint pick (keys : list string) (inp : list (string * jvalue))
    : list (string * jvalue) :=
  match keys with
  | [] => []
  | k :: rest =>
      match lookup k inp with
      | Some v => (k, v) :: pick rest inp
      | None => pick rest inp
      end
  end.

(** The watermark guard: [last_ts and ts and ts <= last_ts]. *)
Definition already_seen (last_ts : option string) (ts : string) : bool :=
  match last_ts with
  | Some w => Py.truthy w && Py.truthy ts && String.leb ts w
  | None => false
  end.

Definition mem (x : string) (l : list string) : bool := existsb (String.eqb x) l.

(** The events the guard lets through, said positively: every event when the
    watermark is unset or empty; otherwise the events with no timestamp and
    those with a timestamp strictly after the watermark. *)
Definition undated_or_newer (last_ts : option string) (ev : event) : bool :=
  match last_ts with
  | None => true
  | Some w =>
      negb (Py.truthy w) || negb (Py.truthy (e_timestamp ev))
      || String.ltb w (e_timestamp ev)
  end.

(** An entry without a usable timestamp: the key is missing or holds [""]. *)
Definition undated (e : entry) : Prop := timestamp e = None \/ timestamp e = Some "".

(** Timestamps in append order never decrease. *)
Definition non_decreasing (events : list event) : Prop :=
  Sorted.Sorted (fun a b => String.leb (e_timestamp a) (e_timestamp b) = true) events.

Definition dated (ev : event) : Prop := e_timestamp ev <> "".

End Transcript.

(** ** [sidekick-review-worker.py] *)
Module Worker.
Import Transcript.

(** [save_json]: write the text to [path.with_suffix(".tmp")], then rename it
    over [path].  [chunks] are the pieces in which the text reaches the file. *)
Definition save_json (path : FS.path) (chunks : list string) : list FS.op :=
  let tmp := FS.with_suffix path ".tmp" in
  List.app (FS.write_file tmp chunks) [FS.Replace tmp path].

(** The text appended for one element of a [content] list, and the tool it names. *)
Definition flatten_segment (c : segment) : list string * list string :=
  match c with
  | Text t => ([Py.get t ""], [])
  | ToolUse name inp =>
      let name := Py.get name "" in
      let snip := dumps_object (pick ["command"; "file_path"; "paths"; "query"] inp) in
      (["[TOOL USE " ++ name ++ "] " ++ snip], [name])
  | ToolResult out _ =>
      let lines := Py.splitlines (Py.get out "") in
      (["[TOOL RESULT] " ++ Py.join Py.nl (Py.first_n 40 lines)], [])
  | OtherSegment => ([], [])
  end.

Definition flatten (c : content) : list string * list string :=
  match c with
  | Segments cs =>
      (flat_map (fun s => fst (flatten_segment s)) cs,
       flat_map (fun s => snd (flatten_segment s)) cs)
  | Plain s => ([s], [])
  | OtherContent => ([], [])
  end.

(** The body of the loop for an entry that passed the watermark guard: the
    event appended, if any. *)
Definition extract (e : entry) : option event :=
  let ts := Py.get (timestamp e) "" in
  match type_ e, msg e with
  | Some ty, Some m =>
      if mem ty ["user"; "assistant"; "system"] then
        let role := Py.get (role m) ty in
        let '(text_parts, tools) := flatten (Py.get (body m) (Plain "")) in
        let text := Py.strip (Py.join Py.nl text_parts) in
        if Py.truthy text
        then Some {| e_role := role; e_text := text; e_timestamp := ts; e_tools := tools |}
        else None
      else None
  | _, _ => None
  end.

(** [read_messages_since(transcript_path, last_ts)]; [transcript] is [None]
    when the path is [None] or names no file. *)
Fixpoint read_lines (lines : list line) (last_ts : option string) : list event :=
  match lines with
  | [] => []
  | None :: rest => read_lines rest last_ts
  | Some entry :: rest =>
      let ts := Py.get (timestamp entry) "" in
      if already_seen last_ts ts then read_lines rest last_ts
      else
        match extract entry with
        | Some ev => ev :: read_lines rest last_ts
        | None => read_lines rest last_ts
        end
  end.

Definition read_messages_since (transcript : option (list line))
    (last_ts : option string) : list event :=
  match transcript with
  | None => []
  | Some lines => read_lines lines last_ts
  end.

(** *** The regular expressions of [sanitize]

    A matcher tells, for a position of the text, the length of the match that
    starts there: it sees the character before the position (for a word
    boundary) and the text from the position on. *)
Definition matcher := option ascii -> string -> option nat.

Definition take (n : nat) (s : string) : string := String.substring 0 n s.
Fixpoint drop (n : nat) (s : string) : string :=
  match n, s with
  | S k, String _ r => drop k r
  | _, _ => s
  end.

(** [re.sub(pattern, repl, s)] for a pattern that matches no empty string:
    scan left to right, replace each leftmost match, resume after it.
    [skip] counts the characters of the current match still to pass. *)
Fixpoint sub_from (m : matcher) (repl : string -> string)
    (skip : nat) (prev : option ascii) (s : string) : string :=
  match s with
  | EmptyString => EmptyString
  | String c rest =>
      match skip with
      | S k => sub_from m repl k (Some c) rest
      | O =>
          match m prev s with
          | Some (S k) => repl (take (S k) s) ++ sub_from m repl k (Some c) rest
          | _ => String c (sub_from m repl O (Some c) rest)
          end
      end
  end.

Definition re_sub (m : matcher) (repl : string -> string) (s : string) : string :=
  sub_from m repl O None s.

(** The length of the longest prefix whose characters satisfy [p]. *)
Fixpoint span (p : ascii -> bool) (s : string) : nat :=
  match s with
  | String c r => if p c then S (span p r) else O
  | EmptyString => O
  end.

Definition is_digit (c : ascii) : bool := Py.between 48 57 c.
Definition is_word (c : ascii) : bool :=
  is_digit c || Py.between 65 90 c || Py.between 97 122 c || (Py.code c =? 95)%nat.
(** [[a-f0-9-]] under [(?i)]. *)
Definition is_hex_or_dash (c : ascii) : bool :=
  is_digit c || Py.between 97 102 c || Py.between 65 70 c || (Py.code c =? 45)%nat.
Definition is_colon_or_eq (c : ascii) : bool :=
  (Py.code c =? 58)%nat || (Py.code c =? 61)%nat.

(** [s] starts with [kw], letters compared without case. *)
Definition starts_with_nocase (kw s : string) : bool :=
  String.eqb kw (Py.lower (take (String.length kw) s)).

(** [(?i)\b(uuid|request_id|trace_id)\b[:=]\s*[a-f0-9-]+] *)
Definition noise_id : matcher := fun prev s =>
  let at_boundary := match prev with Some p => negb (is_word p) | None => true end in
  let kw :=
    if starts_with_nocase "uuid" s then Some 4%nat
    else if starts_with_nocase "request_id" s then Some 10%nat
    else if starts_with_nocase "trace_id" s then Some 8%nat
    else None in
  match at_boundary, kw with
  | true, Some k =>
      match drop k s with
      | String c r =>
          if is_colon_or_eq c then
            let w := span Py.is_space r in
            let h := span is_hex_or_dash (drop w r) in
            if (h =? 0)%nat then None else Some (k + 1 + w + h)%nat
          else None
      | EmptyString => None
      end
  | _, _ => None
  end.

(** [\x1b\[[0-9;]*m] *)
Definition ansi_colour : matcher := fun _ s =>
  match s with
  | String c0 (String c1 r) =>
      if Ascii.eqb c0 Py.ESC && (Py.code c1 =? 91)%nat then
        let d := span (fun c => is_digit c || (Py.code c =? 59)%nat) r in
        match drop d r with
        | String c _ => if (Py.code c =? 109)%nat then Some (2 + d + 1)%nat else None
        | EmptyString => None
        end
      else None
  | _ => None
  end.

Definition fence : string := "```".

(** [```[\s\S]*?```]: a fence, then up to the first fence that follows. *)
Definition fenced_block : matcher := fun _ s =>
  if String.prefix fence s then
    match String.index 0 fence (drop 3 s) with
    | Some j => Some (3 + j + 3)%nat
    | None => None
    end
  else None.

(** *** Limits, read from the environment *)
Record config := {
  MAX_EVENTS : Z;
  MAX_LINES_TOTAL : Z;
  MAX_BLOCK_LINES : Z;
  THRESHOLD : Q;
  NUDGE_TTL : Z
}.

Definition default_config : config :=
  {| MAX_EVENTS := 60; MAX_LINES_TOTAL := 1200; MAX_BLOCK_LINES := 500;
     THRESHOLD := 2 # 10; NUDGE_TTL := 900 |}.

(** The marker appended after a cut: [f"\n... [truncated {n} lines]"]. *)
Definition truncated_marker (n : Z) : string :=
  "... [truncated " ++ Py.str_of_Z n ++ " lines]".

(** [truncate_block_lines(text, max_lines)]. *)
Definition truncate_block_lines (text : string) (max_lines : Z) : string :=
  let lines := Py.splitlines text in
  if (Py.len lines <=? max_lines)%Z then text
  else Py.join Py.nl (Py.first_n max_lines lines)
       ++ Py.nl ++ truncated_marker (Py.len lines - max_lines).

(** The replacement function [_trim_block] of [sanitize]. *)
Definition _trim_block (cfg : config) (block : string) : string :=
  let long := (6 <? String.length block)%nat in
  let head := Py.sslice None (Some 3%Z) block in
  let body := if long then Py.sslice (Some 3%Z) (Some (-3)%Z) block else "" in
  let tail := if long then Py.sslice (Some (-3)%Z) None block else "" in
  let body_trim := truncate_block_lines body (MAX_BLOCK_LINES cfg) in
  head ++ body_trim ++ tail.

(** The chunk [sanitize] builds for one message. *)
Definition clean_chunk (cfg : config) (m : event) : string :=
  let txt := e_text m in
  let txt := re_sub noise_id (fun _ => "") txt in
  let txt := re_sub ansi_colour (fun _ => "") txt in
  let txt := re_sub fenced_block (_trim_block cfg) txt in
  Py.upper (e_role m) ++ " @ " ++ e_timestamp m ++ Py.nl ++ txt ++ Py.nl.

Definition separator : string :=
  Py.nl ++ Py.repeat_char (ascii_of_nat 45) 60 ++ Py.nl.

(** The global line cap that ends [sanitize]. *)
Definition cap_lines (max_total : Z) (all_text : string) : string :=
  let lines := Py.splitlines all_text in
  if (max_total <? Py.len lines)%Z then
    Py.join Py.nl (Py.first_n max_total lines)
    ++ Py.nl ++ truncated_marker (Py.len lines - max_total)
  else all_text.

(** [all_text] of [sanitize] before the global line cap. *)
Definition all_text (cfg : config) (messages : list event) : string :=
  let cleaned_chunks := map (clean_chunk cfg) (Py.last_n (MAX_EVENTS cfg) messages) in
  Py.join separator cleaned_chunks.

(** [sanitize(messages)]. *)
Definition sanitize (cfg : config) (messages : list event) : string :=
  cap_lines (MAX_LINES_TOTAL cfg) (all_text cfg messages).

(** *** The pass: [main] *)

(** [memory.json] of this worker; every key is optional in a loaded file. *)
Record memory := {
  last_timestamp : option string;
  long_term_summary : option string;
  last_nudge_hash : option string
}.

Definition default_memory : memory :=
  {| last_timestamp := None; long_term_summary := Some ""; last_nudge_hash := Some "" |}.

(** The object parsed from the model's reply.  [should_intervene] is the
    truth value of the field, [score] the number [float] makes of it. *)
Record verdict := {
  should_intervene : bool;
  score : option Q;
  reason : option string;
  nudge_markdown : option string;
  commands : list string;
  memory_update : option string
}.

Record payload := {
  project_policy : string;
  p_long_term_summary : string;
  recent_events : string
}.

(** What a pass takes from outside the repository: the clock, the policy
    excerpt, [hashlib.sha256(...).hexdigest()], and the reasoning service
    followed by [json.loads] ([None]: the call or the parse raised). *)
Record world := {
  now : Q;
  policy : string;
  sha256_hex : string -> string;
  advise : payload -> option verdict
}.

(** The two files of the project's state directory. [memory_file] is [None]
    when the file is absent or does not parse. *)
Record state := {
  memory_file : option memory;
  pending_file : Pending.file
}.

Definition last_event (msgs : list event) : option event := List.last (map Some msgs) None.

(** [a != b] between the digest and [memory.get("last_nudge_hash")]. *)
Definition differs (h : string) (stored : option string) : bool :=
  match stored with
  | Some h' => negb (String.eqb h h')
  | None => true
  end.

(** The gate of the pass: the condition under which the pending record is written. *)
Definition gate (cfg : config) (should : bool) (score : Q) (nudge nudge_hash : string)
    (stored_hash : option string) : bool :=
  should && Qle_bool (THRESHOLD cfg) score && Py.truthy nudge
  && differs nudge_hash stored_hash.

(** The request sent to the reasoning service. *)
Definition user_payload (cfg : config) (w : world) (m : memory) (msgs : list event)
    : payload :=
  {| project_policy := policy w;
     p_long_term_summary :=
       Py.sslice None (Some 2000%Z) (Py.get (long_term_summary m) "");
     recent_events := sanitize cfg msgs |}.

(** The nudge of a verdict and its digest, as [main] computes them. *)
Definition nudge_of (out : verdict) : string :=
  Py.strip (Py.or_empty (nudge_markdown out)).
Definition digest (w : world) (nudge : string) : string :=
  if Py.truthy nudge then sha256_hex w nudge else "".

(** [main], from the event file read.  Returns the files after the pass and
    the pending record the pass wrote, if it wrote one. *)
Definition main (cfg : config) (w : world) (transcript : option (list line))
    (st : state) : state * option Pending.t :=
  let memory := Py.get (memory_file st) default_memory in
  let msgs := read_messages_since transcript (last_timestamp memory) in
  match last_event msgs with
  | None => (st, None)                       (* [if not msgs: return] *)
  | Some last_msg =>
      match advise w (user_payload cfg w memory msgs) with
      | None => (st, None)
      | Some out =>
          let should := should_intervene out in
          let score := Py.get (score out) 0%Q in
          let nudge := nudge_of out in
          let cmds := commands out in
          let memup := Py.strip (Py.or_empty (memory_update out)) in
          let nudge_hash := digest w nudge in
          let lt := Py.get (long_term_summary memory) "" in
          let lt' :=
            if Py.truthy memup
            then Some (Py.sslice None (Some 4000%Z) (Py.strip (lt ++ Py.nl ++ memup)))
            else long_term_summary memory in
          let last_ts :=
            if Py.truthy (e_timestamp last_msg) then Some (e_timestamp last_msg)
            else last_timestamp memory in
          let memory :=
            {| last_timestamp := last_ts; long_term_summary := lt';
               last_nudge_hash := last_nudge_hash memory |} in
          (* save_json(MEMORY_FILE, memory) *)
          if gate cfg should score nudge nudge_hash (last_nudge_hash memory) then
            let pending :=
              {| Pending.created_at := Some (now w);
                 Pending.ttl_seconds := Some (NUDGE_TTL cfg);
                 Pending.nudge_markdown := Some nudge;
                 Pending.commands := cmds;
                 Pending.score := Some score;
                 Pending.reason := Some (Py.get (reason out) "");
                 Pending.context := None |} in
            let memory :=
              {| last_timestamp := last_ts; long_term_summary := lt';
                 last_nudge_hash := Some nudge_hash |} in
            ({| memory_file := Some memory; pending_file := Pending.Stored pending |},
             Some pending)
          else
            ({| memory_file := Some memory; pending_file := pending_file st |}, None)
      end
  end.

(** The digest of the last nudge, as the next pass will read it. *)
Definition stored_digest (st : state) : option string :=
  last_nudge_hash (Py.get (memory_file st) default_memory).

(** Passes one after the other on the same state directory, each with its
    own world and transcript content; what each pass wrote. *)
Fixpoint run (cfg : config) (passes : list (world * option (list line)))
    (st : state) : state * list (option Pending.t) :=
  match passes with
  | [] => (st, [])
  | (w, transcript) :: rest =>
      let '(st1, written) := main cfg w transcript st in
      let '(st2, more) := run cfg rest st1 in
      (st2, written :: more)
  end.

(** The digests of the bodies of the records written, in order. *)
Fixpoint written_digests (sha : string -> string) (written : list (option Pending.t))
    : list string :=
  match written with
  | [] => []
  | Some p :: rest => sha (Py.get (Pending.nudge_markdown p) "") :: written_digests sha rest
  | None :: rest => written_digests sha rest
  end.

(** No digest equals the one before it, [prev] being before the first. *)
Fixpoint no_repeat (prev : option string) (digests : list string) : Prop :=
  match digests with
  | [] => True
  | h :: rest => prev <> Some h /\ no_repeat (Some h) rest
  end.

(** What [find_transcript] sees of the disk: which paths exist, and the
    [*.jsonl] files under the project's [.claude] with their modification
    times, in the order [rglob] yields them ([None]: no such directory). *)
Record disk := {
  path_exists : string -> bool;
  claude_jsonl : option (list (string * Q))
}.

(** [max(candidates, key=mtime)] from a first candidate on: a later candidate
    replaces the best so far only when strictly newer. *)
Fixpoint newest (best : string * Q) (rest : list (string * Q)) : string * Q :=
  match rest with
  | [] => best
  | c :: rest' =>
      if Qle_bool (snd c) (snd best) then newest best rest' else newest c rest'
  end.

(** [find_transcript(event, cwd)]; [tp] is [event.get("transcript_path")]. *)
Definition find_transcript (d : disk) (tp : option string) : option string :=
  let explicit :=
    match tp with
    | Some p => Py.truthy p && path_exists d p
    | None => false
    end in
  if explicit then tp
  else
    match Py.get (claude_jsonl d) [] with
    | [] => None
    | c :: rest => Some (fst (newest c rest))
    end.

(** The saved long-term summary, as the next pass will read it. *)
Definition stored_summary (st : state) : string :=
  Py.get (long_term_summary (Py.get (memory_file st) default_memory)) "".

(** A character that can start or complete none of the three patterns of
    [sanitize]: not ESC, not a backtick, not a colon, not an equals sign. *)
Definition inert (c : ascii) : bool :=
  negb (Ascii.eqb c Py.ESC) && negb (Py.code c =? 96)%nat && negb (is_colon_or_eq c).

End Worker.

(** ** [sidekick-review-worker-enhanced.py] *)
Module Enhanced.
Import Transcript.

(** [save_json]: open the target for writing and dump into it. *)
Definition save_json (path : FS.path) (chunks : list string) : list FS.op :=
  FS.write_file path chunks.

(** An element of [memory["key_decisions"]]: one found by the reader, or one
    the verdict lists (stamped with the clock). *)
Inductive key_decision :=
| Observed (timestamp : string) (events : list string) (summary : string)
| Decided (timestamp : Q) (decision : string).

Definition edit_tools : list string := ["Edit"; "Write"; "MultiEdit"].

(** [extract_key_info(msg)]. *)
Definition extract_key_info (m : event) : list string :=
  let text := Py.lower (e_text m) in
  let tools := e_tools m in
  List.app
    (if existsb (fun tool => mem tool tools) ["Write"; "MultiEdit"; "Edit"] then
       List.app (if Py.contains "test" text then ["wrote_tests"] else [])
         (List.app
            (if Py.contains "fix" text || Py.contains "bug" text then ["bug_fix"] else [])
            (if Py.contains "refactor" text then ["refactoring"] else []))
     else [])
    (List.app
       (if Py.contains "error" text || Py.contains "failed" text
        then ["error_encountered"] else [])
       (if Py.contains "security" text || Py.contains "auth" text
        then ["security_related"] else [])).

Definition flatten_segment (c : segment) : list string * list string :=
  match c with
  | Text t => ([Py.get t ""], [])
  | ToolUse name inp =>
      let name := Py.get name "" in
      let snip :=
        if mem name edit_tools
        then Py.sslice None (Some 200%Z) (dumps_object inp)
        else dumps_object (pick ["command"; "file_path"; "paths"; "query"] inp) in
      (["[TOOL USE " ++ name ++ "] " ++ snip], [name])
  | ToolResult _ out =>
      let lines := Py.splitlines (Py.get out "") in
      (["[TOOL RESULT] " ++ Py.join Py.nl (Py.first_n 40 lines)], [])
  | OtherSegment => ([], [])
  end.

Definition flatten (c : content) : list string * list string :=
  match c with
  | Segments cs =>
      (flat_map (fun s => fst (flatten_segment s)) cs,
       flat_map (fun s => snd (flatten_segment s)) cs)
  | Plain s => ([s], [])
  | OtherContent => ([], [])
  end.

Definition extract (e : entry) : option event :=
  let ts := Py.get (timestamp e) "" in
  match type_ e, msg e with
  | Some ty, Some m =>
      if mem ty ["user"; "assistant"; "system"] then
        let role := Py.get (role m) ty in
        let '(text_parts, tools) := flatten (Py.get (body m) (Plain "")) in
        let text := Py.strip (Py.join Py.nl text_parts) in
        if Py.truthy text
        then Some {| e_role := role; e_text := text; e_timestamp := ts; e_tools := tools |}
        else None
      else None
  | _, _ => None
  end.

(** The key decision the reader records for an appended event, if any. *)
Definition key_decision_of (m : event) : list key_decision :=
  match extract_key_info m with
  | [] => []
  | key_info => [Observed (e_timestamp m) key_info (Py.sslice None (Some 100%Z) (e_text m))]
  end.

Fixpoint read_lines (lines : list line) (last_ts : option string)
    : list event * list key_decision :=
  match lines with
  | [] => ([], [])
  | None :: rest => read_lines rest last_ts
  | Some entry :: rest =>
      let ts := Py.get (timestamp entry) "" in
      if already_seen last_ts ts then read_lines rest last_ts
      else
        match extract entry with
        | Some ev =>
            let '(msgs, key_decisions) := read_lines rest last_ts in
            (ev :: msgs, List.app (key_decision_of ev) key_decisions)
        | None => read_lines rest last_ts
        end
  end.

(** [read_messages_since(transcript_path, last_ts)]. *)
Definition read_messages_since (transcript : option (list line))
    (last_ts : option string) : list event * list key_decision :=
  match transcript with
  | None => ([], [])
  | Some lines => read_lines lines last_ts
  end.

Definition default_config : Worker.config :=
  {| Worker.MAX_EVENTS := 100; Worker.MAX_LINES_TOTAL := 2000;
     Worker.MAX_BLOCK_LINES := 500; Worker.THRESHOLD := 0; Worker.NUDGE_TTL := 900 |}.

(** [l[::5]]: every fifth element, from the first. *)
Fixpoint every_fifth_from {A} (phase : nat) (l : list A) : list A :=
  match l with
  | [] => []
  | x :: rest =>
      match phase with
      | O => x :: every_fifth_from 4 rest
      | S k => every_fifth_from k rest
      end
  end.

(** [all_text] of [sanitize] before the global line cap. *)
Definition all_text (cfg : Worker.config) (messages : list event)
    (include_older : bool) : string :=
  let messages_to_process :=
    if include_older then
      let older :=
        if (Worker.MAX_EVENTS cfg <? Py.len messages)%Z
        then Py.slice None (Some (- Worker.MAX_EVENTS cfg)%Z) messages
        else [] in
      let recent := Py.last_n (Worker.MAX_EVENTS cfg) messages in
      let sampled_older := Py.last_n 20 (every_fifth_from 0 older) in
      List.app sampled_older recent
    else Py.last_n (Worker.MAX_EVENTS cfg) messages in
  let cleaned_chunks := map (Worker.clean_chunk cfg) messages_to_process in
  Py.join Worker.separator cleaned_chunks.

(** [sanitize(messages, include_older)]. *)
Definition sanitize (cfg : Worker.config) (messages : list event)
    (include_older : bool) : string :=
  Worker.cap_lines (Worker.MAX_LINES_TOTAL cfg) (all_text cfg messages include_older).

(** The truncation that follows every update of the list: [[-50:]]. *)
Definition keep_last_50 (l : list key_decision) : list key_decision := Py.last_n 50 l.

Record memory := {
  last_timestamp : option string;
  long_term_summary : option string;
  last_nudge_hash : option string;
  key_decisions : option (list key_decision);
  session_count : option Z
}.

Definition default_memory : memory :=
  {| last_timestamp := None; long_term_summary := Some ""; last_nudge_hash := Some "";
     key_decisions := Some []; session_count := Some 0%Z |}.

Record verdict := {
  should_intervene : bool;
  score : option Q;
  reason : option string;
  nudge_markdown : option string;
  commands : list string;
  memory_update : option string;
  v_key_decisions : list string
}.

Record payload := {
  project_policy : string;
  p_long_term_summary : string;
  p_key_decisions : list key_decision;
  session_number : Z;
  recent_events : string
}.

Record world := {
  now : Q;
  policy : string;
  sha256_hex : string -> string;
  advise : payload -> option verdict
}.

Record state := {
  memory_file : option memory;
  pending_file : Pending.file
}.

(** The key decisions of the saved record, as the next pass will read them. *)
Definition stored_key_decisions (st : state) : list key_decision :=
  Py.get (key_decisions (Py.get (memory_file st) default_memory)) [].

(** [main], from the event file read. *)
Definition main (cfg : Worker.config) (w : world) (transcript : option (list line))
    (st : state) : state * option Pending.t :=
  let memory := Py.get (memory_file st) default_memory in
  let '(msgs, new_key_decisions) :=
    read_messages_since transcript (last_timestamp memory) in
  match Worker.last_event msgs with
  | None => (st, None)
  | Some last_msg =>
      let kds := keep_last_50 (List.app (Py.get (key_decisions memory) []) new_key_decisions) in
      let session := (Py.get (session_count memory) 0 + 1)%Z in
      let sanitized := sanitize cfg msgs true in
      let user_payload :=
        {| project_policy := policy w;
           p_long_term_summary :=
             Py.sslice None (Some 3500%Z) (Py.get (long_term_summary memory) "");
           p_key_decisions := Py.last_n 20 kds;
           session_number := session;
           recent_events := sanitized |} in
      match advise w user_payload with
      | None => (st, None)
      | Some out =>
          let should := should_intervene out in
          let score := Py.get (score out) 0%Q in
          let nudge := Py.strip (Py.or_empty (nudge_markdown out)) in
          let memup := Py.strip (Py.or_empty (memory_update out)) in
          let nudge_hash := if Py.truthy nudge then sha256_hex w nudge else "" in
          let lt := Py.get (long_term_summary memory) "" in
          let lt' :=
            if Py.truthy memup
            then Some (Py.sslice None (Some 4000%Z)
                         (Py.strip (lt ++ Py.nl ++ "[Session " ++ Py.str_of_Z session
                                    ++ "] " ++ memup)))
            else long_term_summary memory in
          let kds := keep_last_50 (List.app kds (map (Decided (now w)) (v_key_decisions out))) in
          let last_ts :=
            if Py.truthy (e_timestamp last_msg) then Some (e_timestamp last_msg)
            else last_timestamp memory in
          let saved h :=
            {| last_timestamp := last_ts; long_term_summary := lt';
               last_nudge_hash := h; key_decisions := Some kds;
               session_count := Some session |} in
          if Worker.gate cfg should score nudge nudge_hash (last_nudge_hash memory) then
            let pending :=
              {| Pending.created_at := Some (now w);
                 Pending.ttl_seconds := Some (Worker.NUDGE_TTL cfg);
                 Pending.nudge_markdown := Some nudge;
                 Pending.commands := commands out;
                 Pending.score := Some score;
                 Pending.reason := Some (Py.get (reason out) "");
                 Pending.context :=
                   Some ("Session " ++ Py.str_of_Z session ++ ", "
                         ++ Py.str_of_Z (Py.len msgs) ++ " new messages") |} in
            ({| memory_file := Some (saved (Some nudge_hash));
                pending_file := Pending.Stored pending |}, Some pending)
          else
            ({| memory_file := Some (saved (last_nudge_hash memory));
                pending_file := pending_file st |}, None)
      end
  end.

(** The messages [sanitize] formats: [messages_to_process]. *)
Definition messages_to_process (cfg : Worker.config) (messages : list event)
    (include_older : bool) : list event :=
  if include_older then
    let older :=
      if (Worker.MAX_EVENTS cfg <? Py.len messages)%Z
      then Py.slice None (Some (- Worker.MAX_EVENTS cfg)%Z) messages
      else [] in
    let recent := Py.last_n (Worker.MAX_EVENTS cfg) messages in
    let sampled_older := Py.last_n 20 (every_fifth_from 0 older) in
    List.app sampled_older recent
  else Py.last_n (Worker.MAX_EVENTS cfg) messages.

End Enhanced.

(** ** [sidekick-memory-advanced.py] *)
Module Advanced.
Import Transcript.

Definition MAX_RECENT_MSGS : Z := 50.
Definition MAX_LINES_TOTAL : Z := 1500.
Definition THRESHOLD : Q := 0.
Definition NUDGE_TTL : Z := 900.

(** [save_json]: open the target for writing and dump into it. *)
Definition save_json (path : FS.path) (chunks : list string) : list FS.op :=
  FS.write_file path chunks.

(** An element of [feature_changes]. *)
Inductive change_type := addition | removal.
Record feature_change := { fc_type : change_type; fc_file : string; fc_timestamp : string }.

(** A step of the reader either goes on or raises ([text_parts[-1]] on an
    empty list). *)
Inductive result (A : Type) :=
| Ok (a : A)
| IndexError.
Arguments Ok {A} a.
Arguments IndexError {A}.

Definition edit_tools : list string := ["Write"; "Edit"; "MultiEdit"].

(** One element of a [content] list, given the parts and tools so far. *)
Definition flatten_segment (ts : string) (c : segment)
    (acc : list string * list string * list feature_change)
    : result (list string * list string * list feature_change) :=
  let '(text_parts, tools, changes) := acc in
  match c with
  | Text t => Ok (List.app text_parts [Py.get t ""], tools, changes)
  | ToolUse name inp =>
      let name := Py.get name "" in
      let tools := List.app tools [name] in
      if mem name edit_tools then
        match List.last (map Some text_parts) None with
        | None => IndexError
        | Some prev =>
            let file_path := match lookup "file_path" inp with
                             | Some v => shown v | None => "" end in
            let prev := Py.lower prev in
            let changes :=
              if Py.contains "add" prev || Py.contains "implement" prev then
                List.app changes
                  [{| fc_type := addition; fc_file := file_path; fc_timestamp := ts |}]
              else if Py.contains "remove" prev || Py.contains "delete" prev then
                List.app changes
                  [{| fc_type := removal; fc_file := file_path; fc_timestamp := ts |}]
              else changes in
            let shown_path := match lookup "file_path" inp with
                              | Some v => shown v | None => "unknown" end in
            Ok (List.app text_parts ["[" ++ name ++ ": " ++ shown_path ++ "]"], tools, changes)
        end
      else Ok (List.app text_parts ["[" ++ name ++ "]"], tools, changes)
  | ToolResult _ out =>
      let out := Py.sslice None (Some 200%Z) (Py.get out "") in
      if Py.contains "error" (Py.lower out)
      then Ok (List.app text_parts ["[ERROR: " ++ Py.sslice None (Some 100%Z) out ++ "]"],
               tools, changes)
      else Ok acc
  | OtherSegment => Ok acc
  end.

Fixpoint flatten_segments (ts : string) (cs : list segment)
    (acc : list string * list string * list feature_change)
    : result (list string * list string * list feature_change) :=
  match cs with
  | [] => Ok acc
  | c :: rest =>
      match flatten_segment ts c acc with
      | Ok acc' => flatten_segments ts rest acc'
      | IndexError => IndexError
      end
  end.

(** The body of the loop for an entry that passed the watermark guard: the
    event appended, if any, and the feature changes found. *)
Definition extract (e : entry) : result (option event * list feature_change) :=
  let ts := Py.get (timestamp e) "" in
  match type_ e, msg e with
  | Some ty, Some m =>
      if mem ty ["user"; "assistant"] then
        let role := Py.get (role m) ty in
        let flat :=
          match Py.get (body m) (Plain "") with
          | Segments cs => flatten_segments ts cs ([], [], [])
          | Plain s => Ok ([s], [], [])
          | OtherContent => Ok ([], [], [])
          end in
        match flat with
        | IndexError => IndexError
        | Ok (text_parts, tools, changes) =>
            let text := Py.strip (Py.join Py.nl text_parts) in
            if Py.truthy text
            then Ok (Some {| e_role := role; e_text := text;
                             e_timestamp := ts; e_tools := tools |}, changes)
            else Ok (None, changes)
        end
      else Ok (None, [])
  | _, _ => Ok (None, [])
  end.

Fixpoint read_lines (lines : list line) (last_ts : option string)
    : result (list event * list feature_change) :=
  match lines with
  | [] => Ok ([], [])
  | None :: rest => read_lines rest last_ts
  | Some entry :: rest =>
      let ts := Py.get (timestamp entry) "" in
      if already_seen last_ts ts then read_lines rest last_ts
      else
        match extract entry with
        | IndexError => IndexError
        | Ok (ev, changes) =>
            match read_lines rest last_ts with
            | IndexError => IndexError
            | Ok (msgs, feature_changes) =>
                Ok (List.app (match ev with Some m => [m] | None => [] end) msgs,
                    List.app changes feature_changes)
            end
        end
  end.

(** [read_messages_since(transcript_path, last_ts)]. *)
Definition read_messages_since (transcript : option (list line))
    (last_ts : option string) : result (list event * list feature_change) :=
  match transcript with
  | None => Ok ([], [])
  | Some lines => read_lines lines last_ts
  end.

(** *** The memory record and [build_rich_memory]

    The record keeps the keys the bounded lists depend on; [last_updated],
    [project_context], [git_context], [conversation_summary],
    [error_patterns] and [recommendations] are written by
    [build_rich_memory] without changing any list, and are left out.  The
    recommendations step reads the last struggling feature; what it can
    raise there is kept. *)

(** An element of a feature-lifecycle list. *)
Inductive feature :=
| Active (id file started : string) (iterations : Z)
| Removed (id file removed : string)
| Struggling (file : string) (edit_count session : Z) (suggestion : string)
| RollbackSuggested (feature : string) (session : Z).

Record lifecycle := {
  active_features : list feature;
  completed_features : list feature;
  struggling_features : list feature;
  removed_features : list feature
}.

Definition empty_lifecycle : lifecycle :=
  {| active_features := []; completed_features := [];
     struggling_features := []; removed_features := [] |}.

Record decision := { d_decision : string; d_timestamp : string; d_session : Z }.
Record insight := { i_timestamp : Q; i_insight : string; i_session : Z }.

(** [feature_lifecycle] is [None] for a missing key or an empty object,
    [technical_decisions] and [ai_insights] for a missing key. *)
Record memory := {
  last_timestamp : option string;
  sessions : option Z;
  feature_lifecycle : option lifecycle;
  technical_decisions : option (list decision);
  ai_insights : option (list insight)
}.

Definition default_memory : memory :=
  {| last_timestamp := None; sessions := Some 0%Z; feature_lifecycle := None;
     technical_decisions := Some []; ai_insights := None |}.

Definition is_slash (c : ascii) : bool := (Py.code c =? 47)%nat || (Py.code c =? 92)%nat.
Definition is_lower (c : ascii) : bool := Py.between 97 122 c.

(** Inside the leading run of characters other than slashes: the last
    position of a dot that a lower-case letter follows. *)
Fixpoint last_dot (s : string) : option nat :=
  match s with
  | EmptyString => None
  | String c r =>
      if is_slash c then None
      else
        match last_dot r with
        | Some k => Some (S k)
        | None =>
            if (Py.code c =? 46)%nat
               && match r with String c' _ => is_lower c' | EmptyString => false end
            then Some O else None
        end
  end.

(** [([^/\\]+\.[a-z]+)] at the start of [s]: the length of the match. *)
Definition file_at (s : string) : option nat :=
  match s with
  | EmptyString => None
  | String c r =>
      if is_slash c then None
      else
        match last_dot r with
        | Some k => Some (1 + k + 1 + Worker.span is_lower (Worker.drop (S k) r))%nat
        | None => None
        end
  end.

(** [re.search(...).group(1)]: the leftmost match. *)
Fixpoint file_search (s : string) : option string :=
  match s with
  | EmptyString => None
  | String _ r =>
      match file_at s with
      | Some n => Some (Worker.take n s)
      | None => file_search r
      end
  end.

(** [edit_counts[file] = edit_counts.get(file, 0) + 1], keys in insertion order. *)
Fixpoint bump (file : string) (counts : list (string * Z)) : list (string * Z) :=
  match counts with
  | [] => [(file, 1%Z)]
  | (f, n) :: rest =>
      if String.eqb f file then (f, (n + 1)%Z) :: rest else (f, n) :: bump file rest
  end.

Definition count_edits_of (m : event) (counts : list (string * Z)) : list (string * Z) :=
  fold_left
    (fun counts tool =>
       if mem tool ["Edit"; "MultiEdit"] then
         match file_search (e_text m) with
         | Some file => bump file counts
         | None => counts
         end
       else counts)
    (e_tools m) counts.

Definition edit_counts (new_messages : list event) : list (string * Z) :=
  fold_left (fun counts m => count_edits_of m counts) new_messages [].

(** The files that loop counts, in its order: one for each Edit or MultiEdit
    tool use of a message whose text names a file. *)
Definition edited_files (new_messages : list event) : list string :=
  flat_map
    (fun m =>
       flat_map
         (fun tool =>
            if mem tool ["Edit"; "MultiEdit"] then
              match file_search (e_text m) with
              | Some file => [file]
              | None => []
              end
            else [])
         (e_tools m))
    new_messages.

Definition new_struggling (session : Z) (counts : list (string * Z)) : list feature :=
  flat_map
    (fun fc =>
       if (5 <? snd fc)%Z then
         [Struggling (fst fc) (snd fc) session
            ("Consider reverting changes to " ++ fst fc ++ " and trying a different approach")]
       else [])
    counts.

Definition feature_id (change : feature_change) : string :=
  fc_file change ++ "_" ++ Py.sslice None (Some 10%Z) (fc_timestamp change).

Definition new_active (feature_changes : list feature_change) : list feature :=
  flat_map
    (fun change =>
       match fc_type change with
       | addition => [Active (feature_id change) (fc_file change) (fc_timestamp change) 1]
       | removal => []
       end)
    feature_changes.

Definition new_removed (feature_changes : list feature_change) : list feature :=
  flat_map
    (fun change =>
       match fc_type change with
       | removal => [Removed (feature_id change) (fc_file change) (fc_timestamp change)]
       | addition => []
       end)
    feature_changes.

Definition decision_keywords : list string :=
  ["decided"; "chose"; "using"; "switched to"; "migrated"].

Definition new_decisions (session : Z) (new_messages : list event) : list decision :=
  flat_map
    (fun m =>
       let text := Py.lower (e_text m) in
       if existsb (fun keyword => Py.contains keyword text) decision_keywords
          && (String.length (e_text m) <? 300)%nat
       then [{| d_decision := Py.sslice None (Some 200%Z) (e_text m);
                d_timestamp := e_timestamp m; d_session := session |}]
       else [])
    new_messages.

(** What [build_rich_memory] returns: the merged record, or the [KeyError] of
    the recommendations step. *)
Inductive merge :=
| Merged (m : memory)
| KeyError (key : string).

(** The first of [latest_struggle['file']] and [latest_struggle['edit_count']]
    that an entry lacks.  An entry [main] appends for a recommended rollback
    has the keys [feature], [ai_suggested_rollback] and [session]. *)
Definition missing_key (latest_struggle : feature) : option string :=
  match latest_struggle with
  | Struggling _ _ _ _ => None
  | RollbackSuggested _ _ => Some "file"
  | Active _ _ _ _ => Some "edit_count"
  | Removed _ _ _ => Some "edit_count"
  end.

(** [build_rich_memory(memory, new_messages, feature_changes, git_context,
    project_context)]; [recent_commits] is [git_context["recent_commits"]]. *)
Definition build_rich_memory (stored : memory) (new_messages : list event)
    (feature_changes : list feature_change) (recent_commits : list string) : merge :=
  let session := (Py.get (sessions stored) 0 + 1)%Z in
  let fl := Py.get (feature_lifecycle stored) empty_lifecycle in
  let active := List.app (active_features fl) (new_active feature_changes) in
  let removed := List.app (removed_features fl) (new_removed feature_changes) in
  let struggling :=
    List.app (struggling_features fl) (new_struggling session (edit_counts new_messages)) in
  (* Keep lists bounded *)
  let fl :=
    {| active_features := Py.last_n 20 active;
       completed_features := Py.last_n 20 (completed_features fl);
       struggling_features := Py.last_n 20 struggling;
       removed_features := Py.last_n 20 removed |} in
  let td :=
    List.app (Py.get (technical_decisions stored) []) (new_decisions session new_messages) in
  let memory :=
    {| last_timestamp := last_timestamp stored;
       sessions := Some session;
       feature_lifecycle := Some fl;
       technical_decisions := Some (Py.last_n 30 td);
       ai_insights := ai_insights stored |} in
  (* Recommendations for rollback *)
  match List.last (map Some (struggling_features fl)) None with
  | Some latest_struggle =>
      match recent_commits with
      | _ :: _ =>
          match missing_key latest_struggle with
          | Some key => KeyError key
          | None => Merged memory
          end
      | [] => Merged memory
      end
  | None => Merged memory
  end.

(** *** The pass: [main] *)

Record recommendations := { rollback : list string }.

Record verdict := {
  should_intervene : bool;
  score : option Q;
  reason : option string;
  nudge_markdown : option string;
  commands : list string;
  memory_insights : option string;
  feature_recommendations : option recommendations
}.

(** The clock, the branch and the recent commits [git] reports (no commits
    when [git log] fails), and the reasoning service followed by the parse of
    its reply, which sees the merged memory and the new messages. *)
Record world := {
  now : Q;
  branch : string;
  recent_commits : list string;
  advise : memory -> list event -> option verdict
}.

Record state := {
  memory_file : option memory;
  pending_file : Pending.file
}.

(** The gate of this worker. *)
Definition gate (should : bool) (score : Q) : bool :=
  should && Qle_bool THRESHOLD score.

(** The memory as saved at the end of a pass whose verdict parsed. *)
Definition absorb (w : world) (merged : memory) (result : verdict)
    (last_ts : string) : memory :=
  let memory := merged in
  let session := Py.get (sessions memory) 0%Z in
  let insights :=
    match memory_insights result with
    | Some text =>
        if Py.truthy text then
          Some (Py.last_n 20
                  (List.app (Py.get (ai_insights memory) [])
                     [{| i_timestamp := now w; i_insight := text; i_session := session |}]))
        else ai_insights memory
    | None => ai_insights memory
    end in
  let fl := Py.get (feature_lifecycle memory) empty_lifecycle in
  let fl :=
    match feature_recommendations result with
    | Some recs =>
        {| active_features := active_features fl;
           completed_features := completed_features fl;
           struggling_features :=
             List.app (struggling_features fl)
               (map (fun feature => RollbackSuggested feature session) (rollback recs));
           removed_features := removed_features fl |}
    | None => fl
    end in
  {| last_timestamp := Some last_ts;
     sessions := sessions memory;
     feature_lifecycle := Some fl;
     technical_decisions := technical_decisions memory;
     ai_insights := insights |}.

(** [main], from the event file read; [transcript] is the content of the file
    the event or the fallback names.  An [IndexError] of the reader and a
    [KeyError] of [build_rich_memory] end the process with the files as they
    were. *)
Definition main (w : world) (transcript : option (list line))
    (st : state) : state * option Pending.t :=
  let memory := Py.get (memory_file st) default_memory in
  match read_messages_since transcript (last_timestamp memory) with
  | IndexError => (st, None)
  | Ok (msgs, feature_changes) =>
      match Worker.last_event msgs with
      | None => (st, None)
      | Some last_msg =>
          match build_rich_memory memory msgs feature_changes (recent_commits w) with
          | KeyError _ => (st, None)
          | Merged memory =>
              match advise w memory msgs with
              | None => (st, None)
              | Some result =>
                  let memory := absorb w memory result (e_timestamp last_msg) in
                  (* save_json(MEMORY_FILE, memory) *)
                  let score := Py.get (score result) 0%Q in
                  if gate (should_intervene result) score then
                    let nudge_data :=
                      {| Pending.created_at := Some (now w);
                         Pending.ttl_seconds := Some NUDGE_TTL;
                         Pending.nudge_markdown := Some (Py.get (nudge_markdown result) "");
                         Pending.commands := commands result;
                         Pending.score := Some score;
                         Pending.reason := Some (Py.get (reason result) "");
                         Pending.context :=
                           Some ("Session " ++ Py.str_of_Z (Py.get (sessions memory) 0%Z)
                                 ++ ", Branch: " ++ branch w ++ ", "
                                 ++ Py.str_of_Z (Py.len msgs) ++ " new messages") |} in
                    ({| memory_file := Some memory;
                        pending_file := Pending.Stored nudge_data |},
                     Some nudge_data)
                  else
                    ({| memory_file := Some memory; pending_file := pending_file st |}, None)
              end
          end
      end
  end.

(** *** [extract_key_points] *)

Definition key_point_keywords : list string :=
  ["error"; "fixed"; "implemented"; "added"; "removed"; "bug"; "feature";
   "refactor"; "test"; "deploy"; "security"; "performance"].

Definition is_key_line (line : string) : bool :=
  existsb (fun keyword => Py.contains keyword (Py.lower line)) key_point_keywords.

(** The loop of [extract_key_points], with [found] key lines collected so far. *)
Fixpoint key_lines_from (max_points : Z) (found : nat) (lines : list string) : list string :=
  match lines with
  | [] => []
  | line :: rest =>
      if is_key_line line then
        Py.sslice None (Some 150%Z) line
        :: (if (max_points <=? Z.of_nat (S found))%Z then []
            else key_lines_from max_points (S found) rest)
      else key_lines_from max_points found rest
  end.

Definition key_lines (text : string) (max_points : Z) : list string :=
  key_lines_from max_points 0 (Py.split_lf text).

(** [extract_key_points(text, max_points)]. *)
Definition extract_key_points (text : string) (max_points : Z) : string :=
  Py.join Py.nl (key_lines text max_points).

End Advanced.

(** ** Regular expressions, matched at the start of a text as by [re.match] *)
Module Re.

Inductive t :=
| Lit (text : string)          (* the characters of [text], in order *)
| Class (p : ascii -> bool)    (* one character of a class, as [\s] *)
| Many (p : ascii -> bool)     (* [c*] for a class [c] *)
| Seq (a b : t)                (* [ab] *)
| Alt (a b : t)                (* [a|b] *)
| NotAhead (a : t)             (* [(?!a)] *)
| End_.                        (* [$]: the end, or before a final line feed *)

(** [c+] for a class [c]. *)
Definition Many1 (p : ascii -> bool) : t := Seq (Class p) (Many p).

(** What is left of [s] after the literal [lit]. *)
Fixpoint after (lit s : string) : option string :=
  match lit with
  | EmptyString => Some s
  | String a lit' =>
      match s with
      | String c s' => if Ascii.eqb a c then after lit' s' else None
      | EmptyString => None
      end
  end.

(** [c*] followed by [k]: some number of leading characters of the class,
    the longest run first, such that [k] accepts what is left. *)
Fixpoint many (p : ascii -> bool) (k : string -> bool) (s : string) : bool :=
  match s with
  | String c r => (p c && many p k r) || k s
  | EmptyString => k s
  end.

(** [run r k s]: [r] matches a prefix of [s] such that [k] accepts the rest,
    by backtracking. *)
Fixpoint run (r : t) (k : string -> bool) (s : string) : bool :=
  match r with
  | Lit text => match after text s with Some rest => k rest | None => false end
  | Class p => match s with String c rest => p c && k rest | EmptyString => false end
  | Many p => many p k s
  | Seq a b => run a (run b k) s
  | Alt a b => run a k s || run b k s
  | NotAhead a => negb (run a (fun _ => true) s) && k s
  | End_ => (String.eqb s "" || String.eqb s Py.nl) && k s
  end.

(** [re.match(r, s)] finds a match. *)
Definition match_ (r : t) (s : string) : bool := run r (fun _ => true) s.

End Re.

(** ** [enforce-pnpm.py] *)
Module EnforcePnpm.

(** A value of the [packageManager] key. *)
Inductive field :=
| Str (s : string)
| NotStr.

(** [package.json] of the project: missing, not the text of a JSON object,
    or an object with its [packageManager] key, if any. *)
Inductive package_json :=
| Missing
| Unusable
| Object (packageManager : option field).

(** What [is_pnpm_repo] sees under [cwd]. *)
Record project := {
  pnpm_lock_exists : bool;
  pkg : package_json
}.

(** [is_pnpm_repo(cwd)]. *)
Definition is_pnpm_repo (p : project) : bool :=
  if pnpm_lock_exists p then true
  else
    match pkg p with
    | Object meta =>
        match Py.get meta (Str "") with
        | Str pm => String.prefix "pnpm@" pm
        | NotStr => false
        end
    | _ => false
    end.

(** The hook's input: the keys [main] reads, with the project found at
    [cwd]. *)
Record event := {
  tool_name : option string;
  command : option string;     (* [tool_input.get("command")] *)
  at_cwd : project
}.

(** The text on stdin: not JSON, or an event. *)
Inductive stdin :=
| Undecodable
| Decoded (input_data : event).

Inductive outcome :=
| Exit0                      (* the tool call goes ahead *)
| Exit2 (stderr : string).   (* the tool call is blocked *)

(** [^\s*(npm|npx)\s+] *)
Definition npm_pattern : Re.t :=
  Re.Seq (Re.Many Py.is_space)
    (Re.Seq (Re.Alt (Re.Lit "npm") (Re.Lit "npx")) (Re.Many1 Py.is_space)).

(** [^\s*bun\s+(?!test(\s|$))] *)
Definition bun_pattern : Re.t :=
  Re.Seq (Re.Many Py.is_space)
    (Re.Seq (Re.Lit "bun")
       (Re.Seq (Re.Many1 Py.is_space)
          (Re.NotAhead (Re.Seq (Re.Lit "test") (Re.Alt (Re.Class Py.is_space) Re.End_))))).

(** The word [test] at the start of a text, as [test(\s|$)] asks: the text
    ends after it or goes on with a blank. *)
Definition test_word (rest : string) : Prop :=
  rest = "test" \/ exists c r, rest = "test" ++ String c r /\ Py.is_space c = true.

Definition error_message : string :=
  "⚠️ This project uses PNPM as its package manager." ++ Py.nl
  ++ "Please use 'pnpm' instead of 'npm' or 'bun'." ++ Py.nl
  ++ Py.nl
  ++ "Examples:" ++ Py.nl
  ++ "  • pnpm install (instead of npm install)" ++ Py.nl
  ++ "  • pnpm add <package> (instead of npm install <package>)" ++ Py.nl
  ++ "  • pnpm run <script> (instead of npm run <script>)" ++ Py.nl
  ++ "  • pnpm exec <command> (instead of npx <command>)" ++ Py.nl
  ++ Py.nl
  ++ "Note: 'bun test' is allowed for running tests.".

(** [main]. *)
Definition main (input : stdin) : outcome :=
  match input with
  | Undecodable => Exit0
  | Decoded input_data =>
      let tool_name := Py.get (tool_name input_data) "" in
      if negb (String.eqb tool_name "Bash") || negb (is_pnpm_repo (at_cwd input_data))
      then Exit0
      else
        let command := Py.get (command input_data) "" in
        if Re.match_ npm_pattern command || Re.match_ bun_pattern command
        then Exit2 error_message
        else Exit0
  end.

End EnforcePnpm.

(** ** [bin/last_messages.py] *)
Module LastMessages.
Import Transcript.

(** A parsed line of the transcript, by the keys [extract_messages] reads:
    the entry's own [type] and [role], and its [message]. *)
Record entry := {
  l_type : option string;
  l_role : option string;
  l_message : option message
}.

Section Reader.

(** [json.dumps(tool_input, indent=2)]: the rendering of a tool's input over
    several lines. *)
Variable dumps_indent : list (string * jvalue) -> string.

(** What one element of a [content] list adds to [content_parts]. *)
Definition part_of (c : segment) : list string :=
  match c with
  | Text t =>
      let text := Py.get t "" in
      if Py.truthy (Py.strip text) then [Py.strip text] else []
  | ToolUse name inp =>
      let tool_name := Py.get name "unknown" in
      ["<ToolUse name=" ++ dq ++ tool_name ++ dq ++ ">" ++ Py.nl
       ++ dumps_indent inp ++ Py.nl ++ "</ToolUse>"]
  | ToolResult _ out =>
      let output := Py.get out "" in
      let output :=
        if (2000 <? String.length output)%nat
        then Py.sslice None (Some 2000%Z) output ++ Py.nl ++ "... [truncated]"
        else output in
      ["<ToolResult>" ++ Py.nl ++ output ++ Py.nl ++ "</ToolResult>"]
  | OtherSegment => []
  end.

Definition content_parts (cont : option content) : list string :=
  match cont with
  | Some (Segments cs) => flat_map part_of cs
  | Some (Plain s) => if Py.truthy (Py.strip s) then [Py.strip s] else []
  | _ => []
  end.

(** [entry.get("type") or entry.get("role")]. *)
Definition role_of (e : entry) : option string :=
  match l_type e with
  | Some t => if Py.truthy t then Some t else l_role e
  | None => l_role e
  end.

(** The message a line appends to [msgs], if any. *)
Definition message_of (e : entry) : list string :=
  match role_of e with
  | Some role =>
      if mem role ["user"; "assistant"] then
        let cont :=
          match l_message e with
          | Some msg_obj => body msg_obj
          | None => None
          end in
        match content_parts cont with
        | [] => []
        | parts =>
            let full_content := Py.join (Py.nl ++ Py.nl) parts in
            ["<" ++ Py.capitalize role ++ ">" ++ Py.nl ++ full_content ++ Py.nl
             ++ "</" ++ Py.capitalize role ++ ">"]
        end
      else []
  | None => []
  end.

(** [msgs] at the end of the loop; a line is [None] where [json.loads]
    raises. *)
Definition all_messages (lines : list (option entry)) : list string :=
  flat_map (fun l => match l with Some e => message_of e | None => [] end) lines.

(** [extract_messages(path, limit)]. *)
Definition extract_messages (lines : list (option entry)) (limit : Z) : list string :=
  Py.last_n limit (all_messages lines).

End Reader.

(** The name [write_file] gives the dump made at [epoch] (the clock reading,
    in whole seconds). *)
Definition file_name (epoch : Z) (session_id : string) : string :=
  let inv := (9999999999 - epoch)%Z in
  Py.format_0d 10 inv ++ "_" ++ Py.sslice None (Some 8%Z) session_id ++ ".txt".

(** [write_file(text, session_id, out_dir)]: the path written and the files
    after it. *)
Definition write_file (epoch : Z) (text session_id out_dir : string) (fs : FS.t)
    : FS.path * FS.t :=
  let inv := (9999999999 - epoch)%Z in
  let dest :=
    {| FS.parent := out_dir;
       FS.stem := Py.format_0d 10 inv ++ "_" ++ Py.sslice None (Some 8%Z) session_id;
       FS.suffix := ".txt" |} in
  (dest, FS.set dest (Some text) fs).

End LastMessages.

(** * Properties *)

(** ** The trigger gate *)
Section CounterFacts.
Import Counter.

Local Open Scope Z_scope.

Lemma Qle_bool_false (x y : Q) : Qle_bool x y = false <-> (y < x)%Q.
Proof.
  split; intro H.
  - destruct (Qlt_le_dec y x) as [L | L]; [exact L |].
    apply Qle_bool_iff in L. congruence.
  - destruct (Qle_bool x y) eqn:E; [| reflexivity].
    apply Qle_bool_iff in E. lra.
Qed.

(** The counter and the last fire time after an event, and its outcome, in
    terms of the counter and the last fire time before it. *)
Lemma main_counter cfg now env f :
  counter_of (fst (main cfg now env f)) = counter_of f + 1.
Proof.
  unfold main, counter_of.
  destruct (Py.mod_ _ _) as [r |]; [| reflexivity].
  destruct (_ && _); [destruct env |]; reflexivity.
Qed.

Lemma main_raises cfg now env f :
  INTERVAL cfg = 0 -> snd (main cfg now env f) = ZeroDivisionError.
Proof. intros H. unfold main, Py.mod_. rewrite H. reflexivity. Qed.

Lemma main_outcome cfg now env f :
  INTERVAL cfg <> 0 ->
  snd (main cfg now env f) =
    Exit0 (((counter_of f + 1) mod INTERVAL cfg =? 0)
           && Qle_bool (inject_Z (COOLDOWN_S cfg)) (now - last_run_of f))
          (((counter_of f + 1) mod INTERVAL cfg =? 0)
           && Qle_bool (inject_Z (COOLDOWN_S cfg)) (now - last_run_of f)
           && match env with WorkerRuns => true | _ => false end).
Proof.
  intros H. unfold main, Py.mod_, counter_of, last_run_of.
  apply Z.eqb_neq in H. rewrite H.
  destruct (_ && _); [destruct env |]; reflexivity.
Qed.

Lemma main_last_run cfg now env f :
  last_run_of (fst (main cfg now env f)) =
    match snd (main cfg now env f) with
    | Exit0 true true => now
    | _ => last_run_of f
    end.
Proof.
  unfold main, last_run_of.
  destruct (Py.mod_ _ _) as [r |]; [| reflexivity].
  destruct (_ && _); [destruct env |]; reflexivity.
Qed.

Lemma fires_iff_firesb o : fires o <-> firesb o = true.
Proof.
  split.
  - intros [sp ->]. reflexivity.
  - destruct o as [[|] sp |]; simpl; try discriminate. intros _. now exists sp.
Qed.

Lemma main_fires_iff cfg now env f :
  fires (snd (main cfg now env f)) <->
  INTERVAL cfg <> 0
  /\ (counter_of f + 1) mod INTERVAL cfg = 0
  /\ (inject_Z (COOLDOWN_S cfg) <= now - last_run_of f)%Q.
Proof.
  rewrite fires_iff_firesb.
  destruct (Z.eq_dec (INTERVAL cfg) 0) as [E | E].
  - rewrite main_raises by exact E. simpl. split; [discriminate | tauto].
  - rewrite main_outcome by exact E.
    destruct (Z.eqb_spec ((counter_of f + 1) mod INTERVAL cfg) 0) as [E1 | E1];
      destruct (Qle_bool (inject_Z (COOLDOWN_S cfg)) (now - last_run_of f)) eqn:E2;
      simpl; split; try discriminate; try tauto.
    + intros _. apply Qle_bool_iff in E2. tauto.
    + intros (_ & _ & L). apply Qle_bool_iff in L. congruence.
Qed.

Lemma run_app cfg evs1 evs2 f :
  run cfg (evs1 ++ evs2)%list f =
    (fst (run cfg evs2 (fst (run cfg evs1 f))),
     (snd (run cfg evs1 f) ++ snd (run cfg evs2 (fst (run cfg evs1 f))))%list).
Proof.
  revert f. induction evs1 as [| [now env] evs1 IH]; intros f; simpl.
  - now destruct (run cfg evs2 f).
  - destruct (main cfg now env f) as [f1 o] eqn:M. rewrite IH.
    destruct (run cfg evs1 f1); simpl. reflexivity.
Qed.

Lemma run_cons cfg now env evs f :
  run cfg ((now, env) :: evs) f =
    (fst (run cfg evs (fst (main cfg now env f))),
     snd (main cfg now env f) :: snd (run cfg evs (fst (main cfg now env f)))).
Proof.
  simpl. destruct (main cfg now env f) as [f1 o]. simpl.
  now destruct (run cfg evs f1).
Qed.

Lemma mod_succ_not_zero c i : 0 < i -> c mod i + 1 < i -> (c + 1) mod i = c mod i + 1.
Proof.
  intros Hi Hc.
  pose proof (Z.mod_pos_bound c i Hi) as B.
  rewrite Z.add_mod by lia.
  rewrite (Z.mod_small 1) by lia.
  apply Z.mod_small. lia.
Qed.

(** Events that do not bring the counter to a multiple of the interval: none
    fires, the counter advances by their number, the last fire time stays. *)
Lemma run_between_multiples cfg evs f :
  0 < INTERVAL cfg ->
  counter_of f mod INTERVAL cfg + Z.of_nat (List.length evs) < INTERVAL cfg ->
  snd (run cfg evs f) = repeat (Exit0 false false) (List.length evs)
  /\ counter_of (fst (run cfg evs f)) = counter_of f + Z.of_nat (List.length evs)
  /\ last_run_of (fst (run cfg evs f)) = last_run_of f.
Proof.
  intros Hi. revert f. induction evs as [| [now env] evs IH]; intros f Hc.
  - simpl. rewrite Z.add_0_r. auto.
  - rewrite run_cons. cbn [fst snd List.length] in *.
    pose proof (Z.mod_pos_bound (counter_of f) _ Hi) as B.
    assert (S1 : (counter_of f + 1) mod INTERVAL cfg = counter_of f mod INTERVAL cfg + 1)
      by (apply mod_succ_not_zero; lia).
    assert (O : snd (main cfg now env f) = Exit0 false false).
    { rewrite main_outcome by lia. rewrite S1.
      replace (counter_of f mod INTERVAL cfg + 1 =? 0) with false
        by (symmetry; apply Z.eqb_neq; lia).
      reflexivity. }
    destruct (IH (fst (main cfg now env f))) as (A1 & A2 & A3).
    { rewrite main_counter, S1. lia. }
    rewrite A1, A2, A3, O, main_counter, main_last_run, O.
    repeat split; try reflexivity. lia.
Qed.

End CounterFacts.

Section TriggerGate.
Import Counter.
Local Open Scope Z_scope.

Lemma run_default_quiet evs f :
  counter_of f mod 10 + Z.of_nat (List.length evs) < 10 ->
  map firesb (snd (run default_config evs f)) = repeat false (List.length evs)
  /\ counter_of (fst (run default_config evs f)) = counter_of f + Z.of_nat (List.length evs)
  /\ last_run_of (fst (run default_config evs f)) = last_run_of f.
Proof.
  intros H.
  destruct (run_between_multiples default_config evs f) as (A1 & A2 & A3);
    [reflexivity | exact H |].
  rewrite A1. repeat split; try assumption.
  clear. induction (List.length evs) as [| n IH]; simpl; [reflexivity | now rewrite IH].
Qed.

(** C3, as the code has it.  Every event adds one to the persisted counter;
    the gate fires exactly when the new counter is a multiple of the interval
    and the time since the recorded last fire is at least the cooldown (the
    interval being non-zero, so that the remainder exists).  With interval 10
    and cooldown 120 s, from a state directory with no state file, the tenth
    event being read at least 120 s after the epoch: when the worker of the
    tenth event is spawned, of twenty events the tenth fires and no other
    does, the twentieth being read less than 120 s after the tenth; when no
    worker is spawned at the tenth event (the script is missing, or the spawn
    raises), the tenth and the twentieth event fire, however soon the
    twentieth is read. *)
Theorem trigger_gate_fires_on_interval_and_cooldown :
  (forall cfg now env f, counter_of (fst (main cfg now env f)) = counter_of f + 1)
  /\ (forall cfg now env f,
        fires (snd (main cfg now env f)) <->
        INTERVAL cfg <> 0
        /\ (counter_of f + 1) mod INTERVAL cfg = 0
        /\ (inject_Z (COOLDOWN_S cfg) <= now - last_run_of f)%Q)
  /\ (forall first9 t10 next9 t20 env20,
        List.length first9 = 9%nat -> List.length next9 = 9%nat ->
        (120 <= t10)%Q -> (t20 - t10 < 120)%Q ->
        let events :=
          (first9 ++ [(t10, WorkerRuns)] ++ next9 ++ [(t20, env20)])%list in
        map firesb (snd (run default_config events None))
          = (repeat false 9 ++ [true] ++ repeat false 10)%list
        /\ counter_of (fst (run default_config events None)) = 20)
  /\ (forall first9 t10 env10 next9 t20 env20,
        List.length first9 = 9%nat -> List.length next9 = 9%nat ->
        env10 <> WorkerRuns -> (120 <= t10)%Q -> (120 <= t20)%Q ->
        let events :=
          (first9 ++ [(t10, env10)] ++ next9 ++ [(t20, env20)])%list in
        map firesb (snd (run default_config events None))
          = (repeat false 9 ++ [true] ++ repeat false 9 ++ [true])%list
        /\ counter_of (fst (run default_config events None)) = 20).
Proof.
  split; [exact main_counter |]. split; [exact main_fires_iff |]. split.
  - intros first9 t10 next9 t20 env20 L1 L2 H10 H20 events. subst events.
    destruct (run_default_quiet first9 None) as (A1 & A2 & A3).
    { rewrite L1. reflexivity. }
    rewrite L1 in *. change (counter_of None) with 0 in A2.
    change (last_run_of None) with 0%Q in A3.
    set (f9 := fst (run default_config first9 None)) in *.
    (* the tenth event *)
    assert (O10 : snd (main default_config t10 WorkerRuns f9) = Exit0 true true).
    { rewrite main_outcome by discriminate. rewrite A2, A3.
      replace (Qle_bool (inject_Z (COOLDOWN_S default_config)) (t10 - 0)) with true
        by (symmetry; apply Qle_bool_iff; cbn [COOLDOWN_S default_config];
            unfold inject_Z; lra).
      reflexivity. }
    set (f10 := fst (main default_config t10 WorkerRuns f9)) in *.
    assert (C10 : counter_of f10 = 10) by (unfold f10; rewrite main_counter, A2; reflexivity).
    assert (R10 : last_run_of f10 = t10)
      by (unfold f10; rewrite main_last_run, O10; reflexivity).
    destruct (run_default_quiet next9 f10) as (B1 & B2 & B3).
    { rewrite C10, L2. reflexivity. }
    rewrite L2, C10 in *. rewrite R10 in B3.
    set (f19 := fst (run default_config next9 f10)) in *.
    (* the twentieth event *)
    assert (O20 : snd (main default_config t20 env20 f19) = Exit0 false false).
    { rewrite main_outcome by discriminate. rewrite B2, B3.
      replace (Qle_bool (inject_Z (COOLDOWN_S default_config)) (t20 - t10)) with false
        by (symmetry; apply Qle_bool_false; cbn [COOLDOWN_S default_config];
            unfold inject_Z; lra).
      reflexivity. }
    rewrite run_app. fold f9. cbn [app]. rewrite run_cons. fold f10. rewrite O10.
    cbn [fst snd]. rewrite run_app. fold f19. cbn [fst snd].
    rewrite (run_cons default_config t20 env20 []). cbn [fst snd run].
    rewrite O20, main_counter, B2.
    split; [| reflexivity].
    rewrite map_app, A1. cbn [map firesb]. rewrite map_app, B1. reflexivity.
  - intros first9 t10 env10 next9 t20 env20 L1 L2 N10 H10 H20 events. subst events.
    destruct (run_default_quiet first9 None) as (A1 & A2 & A3).
    { rewrite L1. reflexivity. }
    rewrite L1 in *. change (counter_of None) with 0 in A2.
    change (last_run_of None) with 0%Q in A3.
    set (f9 := fst (run default_config first9 None)) in *.
    (* the tenth event: it fires, and nothing is recorded *)
    assert (O10 : snd (main default_config t10 env10 f9) = Exit0 true false).
    { rewrite main_outcome by discriminate. rewrite A2, A3.
      replace (Qle_bool (inject_Z (COOLDOWN_S default_config)) (t10 - 0)) with true
        by (symmetry; apply Qle_bool_iff; cbn [COOLDOWN_S default_config];
            unfold inject_Z; lra).
      destruct env10; [now elim N10 | reflexivity | reflexivity]. }
    set (f10 := fst (main default_config t10 env10 f9)) in *.
    assert (C10 : counter_of f10 = 10) by (unfold f10; rewrite main_counter, A2; reflexivity).
    assert (R10 : last_run_of f10 = 0%Q)
      by (unfold f10; rewrite main_last_run, O10; exact A3).
    destruct (run_default_quiet next9 f10) as (B1 & B2 & B3).
    { rewrite C10, L2. reflexivity. }
    rewrite L2, C10 in *. rewrite R10 in B3.
    set (f19 := fst (run default_config next9 f10)) in *.
    (* the twentieth event fires too *)
    assert (O20 : firesb (snd (main default_config t20 env20 f19)) = true).
    { apply fires_iff_firesb, main_fires_iff. split; [discriminate |].
      rewrite B2, B3. split; [reflexivity |].
      cbn [COOLDOWN_S default_config]. unfold inject_Z. lra. }
    rewrite run_app. fold f9. cbn [app]. rewrite run_cons. fold f10. rewrite O10.
    cbn [fst snd]. rewrite run_app. fold f19. cbn [fst snd].
    rewrite (run_cons default_config t20 env20 []). cbn [fst snd run].
    rewrite main_counter, B2.
    split; [| reflexivity].
    rewrite map_app, A1. cbn [map firesb]. rewrite map_app, B1. cbn [map].
    rewrite O20. reflexivity.
Qed.

(** A run the theorem covers: twenty events within two seconds. *)
Lemma trigger_gate_twenty_events :
  let events :=
    (repeat (1000%Q, WorkerRuns) 9 ++ [(1001%Q, WorkerRuns)]
     ++ repeat ((10011 # 10)%Q, WorkerMissing) 9 ++ [(1002%Q, WorkerRuns)])%list in
  map firesb (snd (run default_config events None))
    = (repeat false 9 ++ [true] ++ repeat false 10)%list
  /\ counter_of (fst (run default_config events None)) = 20.
Proof.
  apply (proj1 (proj2 (proj2 trigger_gate_fires_on_interval_and_cooldown))
           (repeat (1000%Q, WorkerRuns) 9) 1001%Q
           (repeat ((10011 # 10)%Q, WorkerMissing) 9) 1002%Q WorkerRuns);
    [reflexivity | reflexivity | lra | lra].
Defined.

(** C3 as stated fails: ten events within one second (the tenth at 1000.9 s),
    the worker script missing, then ten more within the next second (the
    twentieth at 1001.9 s).  The tenth event fires, and the twentieth fires
    again, one second later. *)
Lemma missing_worker_fires_at_ten_and_at_twenty :
  let events :=
    (repeat (1000%Q, WorkerMissing) 9 ++ [((10009 # 10)%Q, WorkerMissing)]
     ++ repeat (1001%Q, WorkerMissing) 9 ++ [((10019 # 10)%Q, WorkerMissing)])%list in
  map firesb (snd (run default_config events None))
    = (repeat false 9 ++ [true] ++ repeat false 9 ++ [true])%list
  /\ counter_of (fst (run default_config events None)) = 20
  /\ ((10019 # 10) - (10009 # 10) < inject_Z (COOLDOWN_S default_config))%Q.
Proof. cbv zeta. repeat split; vm_compute; reflexivity. Qed.

End TriggerGate.

Section CooldownRecord.
Import Counter.
Local Open Scope Z_scope.

(** While the time since the recorded last fire stays below the cooldown, no
    event fires and the record stays. *)
Lemma run_inside_cooldown cfg evs f t :
  last_run_of f = t ->
  Forall (fun e => (fst e - t < inject_Z (COOLDOWN_S cfg))%Q) evs ->
  Forall (fun o => ~ fires o) (snd (run cfg evs f)).
Proof.
  revert f. induction evs as [| [now env] evs IH]; intros f Hf Hall.
  - constructor.
  - rewrite run_cons. cbn [snd]. inversion Hall as [| ? ? Hnow Hrest]; subst.
    cbn [fst] in Hnow.
    assert (N : ~ fires (snd (main cfg now env f))).
    { rewrite main_fires_iff. intros (_ & _ & L). lra. }
    constructor; [exact N |].
    apply IH; [| exact Hrest].
    rewrite main_last_run.
    destruct (snd (main cfg now env f)) as [[|] [|] |] eqn:O; try reflexivity.
    exfalso. apply N. now exists true.
Qed.

(** Events none of which brings the counter to a multiple of the interval:
    none fires, and the last fire time stays. *)
Lemma run_off_multiples cfg evs f :
  INTERVAL cfg <> 0 ->
  (forall k, 1 <= k <= Z.of_nat (List.length evs) ->
             (counter_of f + k) mod INTERVAL cfg <> 0) ->
  counter_of (fst (run cfg evs f)) = counter_of f + Z.of_nat (List.length evs)
  /\ last_run_of (fst (run cfg evs f)) = last_run_of f.
Proof.
  intros I. revert f. induction evs as [| [now env] evs IH]; intros f H.
  - cbn [run fst List.length Z.of_nat]. split; [lia | reflexivity].
  - rewrite run_cons. cbn [fst List.length] in *.
    assert (O : snd (main cfg now env f) = Exit0 false false).
    { rewrite main_outcome by exact I.
      replace ((counter_of f + 1) mod INTERVAL cfg =? 0) with false; [reflexivity |].
      symmetry. apply Z.eqb_neq. apply H. lia. }
    destruct (IH (fst (main cfg now env f))) as [A1 A2].
    { intros k Hk. rewrite main_counter.
      replace (counter_of f + 1 + k) with (counter_of f + (k + 1)) by lia.
      apply H. lia. }
    rewrite A1, A2, main_counter, main_last_run, O. split; [lia | reflexivity].
Qed.

Lemma between_multiples a i k : i <> 0 -> a mod i = 0 -> 1 <= k < Z.abs i -> (a + k) mod i <> 0.
Proof.
  intros Hi Ha Hk E.
  apply Z.mod_divide in Ha, E; try exact Hi.
  assert (D : (i | k)).
  { destruct Ha as [x Hx], E as [y Hy]. exists (y - x). lia. }
  apply Z.divide_abs_l in D. apply Z.divide_pos_le in D; lia.
Qed.

(** C8, as the code has it.  When the gate fires and the worker is spawned,
    the clock reading is recorded as the last fire time (after the spawn), and
    from then on no event read less than the cooldown after it fires, whatever
    becomes of the worker.  When the gate fires and no worker is spawned (the
    script is missing, or the spawn raises), the last fire time is left as it
    was, and the next event whose counter is a multiple of the interval fires
    again, however soon it is read, the clock not having gone back behind the
    reading of the fire. *)
Theorem last_run_recorded_when_spawned cfg now env f later :
  fires (snd (main cfg now env f)) ->
  (env = WorkerRuns ->
     last_run_of (fst (main cfg now env f)) = now
     /\ (Forall (fun e => (fst e - now < inject_Z (COOLDOWN_S cfg))%Q) later ->
         Forall (fun o => ~ fires o) (snd (run cfg later (fst (main cfg now env f))))))
  /\ (env <> WorkerRuns ->
     last_run_of (fst (main cfg now env f)) = last_run_of f
     /\ (forall next env',
          Z.of_nat (List.length later) = Z.abs (INTERVAL cfg) - 1 ->
          (now <= next)%Q ->
          fires (snd (main cfg next env'
                        (fst (run cfg later (fst (main cfg now env f)))))))).
Proof.
  intros F.
  pose proof (proj1 (main_fires_iff cfg now env f) F) as (I & M & C).
  apply fires_iff_firesb in F.
  pose proof (main_last_run cfg now env f) as R.
  rewrite main_outcome in F, R by exact I.
  destruct (_ && _) in F, R; [| discriminate]. cbn [andb] in R.
  split.
  - intros ->. split; [exact R |].
    apply run_inside_cooldown. exact R.
  - intros N.
    assert (R' : last_run_of (fst (main cfg now env f)) = last_run_of f)
      by (destruct env; [contradiction | exact R | exact R]).
    split; [exact R' |].
    intros next env' L T.
    destruct (run_off_multiples cfg later (fst (main cfg now env f)) I) as [A1 A2].
    { intros k Hk. rewrite main_counter. apply between_multiples; [exact I | exact M | lia]. }
    apply main_fires_iff. split; [exact I |]. rewrite A1, A2, R', main_counter, L.
    split; [| lra].
    replace (counter_of f + 1 + (Z.abs (INTERVAL cfg) - 1) + 1)
      with (counter_of f + 1 + Z.abs (INTERVAL cfg)) by lia.
    rewrite Z.add_mod, M, Z.add_0_l, Z.mod_mod by exact I.
    apply Z.mod_divide; [exact I |]. apply Z.divide_abs_r. apply Z.divide_refl.
Qed.

Lemma last_run_recorded_after_tenth_event :
  let cfg := default_config in
  let f := Some {| count := Some 9; last_run := None |} in
  let later := repeat (1010%Q, WorkerRuns) 9 in
  last_run_of (fst (main cfg 1000%Q WorkerRuns f)) = 1000%Q
  /\ Forall (fun o => ~ fires o) (snd (run cfg later (fst (main cfg 1000%Q WorkerRuns f))))
  /\ last_run_of (fst (main cfg 1000%Q PopenRaises f)) = 0%Q
  /\ fires (snd (main cfg 1001%Q WorkerRuns
                   (fst (run cfg later (fst (main cfg 1000%Q PopenRaises f)))))).
Proof.
  cbv zeta.
  assert (F : forall env,
             fires (snd (main default_config 1000%Q env
                           (Some {| count := Some 9; last_run := None |})))).
  { intros env. apply fires_iff_firesb. destruct env; vm_compute; reflexivity. }
  destruct (last_run_recorded_when_spawned default_config 1000%Q WorkerRuns
              (Some {| count := Some 9; last_run := None |})
              (repeat (1010%Q, WorkerRuns) 9) (F WorkerRuns)) as [[S1 S2] _];
    [reflexivity |].
  destruct (last_run_recorded_when_spawned default_config 1000%Q PopenRaises
              (Some {| count := Some 9; last_run := None |})
              (repeat (1010%Q, WorkerRuns) 9) (F PopenRaises)) as [_ [N1 N2]];
    [discriminate |].
  split; [exact S1 |]. split.
  - apply S2. repeat constructor; cbn; unfold inject_Z; lra.
  - split; [exact N1 |]. apply N2; [reflexivity | lra].
Defined.

(** C8 as stated fails: the tenth event fires at 1000 s while the spawn
    raises; nothing is recorded (the last fire time is still 0), and the
    twentieth event, read one second later, fires again. *)
Lemma failed_spawn_fires_again_inside_cooldown :
  let events :=
    (repeat (1000%Q, PopenRaises) 10 ++ repeat (1001%Q, WorkerRuns) 10)%list in
  map firesb (snd (run default_config (firstn 10 events) None))
    = (repeat false 9 ++ [true])%list
  /\ last_run_of (fst (run default_config (firstn 10 events) None)) = 0%Q
  /\ map firesb (snd (run default_config events None))
    = (repeat false 9 ++ [true] ++ repeat false 9 ++ [true])%list
  /\ (1001 - 1000 < inject_Z (COOLDOWN_S default_config))%Q.
Proof. vm_compute. intuition congruence. Qed.

End CooldownRecord.

Section NonPositiveInterval.
Import Counter.
Local Open Scope Z_scope.

Lemma mod_opp_zero a b : b <> 0 -> (a mod (- b) = 0 <-> a mod b = 0).
Proof.
  intros Hb.
  rewrite (Z.mod_divide a (- b)) by lia.
  rewrite (Z.mod_divide a b) by lia.
  split; intros [k Hk]; exists (- k); lia.
Qed.

(** C9, as the code has it.  With a negative interval an event ends without an
    error, and the gate fires exactly when the new counter is a multiple of the
    interval's absolute value and the cooldown has passed. *)
Theorem negative_interval_fires_on_multiples cfg now env f :
  INTERVAL cfg < 0 ->
  snd (main cfg now env f) <> ZeroDivisionError
  /\ (fires (snd (main cfg now env f)) <->
      (counter_of f + 1) mod (- INTERVAL cfg) = 0
      /\ (inject_Z (COOLDOWN_S cfg) <= now - last_run_of f)%Q).
Proof.
  intros H. split.
  - rewrite main_outcome by lia. discriminate.
  - rewrite main_fires_iff, mod_opp_zero by lia. intuition lia.
Qed.

Lemma negative_interval_third_event :
  let cfg := {| INTERVAL := -3; COOLDOWN_S := 120 |} in
  let f := Some {| count := Some 2; last_run := None |} in
  snd (main cfg 1000%Q WorkerRuns f) <> ZeroDivisionError
  /\ (fires (snd (main cfg 1000%Q WorkerRuns f)) <->
      (counter_of f + 1) mod (- INTERVAL cfg) = 0
      /\ (inject_Z (COOLDOWN_S cfg) <= 1000 - last_run_of f)%Q).
Proof.
  apply (negative_interval_fires_on_multiples
           {| INTERVAL := -3; COOLDOWN_S := 120 |} 1000%Q WorkerRuns
           (Some {| count := Some 2; last_run := None |})).
  reflexivity.
Defined.

(** C9 as stated fails: with interval -3 the first event of a fresh project
    does not fire although the cooldown has passed, and with interval 0
    the event ends in [ZeroDivisionError] (after the counter is saved). *)
Lemma non_positive_interval_is_not_every_event :
  main {| INTERVAL := -3; COOLDOWN_S := 120 |} 1000%Q WorkerRuns None
    = (Some {| count := Some 1; last_run := None |}, Exit0 false false)
  /\ main {| INTERVAL := 0; COOLDOWN_S := 120 |} 1000%Q WorkerRuns None
    = (Some {| count := Some 1; last_run := None |}, ZeroDivisionError).
Proof. split; reflexivity. Qed.

End NonPositiveInterval.

(** ** Delivery of the pending nudge *)
Section Delivery.
Import Pending.
Import Nudge.

Lemma main_stored fallback now data :
  fst (Nudge.main fallback now (Stored data)) =
    (if is_stale fallback now data || has_body data then Absent else Stored data)
  /\ (snd (Nudge.main fallback now (Stored data)) <> Exit0 ->
      is_stale fallback now data = false /\ has_body data = true).
Proof.
  unfold Nudge.main, is_stale, has_body.
  destruct (stale _ _); cbn [fst snd orb]; [split; congruence |].
  destruct (Py.truthy (Py.strip _)); cbn [fst snd]; split; try congruence; auto.
Qed.

(** A call shows nothing when there is no record, and for a record with a
    blank body. *)
Lemma blank_record_is_silent fallback now data :
  has_body data = false -> snd (Nudge.main fallback now (Stored data)) = Exit0.
Proof.
  intros B. destruct (snd (Nudge.main fallback now (Stored data))) eqn:O; [reflexivity |].
  destruct (main_stored fallback now data) as [_ H].
  rewrite O in H. destruct H as [_ H]; [discriminate | congruence].
Qed.

(** C2, as the code has it.  A call on a stored record deletes it exactly when
    the record is stale or its body is not blank, and otherwise (a fresh
    record with a blank body) leaves the file as it is; in every case a second
    call, whenever it is made, shows nothing. *)
Theorem delivery_consumes_stale_or_shown fallback now data fallback' now' :
  (fst (Nudge.main fallback now (Stored data)) = Absent <->
   is_stale fallback now data = true \/ has_body data = true)
  /\ (is_stale fallback now data = false -> has_body data = false ->
      fst (Nudge.main fallback now (Stored data)) = Stored data)
  /\ snd (Nudge.main fallback' now' (fst (Nudge.main fallback now (Stored data))))
     = Exit0.
Proof.
  destruct (main_stored fallback now data) as [F _]. rewrite F.
  destruct (is_stale fallback now data) eqn:S, (has_body data) eqn:B; cbn [orb];
    repeat split; auto; try discriminate; try (intros [? | ?]; discriminate).
  apply blank_record_is_silent. exact B.
Qed.

(** C2 as stated fails: a record fifty seconds old, with a time to live of 900
    seconds and an empty body, is still on disk after a call. *)
Lemma fresh_blank_record_survives_delivery :
  let data :=
    {| created_at := Some 100%Q; ttl_seconds := Some 900%Z; nudge_markdown := Some "";
       commands := []; score := Some 1%Q; reason := Some "why"; context := None |} in
  Nudge.main 150%Q 150%Q (Stored data) = (Stored data, Exit0).
Proof. reflexivity. Qed.

End Delivery.

(** ** The nudge gate *)
Section NudgeGate.
Import Worker.

Lemma truthy_iff s : Py.truthy s = true <-> s <> "".
Proof. destruct s; simpl; split; congruence. Qed.

Lemma differs_iff h stored : differs h stored = true <-> stored <> Some h.
Proof.
  destruct stored as [h' |]; simpl; [| split; congruence].
  rewrite negb_true_iff. destruct (String.eqb_spec h h'); split; congruence.
Qed.

Lemma gate_iff cfg should score nudge h stored :
  gate cfg should score nudge h stored = true <->
  should = true /\ (THRESHOLD cfg <= score)%Q /\ nudge <> "" /\ stored <> Some h.
Proof.
  unfold gate. rewrite !andb_true_iff, Qle_bool_iff, truthy_iff, differs_iff. tauto.
Qed.

Lemma digest_of_body w nudge : nudge <> "" -> digest w nudge = sha256_hex w nudge.
Proof. unfold digest. destruct nudge; simpl; congruence. Qed.

(** X23.  The gate of [sidekick-review-worker.py] (and, being the same function, of
    the enhanced worker): a pass that reached a parsed verdict writes the
    pending record exactly when the verdict's flag is set, its score reaches
    the threshold, its stripped body is not empty, and the digest of the body
    differs from the one stored in memory. *)
Lemma worker_writes_iff cfg w tr st last_msg out :
  let memory := Py.get (memory_file st) default_memory in
  let msgs := read_messages_since tr (last_timestamp memory) in
  last_event msgs = Some last_msg ->
  advise w (user_payload cfg w memory msgs) = Some out ->
  (snd (main cfg w tr st) <> None <->
   should_intervene out = true
   /\ (THRESHOLD cfg <= Py.get (score out) 0)%Q
   /\ nudge_of out <> ""
   /\ last_nudge_hash memory <> Some (sha256_hex w (nudge_of out))).
Proof.
  intros memory msgs L A. unfold main. fold memory. fold msgs. rewrite L, A.
  destruct (gate _ _ _ _ _ _) eqn:G; cbn [snd].
  - apply gate_iff in G. destruct G as (G1 & G2 & G3 & G4).
    cbn [last_nudge_hash] in G4.
    rewrite digest_of_body in G4 by exact G3. split; [auto | discriminate].
  - split; [congruence |]. intros (G1 & G2 & G3 & G4).
    rewrite <- (digest_of_body w _ G3) in G4.
    apply not_true_iff_false in G. exfalso. apply G.
    apply gate_iff. cbn [last_nudge_hash]. auto.
Qed.

Lemma main_written cfg w tr st p :
  snd (main cfg w tr st) = Some p ->
  exists nudge,
    Pending.nudge_markdown p = Some nudge
    /\ stored_digest st <> Some (sha256_hex w nudge)
    /\ stored_digest (fst (main cfg w tr st)) = Some (sha256_hex w nudge).
Proof.
  unfold main, stored_digest.
  destruct (last_event _) as [last_msg |]; [| discriminate].
  destruct (advise w _) as [out |]; [| discriminate].
  destruct (gate _ _ _ _ _ _) eqn:G; cbn [fst snd]; [| discriminate].
  intros [= <-]. exists (nudge_of out).
  apply gate_iff in G. destruct G as (_ & _ & G3 & G4).
  cbn [last_nudge_hash Pending.nudge_markdown memory_file Py.get] in *.
  rewrite digest_of_body in * by exact G3. auto.
Qed.

Lemma main_silent cfg w tr st :
  snd (main cfg w tr st) = None ->
  stored_digest (fst (main cfg w tr st)) = stored_digest st.
Proof.
  unfold main, stored_digest.
  destruct (last_event _) as [last_msg |]; [| reflexivity].
  destruct (advise w _) as [out |]; [| reflexivity].
  destruct (gate _ _ _ _ _ _); [discriminate | reflexivity].
Qed.

(** X24.  Over any number of passes of this worker on one state directory, no
    record written carries a body with the digest of the record written
    before it, nor of the one stored at the start. *)
Lemma worker_never_repeats cfg sha passes st :
  Forall (fun p => sha256_hex (fst p) = sha) passes ->
  no_repeat (stored_digest st) (written_digests sha (snd (run cfg passes st))).
Proof.
  intros Hsha. revert st. induction Hsha as [| [w tr] passes Hw _ IH]; intros st.
  - exact I.
  - cbn [run]. destruct (main cfg w tr st) as [st1 written] eqn:M.
    specialize (IH st1). destruct (run cfg passes st1) as [st2 more].
    cbn [snd fst] in *. subst sha.
    assert (M1 : st1 = fst (main cfg w tr st)) by now rewrite M.
    assert (M2 : written = snd (main cfg w tr st)) by now rewrite M.
    destruct written as [p |]; cbn [written_digests].
    + destruct (main_written cfg w tr st p) as (nudge & N1 & N2 & N3); [congruence |].
      rewrite N1. cbn [Py.get no_repeat]. rewrite <- M1 in N3. rewrite N3 in IH.
      split; assumption.
    + rewrite M1, main_silent in IH by congruence. exact IH.
Qed.

End NudgeGate.

Section AdvancedGate.
Import Transcript.
Import Advanced.

(** C1 at [sidekick-memory-advanced.py].  Its gate tests the flag and the
    score only.  From an empty state directory: a verdict with the flag set,
    score 0.9 and no body is written as a pending record with an empty body;
    and a verdict with the body "Run the tests" is written by a first pass and
    written again, with the same body, by the pass that follows it. *)
Theorem advanced_gate_checks_neither_body_nor_digest :
  let said ts text :=
    Some {| timestamp := Some ts; type_ := Some "user";
            msg := Some {| role := Some "user"; body := Some (Plain text) |} |} in
  let answer body :=
    {| should_intervene := true; score := Some (9 # 10); reason := Some "why";
       nudge_markdown := body; commands := []; memory_insights := None;
       feature_recommendations := None |} in
  let world body :=
    {| now := 0; branch := "main"; recent_commits := ["3f2a9c1 add login form"];
       advise := fun _ _ => Some (answer body) |} in
  let empty := {| memory_file := None; pending_file := Pending.Absent |} in
  let first := main (world (Some "Run the tests")) (Some [said "t1" "hello"]) empty in
  let second :=
    main (world (Some "Run the tests")) (Some [said "t1" "hello"; said "t2" "again"])
      (fst first) in
  (exists p, snd (main (world None) (Some [said "t1" "hello"]) empty) = Some p
             /\ Pending.nudge_markdown p = Some "")
  /\ (exists p1 p2, snd first = Some p1 /\ snd second = Some p2
                    /\ Pending.nudge_markdown p1 = Some "Run the tests"
                    /\ Pending.nudge_markdown p2 = Some "Run the tests").
Proof.
  cbv zeta. split.
  - eexists. split; vm_compute; reflexivity.
  - do 2 eexists. repeat split; vm_compute; reflexivity.
Qed.

End AdvancedGate.

(** ** The transcript cursor *)
Section Cursor.
Import Transcript.

Lemma ltb_is_not_leb a b : String.ltb a b = negb (String.leb b a).
Proof.
  unfold String.ltb, String.leb. rewrite (String.compare_antisym a b).
  destruct (String.compare b a); reflexivity.
Qed.

Lemma leb_refl a : String.leb a a = true.
Proof. destruct (String.leb_total a a); assumption. Qed.

Lemma leb_trans a b c :
  String.leb a b = true -> String.leb b c = true -> String.leb a c = true.
Proof.
  unfold String.leb. intros Hab Hbc.
  destruct (String.compare a b) eqn:Eab; [| | discriminate].
  - apply String.compare_eq_iff in Eab. subst. exact Hbc.
  - destruct (String.compare b c) eqn:Ebc; [| | discriminate].
    + apply String.compare_eq_iff in Ebc. subst. now rewrite Eab.
    + apply String_as_OT.cmp_lt in Eab, Ebc.
      pose proof (String_as_OT.lt_trans _ _ _ Eab Ebc) as L.
      apply String_as_OT.cmp_lt in L. unfold String_as_OT.cmp in L. now rewrite L.
Qed.

Lemma undated_or_newer_is_guard w ev :
  undated_or_newer w ev = negb (already_seen w (e_timestamp ev)).
Proof.
  unfold undated_or_newer, already_seen. destruct w as [w |]; [| reflexivity].
  rewrite ltb_is_not_leb, !negb_andb. reflexivity.
Qed.

Lemma worker_extract_timestamp e ev :
  Worker.extract e = Some ev -> e_timestamp ev = Py.get (timestamp e) "".
Proof.
  unfold Worker.extract.
  destruct (type_ e) as [ty |]; [| discriminate].
  destruct (msg e) as [m |]; [| discriminate].
  destruct (mem ty _); [| discriminate].
  destruct (Worker.flatten _) as [text_parts tools].
  destruct (Py.truthy _); [| discriminate].
  now intros [= <-].
Qed.

(** Reading with a watermark is reading everything and keeping the events
    that are undated or newer, in the order of the file. *)
Lemma read_lines_filter lines w :
  Worker.read_lines lines w = filter (undated_or_newer w) (Worker.read_lines lines None).
Proof.
  induction lines as [| [e |] lines IH]; cbn [Worker.read_lines]; [reflexivity | | exact IH].
  cbn [already_seen].
  destruct (Worker.extract e) as [ev |] eqn:X.
  - cbn [filter]. rewrite undated_or_newer_is_guard, (worker_extract_timestamp e ev X).
    destruct (already_seen w _); cbn [negb]; now rewrite IH.
  - destruct (already_seen w _); exact IH.
Qed.

Lemma filter_none {A} (p : A -> bool) l :
  Forall (fun x => p x = false) l -> filter p l = [].
Proof. induction 1 as [| x l Hx _ IH]; simpl; [reflexivity | now rewrite Hx]. Qed.

(** In a non-decreasing list every event is at most the last one. *)
Lemma non_decreasing_last events d :
  non_decreasing events ->
  Forall (fun ev => String.leb (e_timestamp ev) (e_timestamp (List.last events d)) = true)
    events.
Proof.
  unfold non_decreasing. intros S. apply Sorted_StronglySorted in S.
  - induction S as [| a l S IH Ha]; [constructor |].
    destruct l as [| b l'].
    + constructor; [apply leb_refl | constructor].
    + change (List.last (a :: b :: l') d) with (List.last (b :: l') d).
      constructor; [| exact IH].
      rewrite Forall_forall in Ha, IH.
      assert (In (List.last (b :: l') d) (b :: l')) as Hin.
      { clear. revert b. induction l' as [| c l' IHl]; intros b; [now left |].
        right. apply IHl. }
      exact (Ha _ Hin).
  - intros x y z. apply leb_trans.
Qed.

(** The last event kept by a filter that keeps anything, on a non-decreasing
    list, when the filter is upward closed. *)
Lemma last_of_newer events w d :
  non_decreasing events -> Forall dated events ->
  filter (undated_or_newer w) events <> [] ->
  List.last (filter (undated_or_newer w) events) d = List.last events d.
Proof.
  intros S D. induction events as [| a l IH]; [intros H; now elim H |].
  intros NE. cbn [filter] in *.
  assert (Sl : non_decreasing l) by (inversion S; assumption).
  assert (Dl : Forall dated l) by (inversion D; assumption).
  destruct l as [| b l'].
  - cbn [filter] in *. destruct (undated_or_newer w a); [reflexivity | now elim NE].
  - change (List.last (a :: b :: l') d) with (List.last (b :: l') d).
    destruct (undated_or_newer w a) eqn:Ka.
    + (* [a] is kept, so is everything after it *)
      assert (Kall : Forall (fun ev => undated_or_newer w ev = true) (b :: l')).
      { apply Sorted_StronglySorted in S; [| intros x y z; apply leb_trans].
        inversion S as [| ? ? _ Ha]; subst.
        rewrite Forall_forall in *. intros ev Hin. specialize (Ha ev Hin).
        unfold undated_or_newer in *. destruct w as [w |]; [| reflexivity].
        destruct (Py.truthy w); cbn [negb orb] in *; [| reflexivity].
        assert (e_timestamp a <> "") as Da by (apply D; now left).
        assert (e_timestamp ev <> "") as De by (apply D; now right).
        apply truthy_iff in Da, De. rewrite Da in Ka. rewrite De. cbn [negb orb] in *.
        rewrite ltb_is_not_leb in *. apply negb_true_iff in Ka. apply negb_true_iff.
        destruct (String.leb (e_timestamp ev) w) eqn:L; [| reflexivity].
        rewrite (leb_trans _ _ _ Ha L) in Ka. discriminate. }
      assert (F : filter (undated_or_newer w) (b :: l') = b :: l').
      { clear - Kall. induction Kall as [| x l Hx _ IHk]; simpl; [reflexivity |].
        now rewrite Hx, IHk. }
      rewrite F. reflexivity.
    + apply IH; assumption.
Qed.

End Cursor.

Section CursorClaims.
Import Transcript.

Lemma last_event_some l x d :
  Worker.last_event l = Some x -> l <> [] /\ List.last l d = x.
Proof.
  unfold Worker.last_event. induction l as [| a l IH]; [discriminate |].
  destruct l as [| b l'].
  - cbn. intros [= <-]. split; [discriminate | reflexivity].
  - change (List.last (map Some (a :: b :: l')) None)
      with (List.last (map Some (b :: l')) None).
    change (List.last (a :: b :: l') d) with (List.last (b :: l') d).
    intros H. split; [discriminate | now apply IH].
Qed.

Lemma last_in {A} (l : list A) d : l <> [] -> In (List.last l d) l.
Proof.
  induction l as [| a l IH]; [congruence |]. intros _.
  destruct l as [| b l']; [now left |]. right. apply IH. discriminate.
Qed.


Lemma advanced_extract_timestamp e ev changes :
  Advanced.extract e = Advanced.Ok (Some ev, changes) ->
  e_timestamp ev = Py.get (timestamp e) "".
Proof.
  unfold Advanced.extract.
  destruct (type_ e) as [ty |]; [| discriminate].
  destruct (msg e) as [m |]; [| discriminate].
  destruct (mem ty _); [| discriminate].
  destruct (match Py.get (body m) (Plain "") with
            | Segments cs => _ | Plain s => _ | OtherContent => _ end)
    as [[[text_parts tools] chs] |]; [| discriminate].
  destruct (Py.truthy _); [| discriminate].
  now intros [= <- _].
Qed.


(** The reader of [sidekick-memory-advanced.py]: it raises when the body of
    the loop raises on a line that passes the guard, and otherwise returns the
    events of the lines that are undated or newer than the watermark. *)
Lemma advanced_read_lines_spec lines w :
  match Advanced.read_lines lines w with
  | Advanced.IndexError =>
      exists e, In (Some e) lines /\ already_seen w (Py.get (timestamp e) "") = false
                /\ Advanced.extract e = Advanced.IndexError
  | Advanced.Ok (msgs, _) =>
      (forall e, In (Some e) lines -> already_seen w (Py.get (timestamp e) "") = false ->
                 Advanced.extract e <> Advanced.IndexError)
      /\ msgs
         = filter (undated_or_newer w)
             (flat_map (fun l : line =>
                          match l with
                          | Some e =>
                              match Advanced.extract e with
                              | Advanced.Ok (Some ev, _) => [ev]
                              | _ => []
                              end
                          | None => []
                          end) lines)
  end.
Proof.
  induction lines as [| [e |] lines IH]; cbn [Advanced.read_lines flat_map].
  - split; [intros e [] | reflexivity].
  - destruct (already_seen w (Py.get (timestamp e) "")) eqn:G.
    + destruct (Advanced.read_lines lines w) as [[msgs fcs] |].
      * destruct IH as [IH1 IH2]. split.
        -- intros e' [[= <-] | Hin] G'; [congruence | now apply IH1].
        -- rewrite filter_app, <- IH2.
           destruct (Advanced.extract e) as [[[ev |] ch] |] eqn:X; try reflexivity.
           cbn [filter].
           rewrite undated_or_newer_is_guard, (advanced_extract_timestamp e ev ch X), G.
           reflexivity.
      * destruct IH as (e' & Hin & G' & X). exists e'. split; [now right | tauto].
    + destruct (Advanced.extract e) as [[ev ch] |] eqn:X.
      * destruct (Advanced.read_lines lines w) as [[msgs fcs] |].
        -- destruct IH as [IH1 IH2]. split.
           ++ intros e' [[= <-] | Hin] G'; [congruence | now apply IH1].
           ++ rewrite filter_app, <- IH2. f_equal.
              destruct ev as [ev |]; [| reflexivity]. cbn [filter].
              rewrite undated_or_newer_is_guard, (advanced_extract_timestamp e ev ch X), G.
              reflexivity.
        -- destruct IH as (e' & Hin & G' & X'). exists e'. split; [now right | tauto].
      * exists e. split; [now left | tauto].
  - destruct (Advanced.read_lines lines w) as [[msgs fcs] |].
    + destruct IH as [IH1 IH2]. split; [| exact IH2].
      intros e' [[=] | Hin]. now apply IH1.
    + destruct IH as (e' & Hin & G' & X). exists e'. split; [now right | tauto].
Qed.




(** Whatever the watermark, set or not: an entry of the transcript whose
    timestamp is missing or empty and from which the reader makes an event
    has that event in the output of the reader of
    [sidekick-review-worker.py]. *)
Lemma undated_entries_pass_every_watermark lines w e ev :
  In (Some e) lines -> undated e -> Worker.extract e = Some ev ->
  In ev (Worker.read_messages_since (Some lines) w).
Proof.
  intros Hin U X. cbn [Worker.read_messages_since].
  rewrite read_lines_filter. apply filter_In. split.
  - clear U. induction lines as [| [e' |] lines IH]; [now elim Hin | |].
    + cbn [Worker.read_lines already_seen].
      destruct Hin as [[= ->] | Hin]; [rewrite X; now left |].
      destruct (Worker.extract e'); [right |]; now apply IH.
    + destruct Hin as [[=] | Hin]. now apply IH.
  - unfold undated_or_newer. rewrite (worker_extract_timestamp e ev X).
    destruct w as [w |]; [| reflexivity].
    destruct U as [-> | ->]; cbn; now rewrite orb_true_r.
Qed.

(** The same entry in [sidekick-memory-advanced.py]: it passes the guard, and
    its event is in the output whenever the reader returns one. *)
Lemma undated_entries_pass_the_advanced_guard lines w e ev changes :
  In (Some e) lines -> undated e ->
  Advanced.extract e = Advanced.Ok (Some ev, changes) ->
  already_seen w (Py.get (timestamp e) "") = false
  /\ (forall msgs feature_changes,
        Advanced.read_messages_since (Some lines) w = Advanced.Ok (msgs, feature_changes) ->
        In ev msgs).
Proof.
  intros Hin U X.
  assert (G : already_seen w (Py.get (timestamp e) "") = false).
  { destruct U as [-> | ->]; destruct w as [w |]; try reflexivity;
      cbn; now rewrite andb_false_r. }
  split; [exact G |]. intros msgs fcs R. cbn [Advanced.read_messages_since] in R.
  pose proof (advanced_read_lines_spec lines w) as S. rewrite R in S.
  destruct S as [_ ->]. apply filter_In. split.
  - apply in_flat_map. exists (Some e). split; [exact Hin |]. rewrite X. now left.
  - rewrite undated_or_newer_is_guard, (advanced_extract_timestamp e ev changes X), G.
    reflexivity.
Qed.

(** C10 at [sidekick-memory-advanced.py].  An entry with an empty timestamp,
    followed by a later line whose content opens with an Edit tool use: the
    reader of [sidekick-review-worker.py] returns the event of the undated
    entry past the watermark, while the reader of
    [sidekick-memory-advanced.py] raises [IndexError] and the pass ends with
    nothing read and nothing saved.  Without the second line it returns the
    event. *)
Theorem advanced_reader_raises_after_undated_entry :
  let undated_line :=
    Some {| timestamp := Some ""; type_ := Some "assistant";
            msg := Some {| role := None; body := Some (Segments [Text (Some "done")]) |} |} in
  let edit_line :=
    Some {| timestamp := Some "2024-05-01T10:00:05Z"; type_ := Some "assistant";
            msg := Some {| role := Some "assistant";
                           body := Some (Segments
                             [ToolUse (Some "Edit")
                                [("file_path", {| shown := "src/auth.js";
                                                  dumped := "src/auth.js" |})]]) |} |} in
  let ev := {| e_role := "assistant"; e_text := "done"; e_timestamp := ""; e_tools := [] |} in
  let w := Some "2024-05-01T10:00:00Z" in
  let world :=
    {| Advanced.now := 0; Advanced.branch := "main";
       Advanced.recent_commits := ["3f2a9c1 add login form"];
       Advanced.advise := fun _ _ => None |} in
  let st :=
    {| Advanced.memory_file :=
         Some {| Advanced.last_timestamp := w; Advanced.sessions := Some 1%Z;
                 Advanced.feature_lifecycle := None;
                 Advanced.technical_decisions := Some []; Advanced.ai_insights := None |};
       Advanced.pending_file := Pending.Absent |} in
  In ev (Worker.read_messages_since (Some [undated_line; edit_line]) w)
  /\ Advanced.read_messages_since (Some [undated_line; edit_line]) w = Advanced.IndexError
  /\ Advanced.main world (Some [undated_line; edit_line]) st = (st, None)
  /\ Advanced.read_messages_since (Some [undated_line]) w = Advanced.Ok ([ev], []).
Proof.
  cbv zeta. split; [left; reflexivity |]. repeat split; vm_compute; reflexivity.
Qed.

End CursorClaims.

(** ** Strings *)
Section StringFacts.

Lemma append_nil_r s : s ++ "" = s.
Proof. induction s as [| c s IH]; cbn; congruence. Qed.

Lemma append_assoc s1 s2 s3 : (s1 ++ s2) ++ s3 = s1 ++ (s2 ++ s3).
Proof. induction s1 as [| c s1 IH]; cbn; congruence. Qed.

Lemma concat_empty_cons c chunks : String.concat "" (c :: chunks) = c ++ String.concat "" chunks.
Proof. destruct chunks; cbn [String.concat]; [now rewrite append_nil_r | reflexivity]. Qed.

End StringFacts.

(** ** Saving a record *)
Section AtomicSave.
Import FS.

Lemma path_eqb_eq p q : path_eqb p q = true <-> p = q.
Proof.
  unfold path_eqb. rewrite !andb_true_iff, !String.eqb_eq.
  destruct p, q; cbn. split; [intros [[-> ->] ->]; reflexivity | intros [= -> -> ->]; auto].
Qed.

Lemma set_same p v fs : set p v fs p = v.
Proof.
  unfold set. destruct (path_eqb p p) eqn:E; [reflexivity |].
  assert (path_eqb p p = true) by now apply path_eqb_eq. congruence.
Qed.

Lemma set_other p q v fs : q <> p -> set p v fs q = fs q.
Proof.
  intros N. unfold set. destruct (path_eqb q p) eqn:E; [| reflexivity].
  apply path_eqb_eq in E. contradiction.
Qed.

(** Writing a file leaves every other file as it was, at every moment. *)
Lemma write_file_elsewhere p q chunks fs :
  q <> p -> Forall (fun fs' => fs' q = fs q) (trace (write_file p chunks) fs).
Proof.
  intros N. unfold write_file. cbn [trace step].
  constructor; [now apply set_other |].
  assert (H : set p (Some "") fs q = fs q) by now apply set_other.
  revert H. generalize (set p (Some "") fs). clear -N.
  induction chunks as [| c chunks IH]; intros fs1 H; cbn [map trace step]; constructor.
  - rewrite set_other by exact N. exact H.
  - apply IH. rewrite set_other by exact N. exact H.
Qed.

Lemma write_file_exec_elsewhere p q chunks fs :
  q <> p -> exec (write_file p chunks) fs q = fs q.
Proof.
  intros N. unfold write_file, exec. cbn [fold_left step].
  rewrite <- (set_other p q (Some "") fs N). generalize (set p (Some "") fs).
  induction chunks as [| c chunks IH]; intros fs1; [reflexivity |].
  cbn [map fold_left step]. rewrite IH. now apply set_other.
Qed.

Lemma exec_appends p chunks fs acc :
  fs p = Some acc ->
  exec (map (Append p) chunks) fs p = Some (acc ++ String.concat "" chunks).
Proof.
  unfold exec. revert fs acc. induction chunks as [| c chunks IH]; intros fs acc H.
  - cbn. now rewrite H, append_nil_r.
  - cbn [map fold_left step]. rewrite (IH _ (acc ++ c)).
    + now rewrite concat_empty_cons, append_assoc.
    + rewrite set_same, H. reflexivity.
Qed.

Lemma trace_app ops1 ops2 fs :
  trace (ops1 ++ ops2)%list fs = (trace ops1 fs ++ trace ops2 (exec ops1 fs))%list.
Proof.
  revert fs. induction ops1 as [| o ops1 IH]; intros fs; [reflexivity |].
  cbn [app trace]. rewrite IH. reflexivity.
Qed.

(** X25.  [save_json] of [sidekick-review-worker.py] is atomic for a target whose
    suffix is not [.tmp] (the callers pass [memory.json] and
    [pending_feedback.json]): at every moment of the save the target holds
    its previous content or the whole new text, and the new text at the end. *)
Lemma worker_save_json_atomic path chunks fs :
  suffix path <> ".tmp" ->
  Forall (fun fs' => fs' path = fs path \/ fs' path = Some (text_of chunks))
    (trace (Worker.save_json path chunks) fs)
  /\ exec (Worker.save_json path chunks) fs path = Some (text_of chunks).
Proof.
  intros N. unfold Worker.save_json.
  set (tmp := with_suffix path ".tmp").
  assert (NT : path <> tmp) by (intros E; apply N; rewrite E; reflexivity).
  assert (W : exec (write_file tmp chunks) fs tmp = Some (text_of chunks)).
  { unfold write_file. change (exec (Truncate tmp :: ?l) fs)
      with (exec l (set tmp (Some "") fs)).
    rewrite (exec_appends tmp chunks _ ""); [reflexivity | apply set_same]. }
  split.
  - rewrite trace_app. apply Forall_app. split.
    + eapply Forall_impl; [| apply write_file_elsewhere; exact NT]. cbn. auto.
    + cbn [trace step]. rewrite W. constructor; [| constructor].
      right. rewrite set_other by exact NT. apply set_same.
  - unfold exec. rewrite fold_left_app. fold (exec (write_file tmp chunks) fs).
    cbn [fold_left step]. rewrite W. rewrite set_other by exact NT. apply set_same.
Qed.

(** C6 at the enhanced and the advanced worker.  Their [save_json] opens the
    target itself for writing: with [memory.json] holding a record and the new
    text reaching the file in three pieces, a reader finds the target empty,
    then holding one piece, then two, before the whole text; the
    [save_json] of [sidekick-review-worker.py] shows the same reader the old
    record until the rename and the whole new text after it. *)
Theorem enhanced_save_json_exposes_partial_record :
  let target :=
    {| parent := "~/.claude/sidekick/0123456789ab"; stem := "memory"; suffix := ".json" |} in
  let disk : FS.t := set target (Some "{old}") (fun _ => None) in
  let chunks := ["{"; "new"; "}"] in
  let seen save := map (fun fs => fs target) (trace (save target chunks) disk) in
  seen Enhanced.save_json = [Some ""; Some "{"; Some "{new"; Some "{new}"]
  /\ seen Advanced.save_json = [Some ""; Some "{"; Some "{new"; Some "{new}"]
  /\ seen Worker.save_json
     = [Some "{old}"; Some "{old}"; Some "{old}"; Some "{old}"; Some "{new}"].
Proof. cbv zeta. repeat split. Qed.

End AtomicSave.

(** ** Bounded lists of the memory record *)
Section BoundedLists.
Import Transcript.

Lemma last_n_skipn {A} (k : Z) (l : list A) :
  (0 < k)%Z -> Py.last_n k l = skipn (List.length l - Z.to_nat k) l.
Proof.
  intros Hk. unfold Py.last_n, Py.slice, Py.clamp.
  destruct (Z.ltb_spec (- k) 0) as [_ | H]; [| lia].
  rewrite firstn_all. f_equal. lia.
Qed.

(** The cut keeps at most [k] elements. *)
Lemma last_n_length {A} (k : Z) (l : list A) :
  (0 < k)%Z -> (List.length (Py.last_n k l) <= Z.to_nat k)%nat.
Proof. intros Hk. rewrite last_n_skipn by exact Hk. rewrite length_skipn. lia. Qed.

(** The cut drops the oldest elements: what is kept is the end of the list. *)
Lemma last_n_keeps_newest {A} (k : Z) (old new : list A) :
  (0 < k)%Z -> List.length new = Z.to_nat k -> Py.last_n k (old ++ new)%list = new.
Proof.
  intros Hk L. rewrite last_n_skipn by exact Hk.
  rewrite length_app, L.
  replace (List.length old + Z.to_nat k - Z.to_nat k)%nat with (List.length old + 0)%nat by lia.
  rewrite skipn_app, Nat.add_0_r, skipn_all.
  replace (List.length old - List.length old)%nat with 0%nat by lia. reflexivity.
Qed.

(** Entries added one at a time, the list cut to [k] after each: what is left
    is the cut of all of them. *)
Lemma last_n_last_n_app {A} (k : Z) (l new : list A) :
  (0 < k)%Z -> Py.last_n k (Py.last_n k l ++ new)%list = Py.last_n k (l ++ new)%list.
Proof.
  intros Hk. rewrite !last_n_skipn by exact Hk.
  rewrite !length_app, length_skipn.
  set (n := List.length l). set (m := List.length new). set (c := Z.to_nat k).
  destruct (Nat.le_gt_cases n c) as [Hs | Hs].
  - replace (n - c)%nat with 0%nat by lia. cbn [skipn]. now rewrite Nat.sub_0_r.
  - rewrite !skipn_app, length_skipn. fold n.
    rewrite skipn_skipn.
    replace (n - (n - c) + m - c + (n - c))%nat with (n + m - c)%nat by lia.
    f_equal. f_equal. lia.
Qed.

(** The record [build_rich_memory] returns, when it returns one. *)
Lemma build_rich_memory_merged stored new_messages feature_changes recent_commits merged :
  Advanced.build_rich_memory stored new_messages feature_changes recent_commits
  = Advanced.Merged merged ->
  let session := (Py.get (Advanced.sessions stored) 0 + 1)%Z in
  let fl := Py.get (Advanced.feature_lifecycle stored) Advanced.empty_lifecycle in
  merged
  = {| Advanced.last_timestamp := Advanced.last_timestamp stored;
       Advanced.sessions := Some session;
       Advanced.feature_lifecycle :=
         Some {| Advanced.active_features :=
                   Py.last_n 20 (Advanced.active_features fl
                                 ++ Advanced.new_active feature_changes)%list;
                 Advanced.completed_features := Py.last_n 20 (Advanced.completed_features fl);
                 Advanced.struggling_features :=
                   Py.last_n 20
                     (Advanced.struggling_features fl
                      ++ Advanced.new_struggling session
                           (Advanced.edit_counts new_messages))%list;
                 Advanced.removed_features :=
                   Py.last_n 20 (Advanced.removed_features fl
                                 ++ Advanced.new_removed feature_changes)%list |};
       Advanced.technical_decisions :=
         Some (Py.last_n 30
                 (Py.get (Advanced.technical_decisions stored) []
                  ++ Advanced.new_decisions session new_messages)%list);
       Advanced.ai_insights := Advanced.ai_insights stored |}.
Proof.
  unfold Advanced.build_rich_memory. cbn [Advanced.struggling_features]. cbv zeta.
  destruct (List.last _ None) as [latest |];
    [destruct recent_commits; [| destruct (Advanced.missing_key latest); [discriminate |]] |];
    intros [= <-]; reflexivity.
Qed.

(** In that record the feature lists hold at most 20 entries each and the
    technical decisions at most 30. *)
Lemma build_rich_memory_bounded stored new_messages feature_changes recent_commits merged :
  Advanced.build_rich_memory stored new_messages feature_changes recent_commits
  = Advanced.Merged merged ->
  exists fl td,
    Advanced.feature_lifecycle merged = Some fl
    /\ Advanced.technical_decisions merged = Some td
    /\ (List.length (Advanced.active_features fl) <= 20)%nat
    /\ (List.length (Advanced.completed_features fl) <= 20)%nat
    /\ (List.length (Advanced.struggling_features fl) <= 20)%nat
    /\ (List.length (Advanced.removed_features fl) <= 20)%nat
    /\ (List.length td <= 30)%nat.
Proof.
  intros B. apply build_rich_memory_merged in B. cbv zeta in B. subst merged.
  cbn [Advanced.feature_lifecycle Advanced.technical_decisions]. do 2 eexists.
  split; [reflexivity |]. split; [reflexivity |].
  cbn [Advanced.active_features Advanced.completed_features
       Advanced.struggling_features Advanced.removed_features].
  repeat split;
    first [apply (last_n_length 20); reflexivity | apply (last_n_length 30); reflexivity].
Qed.

(** X26.  The AI insights saved by a pass hold at most 20 entries when the stored
    list did. *)
Lemma absorb_insights_bounded w merged result last_ts :
  (List.length (Py.get (Advanced.ai_insights merged) []) <= 20)%nat ->
  (List.length (Py.get (Advanced.ai_insights (Advanced.absorb w merged result last_ts)) [])
   <= 20)%nat.
Proof.
  intros H. unfold Advanced.absorb. cbn [Advanced.ai_insights].
  destruct (Advanced.memory_insights result) as [text |]; [| exact H].
  destruct (Py.truthy text); [| exact H].
  cbn [Py.get]. apply (last_n_length 20). reflexivity.
Qed.

(** X27.  The key decisions the enhanced worker leaves on disk hold at most 50
    entries when the stored list did. *)
Lemma enhanced_key_decisions_bounded cfg w transcript st :
  (List.length (Enhanced.stored_key_decisions st) <= 50)%nat ->
  (List.length (Enhanced.stored_key_decisions (fst (Enhanced.main cfg w transcript st)))
   <= 50)%nat.
Proof.
  intros H. unfold Enhanced.main.
  destruct (Enhanced.read_messages_since _ _) as [msgs new_key_decisions].
  destruct (Worker.last_event msgs) as [last_msg |]; [| exact H].
  destruct (Enhanced.advise w _) as [out |]; [| exact H].
  destruct (Worker.gate _ _ _ _ _ _); cbn [fst];
    unfold Enhanced.stored_key_decisions;
    cbn [Enhanced.memory_file Enhanced.key_decisions Py.get];
    apply (last_n_length 50); reflexivity.
Qed.

(** Eviction is oldest first: of [cap + 5] entries added to a list the last
    [cap] are left, for the caps 20, 30 and 50 of the workers. *)
Lemma cap_plus_five_leaves_last_cap {A} (cap : Z) (first5 last_cap : list A) :
  (0 < cap)%Z -> List.length last_cap = Z.to_nat cap ->
  Py.last_n cap (first5 ++ last_cap)%list = last_cap.
Proof. apply last_n_keeps_newest. Qed.

(** C7 at [sidekick-memory-advanced.py].  The rollbacks a verdict recommends
    are appended to the struggling features after [build_rich_memory] has cut
    the list, and the record is saved as it is: in a project whose [git]
    reports commits, from a stored list of 20 struggling files (entries as
    [build_rich_memory] writes them) and a verdict that recommends one
    rollback, the pass saves a list of 21 entries, the recommended rollback
    last.  The merge itself returned 20. *)
Theorem advanced_saved_struggling_features_exceed_cap :
  let said ts text :=
    Some {| timestamp := Some ts; type_ := Some "user";
            msg := Some {| role := Some "user"; body := Some (Plain text) |} |} in
  let struggle :=
    Advanced.Struggling "auth.js" 6 7
      "Consider reverting changes to auth.js and trying a different approach" in
  let stored :=
    {| Advanced.last_timestamp := None; Advanced.sessions := Some 7%Z;
       Advanced.feature_lifecycle :=
         Some {| Advanced.active_features := []; Advanced.completed_features := [];
                 Advanced.struggling_features := repeat struggle 20;
                 Advanced.removed_features := [] |};
       Advanced.technical_decisions := Some []; Advanced.ai_insights := None |} in
  let verdict :=
    {| Advanced.should_intervene := false; Advanced.score := Some 0%Q;
       Advanced.reason := None; Advanced.nudge_markdown := None; Advanced.commands := [];
       Advanced.memory_insights := None;
       Advanced.feature_recommendations := Some {| Advanced.rollback := ["src/login.js"] |} |} in
  let world :=
    {| Advanced.now := 0; Advanced.branch := "main";
       Advanced.recent_commits := ["3f2a9c1 add login form"];
       Advanced.advise := fun _ _ => Some verdict |} in
  let before := {| Advanced.memory_file := Some stored; Advanced.pending_file := Pending.Absent |} in
  let saved := Advanced.memory_file (fst (Advanced.main world (Some [said "t1" "hello"]) before)) in
  let listed m :=
    Advanced.struggling_features
      (Py.get (Advanced.feature_lifecycle (Py.get m Advanced.default_memory))
         Advanced.empty_lifecycle) in
  listed saved = (repeat struggle 20 ++ [Advanced.RollbackSuggested "src/login.js" 8])%list
  /\ List.length (listed saved) = 21%nat
  /\ (exists merged,
        Advanced.build_rich_memory stored
          [{| e_role := "user"; e_text := "hello"; e_timestamp := "t1"; e_tools := [] |}] []
          (Advanced.recent_commits world)
        = Advanced.Merged merged
        /\ List.length (listed (Some merged)) = 20%nat).
Proof.
  cbv zeta. split; [vm_compute; reflexivity |]. split; [vm_compute; reflexivity |].
  eexists. split; vm_compute; reflexivity.
Qed.

End BoundedLists.

(** ** The sanitizer's line cap *)
Section LineCap.

Lemma unbroken_app a b : Py.unbroken (a ++ b) = Py.unbroken a && Py.unbroken b.
Proof.
  induction a as [| c a IH]; cbn [String.append Py.unbroken]; [reflexivity |].
  rewrite IH. now rewrite andb_assoc.
Qed.

(** Every line [splitlines] returns is free of line boundaries. *)
Lemma splitlines_unbroken s : Forall (fun l => Py.unbroken l = true) (Py.splitlines s).
Proof.
  enough (H : Forall (fun l => Py.unbroken l = true) (Py.splitlines s)
              /\ forall c, Forall (fun l => Py.unbroken l = true) (Py.splitlines (String c s)))
    by apply H.
  induction s as [| c2 s [IH1 IH2]].
  - split; [constructor |]. intros c. cbn [Py.splitlines].
    destruct (Py.is_linebreak c) eqn:B; repeat constructor.
    cbn. now rewrite B.
  - split; [apply IH2 |]. intros c.
    change (Py.splitlines (String c (String c2 s))) with
      (if Py.is_linebreak c then
         if Ascii.eqb c Py.CR && Ascii.eqb c2 Py.LF
         then EmptyString :: Py.splitlines s
         else EmptyString :: Py.splitlines (String c2 s)
       else match Py.splitlines (String c2 s) with
            | [] => [String c EmptyString]
            | l :: ls => String c l :: ls
            end).
    destruct (Py.is_linebreak c) eqn:B.
    + destruct (_ && _); constructor; auto.
    + specialize (IH2 c2). destruct (Py.splitlines (String c2 s)) as [| l ls].
      * repeat constructor. cbn. now rewrite B.
      * inversion IH2 as [| ? ? Hl Hls]; subst. constructor; [| exact Hls].
        cbn. now rewrite B, Hl.
Qed.

(** A line followed by a newline is the first line of the text. *)
Lemma splitlines_line l rest :
  Py.unbroken l = true -> Py.splitlines (l ++ Py.nl ++ rest) = l :: Py.splitlines rest.
Proof.
  induction l as [| c l IH]; intros U.
  - cbn [String.append Py.nl]. destruct rest; reflexivity.
  - cbn [Py.unbroken] in U. apply andb_true_iff in U. destruct U as [Uc Ul].
    apply negb_true_iff in Uc.
    change (String c l ++ Py.nl ++ rest) with (String c (l ++ Py.nl ++ rest)).
    assert (E : Py.splitlines (String c (l ++ Py.nl ++ rest))
                = match Py.splitlines (l ++ Py.nl ++ rest) with
                  | [] => [String c EmptyString]
                  | x :: xs => String c x :: xs
                  end).
    { cbn [Py.splitlines]. rewrite Uc. reflexivity. }
    rewrite E, (IH Ul). reflexivity.
Qed.

(** A non-empty text without line boundaries is one line. *)
Lemma splitlines_one l : Py.unbroken l = true -> l <> "" -> Py.splitlines l = [l].
Proof.
  induction l as [| c l IH]; intros U N; [congruence |].
  cbn [Py.unbroken] in U. apply andb_true_iff in U. destruct U as [Uc Ul].
  apply negb_true_iff in Uc. cbn [Py.splitlines]. rewrite Uc.
  destruct l as [| c' l']; [reflexivity |].
  rewrite (IH Ul) by discriminate. reflexivity.
Qed.

(** Lines joined by newlines and followed by one more line split back into
    the lines and that line. *)
Lemma splitlines_join_then lines extra :
  Forall (fun l => Py.unbroken l = true) lines -> lines <> [] ->
  Py.unbroken extra = true -> extra <> "" ->
  Py.splitlines (Py.join Py.nl lines ++ Py.nl ++ extra) = (lines ++ [extra])%list.
Proof.
  intros U N Ue Ne. induction U as [| l lines Hl U IH]; [congruence |].
  destruct lines as [| l2 lines'].
  - cbn [Py.join String.concat app]. rewrite splitlines_line by exact Hl.
    now rewrite splitlines_one.
  - change (Py.join Py.nl (l :: l2 :: lines'))
      with (l ++ Py.nl ++ Py.join Py.nl (l2 :: lines')).
    rewrite !append_assoc. rewrite splitlines_line by exact Hl.
    rewrite IH by discriminate. reflexivity.
Qed.

Lemma digits_unbroken d : Py.unbroken (NilEmpty.string_of_uint d) = true.
Proof. induction d; cbn; auto. Qed.

Lemma str_of_Z_unbroken n : Py.unbroken (Py.str_of_Z n) = true.
Proof.
  unfold Py.str_of_Z, NilZero.string_of_int, NilZero.string_of_uint.
  destruct (Z.to_int n) as [d | d]; destruct d; cbn [Py.unbroken];
    try reflexivity; rewrite ?digits_unbroken; reflexivity.
Qed.

Lemma truncated_marker_line n :
  Py.unbroken (Worker.truncated_marker n) = true /\ Worker.truncated_marker n <> "".
Proof.
  unfold Worker.truncated_marker. split; [| discriminate].
  rewrite !unbroken_app, str_of_Z_unbroken. reflexivity.
Qed.

Lemma first_n_firstn {A} (k : Z) (l : list A) :
  (0 <= k)%Z -> Py.first_n k l = firstn (Z.to_nat k) l.
Proof.
  intros Hk. unfold Py.first_n, Py.slice, Py.clamp.
  destruct (Z.ltb_spec k 0) as [H | _]; [lia |]. cbn [skipn].
  destruct (Nat.le_gt_cases (Z.to_nat k) (List.length l)) as [L | L].
  - now rewrite Nat.min_l.
  - rewrite Nat.min_r by lia. now rewrite firstn_all, firstn_all2 by lia.
Qed.

Lemma Forall_firstn_of {A} (P : A -> Prop) n (l : list A) : Forall P l -> Forall P (firstn n l).
Proof.
  intros H. revert n. induction H as [| x l Hx _ IH]; intros [| n]; cbn; constructor; auto.
Qed.

(** The global cap, for a limit of at least one line: a text within the limit
    is returned as it is; a longer one is cut to its first [max_total] lines,
    followed by the marker line that counts the lines left out. *)
Lemma cap_lines_spec max_total text :
  (1 <= max_total)%Z ->
  (Py.line_count text <= max_total -> Worker.cap_lines max_total text = text)%Z
  /\ ((max_total < Py.line_count text)%Z ->
      Worker.cap_lines max_total text
      = Py.join Py.nl (firstn (Z.to_nat max_total) (Py.splitlines text))
        ++ Py.nl ++ Worker.truncated_marker (Py.line_count text - max_total)
      /\ Py.splitlines (Worker.cap_lines max_total text)
         = (firstn (Z.to_nat max_total) (Py.splitlines text)
            ++ [Worker.truncated_marker (Py.line_count text - max_total)])%list
      /\ Py.line_count (Worker.cap_lines max_total text) = (max_total + 1)%Z).
Proof.
  intros Hmax. unfold Worker.cap_lines, Py.line_count, Py.len. split.
  - intros H. destruct (Z.ltb_spec max_total (Z.of_nat (List.length (Py.splitlines text))));
      [lia | reflexivity].
  - intros H. destruct (Z.ltb_spec max_total (Z.of_nat (List.length (Py.splitlines text))));
      [| lia].
    rewrite first_n_firstn by lia.
    set (kept := firstn (Z.to_nat max_total) (Py.splitlines text)).
    set (marker := Worker.truncated_marker _).
    assert (Lk : List.length kept = Z.to_nat max_total)
      by (unfold kept; rewrite length_firstn; lia).
    assert (S : Py.splitlines (Py.join Py.nl kept ++ Py.nl ++ marker)
                = (kept ++ [marker])%list).
    { apply splitlines_join_then.
      - apply Forall_firstn_of, splitlines_unbroken.
      - intros E. rewrite E in Lk. cbn in Lk. lia.
      - apply truncated_marker_line.
      - apply truncated_marker_line. }
    split; [reflexivity |]. split; [exact S |].
    rewrite S, length_app, Lk. cbn [List.length]. lia.
Qed.

End LineCap.

Section SanitizerClaims.
Import Transcript.

Lemma cap_lines_bounds max_total pre :
  (1 <= max_total)%Z ->
  (Py.line_count (Worker.cap_lines max_total pre) <= max_total + 1)%Z
  /\ ((max_total < Py.line_count pre)%Z ->
      Py.line_count (Worker.cap_lines max_total pre) = (max_total + 1)%Z
      /\ Worker.cap_lines max_total pre
         = Py.join Py.nl (firstn (Z.to_nat max_total) (Py.splitlines pre))
           ++ Py.nl ++ Worker.truncated_marker (Py.line_count pre - max_total))
  /\ ((Py.line_count pre <= max_total)%Z -> Worker.cap_lines max_total pre = pre).
Proof.
  intros Hmax. destruct (cap_lines_spec max_total pre Hmax) as [Within Over].
  split; [| split].
  - destruct (Z.le_gt_cases (Py.line_count pre) max_total) as [L | G].
    + rewrite Within by exact L. lia.
    + destruct (Over G) as (_ & _ & C). lia.
  - intros G. destruct (Over G) as (T & _ & C). split; assumption.
  - exact Within.
Qed.

(** C5, as the code has it.  For a limit [MAX_LINES_TOTAL] of at least one
    line, in both workers: the output of [sanitize] has at most
    [MAX_LINES_TOTAL + 1] lines; when the text before the cap has more than
    [MAX_LINES_TOTAL] lines, the output is its first [MAX_LINES_TOTAL] lines
    followed by one marker line that states the number of lines left out,
    [MAX_LINES_TOTAL + 1] lines in all; otherwise the output is the text
    unchanged. *)
Theorem sanitize_lines_capped_then_marker cfg messages include_older :
  (1 <= Worker.MAX_LINES_TOTAL cfg)%Z ->
  let cap := Worker.MAX_LINES_TOTAL cfg in
  let holds pre out :=
    (Py.line_count out <= cap + 1)%Z
    /\ ((cap < Py.line_count pre)%Z ->
        Py.line_count out = (cap + 1)%Z
        /\ out = Py.join Py.nl (firstn (Z.to_nat cap) (Py.splitlines pre))
                 ++ Py.nl ++ Worker.truncated_marker (Py.line_count pre - cap))
    /\ ((Py.line_count pre <= cap)%Z -> out = pre) in
  holds (Worker.all_text cfg messages) (Worker.sanitize cfg messages)
  /\ holds (Enhanced.all_text cfg messages include_older)
       (Enhanced.sanitize cfg messages include_older).
Proof.
  intros Hmax cap holds. subst holds. cbv beta.
  split; apply cap_lines_bounds; exact Hmax.
Qed.

Lemma sanitize_three_lines_under_cap_of_two :
  let cfg :=
    {| Worker.MAX_EVENTS := 60; Worker.MAX_LINES_TOTAL := 2; Worker.MAX_BLOCK_LINES := 500;
       Worker.THRESHOLD := 0; Worker.NUDGE_TTL := 900 |} in
  let messages :=
    [{| e_role := "user"; e_text := "first" ++ Py.nl ++ "second" ++ Py.nl ++ "third";
        e_timestamp := "2024-05-01T10:00:01Z"; e_tools := [] |}] in
  (Py.line_count (Worker.sanitize cfg messages) <= 2 + 1)%Z
  /\ Worker.sanitize cfg messages
     = "USER @ 2024-05-01T10:00:01Z" ++ Py.nl ++ "first" ++ Py.nl
       ++ "... [truncated 2 lines]".
Proof.
  cbv zeta. split.
  - apply (sanitize_lines_capped_then_marker
             {| Worker.MAX_EVENTS := 60; Worker.MAX_LINES_TOTAL := 2;
                Worker.MAX_BLOCK_LINES := 500; Worker.THRESHOLD := 0;
                Worker.NUDGE_TTL := 900 |}
             [{| e_role := "user";
                 e_text := "first" ++ Py.nl ++ "second" ++ Py.nl ++ "third";
                 e_timestamp := "2024-05-01T10:00:01Z"; e_tools := [] |}] false).
    cbn. discriminate.
  - vm_compute. reflexivity.
Defined.

(** C5 as stated fails: with the default limit of 1200 lines, one message of
    1300 lines is sanitized to 1201 lines. *)
Lemma sanitize_default_cap_exceeded_by_marker :
  let message :=
    {| e_role := "assistant"; e_text := Py.join Py.nl (repeat "x" 1300);
       e_timestamp := "2024-05-01T10:00:01Z"; e_tools := [] |} in
  Worker.MAX_LINES_TOTAL Worker.default_config = 1200%Z
  /\ Py.line_count (Worker.sanitize Worker.default_config [message]) = 1201%Z.
Proof. cbv zeta. split; [reflexivity |]. vm_compute. reflexivity. Qed.

End SanitizerClaims.

(** * Further properties of the hooks *)

(** ** The trigger gate over a run of events *)
Section CounterRuns.
Import Counter.
Local Open Scope Z_scope.

(** X1.  Over any run of events the persisted counter grows by the number of
    events: whatever the configuration, whether workers are spawned, and
    also when an event ends in [ZeroDivisionError]. *)
Theorem run_counts_every_event cfg events f :
  counter_of (fst (run cfg events f)) = counter_of f + Z.of_nat (List.length events).
Proof.
  revert f. induction events as [| [now env] events IH]; intros f.
  - cbn. lia.
  - rewrite run_cons. cbn [fst List.length]. rewrite IH, main_counter. lia.
Qed.

Lemma run_last_run_lower_bound cfg events f t :
  (t <= last_run_of f)%Q ->
  Forall (fun e => (t <= fst e)%Q) events ->
  (t <= last_run_of (fst (run cfg events f)))%Q.
Proof.
  revert f. induction events as [| [now env] events IH]; intros f Hf Hall; [exact Hf |].
  rewrite run_cons. cbn [fst]. inversion Hall as [| ? ? Hnow Hrest]; subst.
  apply IH; [| exact Hrest]. rewrite main_last_run. cbn [fst] in Hnow.
  destruct (snd (main cfg now env f)) as [[|] [|] |]; assumption.
Qed.

Lemma spawned_fire_records_now cfg now f :
  fires (snd (main cfg now WorkerRuns f)) ->
  last_run_of (fst (main cfg now WorkerRuns f)) = now.
Proof.
  intros F.
  assert (I : INTERVAL cfg <> 0) by (apply main_fires_iff in F; tauto).
  apply fires_iff_firesb in F.
  pose proof (main_last_run cfg now WorkerRuns f) as R.
  rewrite main_outcome in F, R by exact I.
  destruct (_ && _) in F, R; [exact R | discriminate].
Qed.

(** X2.  With a clock that does not run backwards, a fire never follows a fire
    whose worker was spawned by less than the cooldown, whatever events,
    fires and failed spawns lie between the two. *)
Theorem fires_after_spawn_are_cooldown_apart cfg f t1 between t2 env2 :
  fires (snd (main cfg t1 WorkerRuns f)) ->
  Forall (fun e => (t1 <= fst e)%Q) between ->
  fires (snd (main cfg t2 env2
                (fst (run cfg between (fst (main cfg t1 WorkerRuns f)))))) ->
  (inject_Z (COOLDOWN_S cfg) <= t2 - t1)%Q.
Proof.
  intros F1 Mono F2.
  pose proof (spawned_fire_records_now cfg t1 f F1) as R.
  assert (B : (t1 <= last_run_of (fst (run cfg between (fst (main cfg t1 WorkerRuns f)))))%Q).
  { apply run_last_run_lower_bound; [rewrite R; apply Qle_refl | exact Mono]. }
  apply main_fires_iff in F2. destruct F2 as (_ & _ & L). lra.
Qed.

Lemma fires_at_ten_and_twenty_are_apart :
  let f := Some {| count := Some 9; last_run := None |} in
  let between := repeat (1060%Q, PopenRaises) 9 in
  (inject_Z (COOLDOWN_S default_config) <= 1130 - 1000)%Q.
Proof.
  cbv zeta.
  apply (fires_after_spawn_are_cooldown_apart default_config
           (Some {| count := Some 9; last_run := None |}) 1000%Q
           (repeat (1060%Q, PopenRaises) 9) 1130%Q WorkerMissing).
  - apply fires_iff_firesb. vm_compute. reflexivity.
  - repeat constructor; cbn; discriminate.
  - apply fires_iff_firesb. vm_compute. reflexivity.
Defined.

End CounterRuns.

(** ** Saving the state file of the counter *)
Section CounterSave.
Import FS.

(** X3.  [save_state] of [sidekick-counter.py], for a state file whose suffix is
    not [.tmp] and a temporary name that is new in the directory: at every
    moment the state file holds its previous content or the whole new text,
    the new text at the end; the temporary file is in the state file's
    directory and is gone at the end; no other file is changed. *)
Theorem save_state_atomic_and_local tmp_name state_file chunks fs :
  let tmp_path := {| parent := parent state_file; stem := tmp_name; suffix := ".tmp" |} in
  suffix state_file <> ".tmp" ->
  fs tmp_path = None ->
  Forall (fun fs' => fs' state_file = fs state_file
                     \/ fs' state_file = Some (text_of chunks))
    (trace (CounterFile.save_state tmp_name state_file chunks) fs)
  /\ exec (CounterFile.save_state tmp_name state_file chunks) fs state_file
     = Some (text_of chunks)
  /\ (forall q, q <> state_file ->
        exec (CounterFile.save_state tmp_name state_file chunks) fs q = fs q).
Proof.
  intros tmp N Fresh. unfold CounterFile.save_state. fold tmp.
  assert (NT : state_file <> tmp) by (intros E; apply N; rewrite E; reflexivity).
  assert (W : exec (write_file tmp chunks) fs tmp = Some (text_of chunks)).
  { unfold write_file. change (exec (Truncate tmp :: ?l) fs)
      with (exec l (set tmp (Some "") fs)).
    rewrite (exec_appends tmp chunks _ ""); [reflexivity | apply set_same]. }
  assert (E : forall q,
             exec (write_file tmp chunks ++ [Replace tmp state_file])%list fs q
             = set tmp None (set state_file (Some (text_of chunks))
                               (exec (write_file tmp chunks) fs)) q).
  { intros q. unfold exec at 1. rewrite fold_left_app.
    fold (exec (write_file tmp chunks) fs). cbn [fold_left step]. now rewrite W. }
  split; [| split].
  - rewrite trace_app. apply Forall_app. split.
    + eapply Forall_impl; [| apply write_file_elsewhere; exact NT]. cbn. auto.
    + cbn [trace step]. rewrite W. constructor; [| constructor].
      right. rewrite set_other by exact NT. apply set_same.
  - rewrite E, set_other by exact NT. apply set_same.
  - intros q Nq. rewrite E.
    destruct (path_eqb q tmp) eqn:Q.
    + apply path_eqb_eq in Q. subst q. rewrite set_same. now rewrite Fresh.
    + assert (q <> tmp) by (intros ->; rewrite (proj2 (path_eqb_eq tmp tmp) eq_refl) in Q;
                            discriminate).
      rewrite !set_other by assumption. now apply write_file_exec_elsewhere.
Qed.

Lemma save_state_of_fresh_project :
  let state_file := {| parent := "~/.claude/sidekick/0123456789ab"; stem := "state";
                       suffix := ".json" |} in
  let fs : FS.t := fun _ => None in
  exec (CounterFile.save_state "tmpab12cd34" state_file ["{"; "}"]) fs state_file
  = Some "{}".
Proof.
  cbv zeta.
  apply (save_state_atomic_and_local "tmpab12cd34"
           {| parent := "~/.claude/sidekick/0123456789ab"; stem := "state";
              suffix := ".json" |} ["{"; "}"] (fun _ => None)).
  - discriminate.
  - reflexivity.
Defined.

End CounterSave.

(** ** Stripping and slicing *)
Section StripFacts.

Lemma rstrip_cons c r :
  Py.rstrip (String c r)
  = match Py.rstrip r with
    | EmptyString => if Py.is_space c then EmptyString else String c EmptyString
    | String d x => String c (String d x)
    end.
Proof. cbn [Py.rstrip]. destruct (Py.rstrip r); reflexivity. Qed.

Lemma rstrip_rstrip s : Py.rstrip (Py.rstrip s) = Py.rstrip s.
Proof.
  induction s as [| c r IH]; [reflexivity |]. rewrite (rstrip_cons c r).
  destruct (Py.rstrip r) as [| d x] eqn:X.
  - destruct (Py.is_space c) eqn:S; [reflexivity |].
    rewrite rstrip_cons. cbn [Py.rstrip]. now rewrite S.
  - rewrite rstrip_cons, IH. reflexivity.
Qed.

Lemma lstrip_head s :
  Py.lstrip s = "" \/ exists c r, Py.lstrip s = String c r /\ Py.is_space c = false.
Proof.
  induction s as [| c r IH]; [now left |]. cbn [Py.lstrip].
  destruct (Py.is_space c) eqn:S; [exact IH |]. right. now exists c, r.
Qed.

Lemma rstrip_keeps_head c r :
  Py.is_space c = false -> exists r', Py.rstrip (String c r) = String c r'.
Proof.
  intros S. rewrite rstrip_cons. destruct (Py.rstrip r) as [| d x].
  - rewrite S. now exists "".
  - now exists (String d x).
Qed.

(** Stripping a stripped text changes nothing. *)
Lemma strip_strip s : Py.strip (Py.strip s) = Py.strip s.
Proof.
  unfold Py.strip. destruct (lstrip_head s) as [E | (c & r & E & S)]; rewrite E.
  - reflexivity.
  - destruct (rstrip_keeps_head c r S) as [r' R]. rewrite R.
    cbn [Py.lstrip]. rewrite S, <- R. apply rstrip_rstrip.
Qed.

Lemma length_str l : String.length (Py.str l) = List.length l.
Proof. unfold Py.str. induction l as [| c l IH]; cbn; congruence. Qed.

Lemma length_chars s : List.length (Py.chars s) = String.length s.
Proof. unfold Py.chars. induction s as [| c s IH]; cbn; congruence. Qed.

(** [s[:k]] has at most [k] characters. *)
Lemma sslice_prefix_length k s :
  (0 <= k)%Z -> (String.length (Py.sslice None (Some k) s) <= Z.to_nat k)%nat.
Proof.
  intros Hk. unfold Py.sslice. rewrite length_str.
  change (Py.slice None (Some k) (Py.chars s)) with (Py.first_n k (Py.chars s)).
  rewrite first_n_firstn by exact Hk. apply firstn_le_length.
Qed.

End StripFacts.

(** ** A pass of the review worker *)
Section WorkerPass.
Import Transcript.
Import Worker.

Lemma worker_reread_empty lines w last_msg :
  Forall dated (read_lines lines None) ->
  non_decreasing (read_lines lines None) ->
  last_event (read_lines lines w) = Some last_msg ->
  e_timestamp last_msg <> ""
  /\ read_lines lines (Some (e_timestamp last_msg)) = [].
Proof.
  intros D S L. rewrite (read_lines_filter lines w) in L.
  destruct (last_event_some _ _ last_msg L) as [NE E].
  rewrite (last_of_newer _ w last_msg S D NE) in E.
  assert (NE' : read_lines lines None <> [])
    by (intros Z; rewrite Z in NE; now apply NE).
  pose proof (last_in _ last_msg NE') as Hin. rewrite E in Hin.
  pose proof (non_decreasing_last _ last_msg S) as M. rewrite E in M.
  rewrite Forall_forall in *.
  assert (Dl : e_timestamp last_msg <> "") by (apply D; exact Hin).
  split; [exact Dl |].
  rewrite read_lines_filter. apply filter_none. rewrite Forall_forall.
  intros ev Hev. unfold undated_or_newer.
  assert (De : e_timestamp ev <> "") by (apply D; exact Hev).
  apply truthy_iff in Dl, De. rewrite Dl, De. cbn [negb orb].
  rewrite ltb_is_not_leb, (M ev Hev). reflexivity.
Qed.

(** X4.  After a pass that reached a parsed verdict, on a transcript whose events
    are all dated with timestamps that never decrease, the watermark stands
    at the last event: a second pass over the same transcript, whatever the
    reasoning service would answer, reads nothing new, writes nothing and
    leaves both files as they are. *)
Theorem second_pass_over_same_transcript_is_idle cfg w w' lines st last_msg out :
  let memory := Py.get (memory_file st) default_memory in
  let msgs := read_messages_since (Some lines) (last_timestamp memory) in
  Forall dated (read_messages_since (Some lines) None) ->
  non_decreasing (read_messages_since (Some lines) None) ->
  last_event msgs = Some last_msg ->
  advise w (user_payload cfg w memory msgs) = Some out ->
  main cfg w' (Some lines) (fst (main cfg w (Some lines) st))
  = (fst (main cfg w (Some lines) st), None).
Proof.
  intros memory msgs D S L A.
  destruct (worker_reread_empty lines (last_timestamp memory) last_msg D S L) as [Dl R].
  apply truthy_iff in Dl.
  assert (W : last_timestamp
                (Py.get (memory_file (fst (main cfg w (Some lines) st))) default_memory)
              = Some (e_timestamp last_msg)).
  { unfold main. fold memory. fold msgs. rewrite L, A.
    destruct (gate _ _ _ _ _ _); cbn [fst memory_file Py.get last_timestamp];
      now rewrite Dl. }
  unfold main at 1. rewrite W. cbn [read_messages_since]. rewrite R. reflexivity.
Qed.

Lemma second_pass_after_one_message_is_idle :
  let said ts text :=
    Some {| timestamp := Some ts; type_ := Some "user";
            msg := Some {| role := Some "user"; body := Some (Plain text) |} |} in
  let lines := [said "2024-05-01T10:00:01Z" "hello"; said "2024-05-01T10:00:02Z" "again"] in
  let answer :=
    {| should_intervene := true; score := Some (9 # 10); reason := Some "why";
       nudge_markdown := Some "Run the tests"; commands := []; memory_update := None |} in
  let w := {| now := 0; policy := ""; sha256_hex := fun s => s;
              advise := fun _ => Some answer |} in
  let st := {| memory_file := None; pending_file := Pending.Absent |} in
  main default_config w (Some lines) (fst (main default_config w (Some lines) st))
  = (fst (main default_config w (Some lines) st), None).
Proof.
  cbv zeta.
  apply (second_pass_over_same_transcript_is_idle default_config
           {| now := 0; policy := ""; sha256_hex := fun s => s;
              advise := fun _ =>
                Some {| should_intervene := true; score := Some (9 # 10);
                        reason := Some "why"; nudge_markdown := Some "Run the tests";
                        commands := []; memory_update := None |} |}
           _ _ _
           {| e_role := "user"; e_text := "again";
              e_timestamp := "2024-05-01T10:00:02Z"; e_tools := [] |}
           {| should_intervene := true; score := Some (9 # 10);
              reason := Some "why"; nudge_markdown := Some "Run the tests";
              commands := []; memory_update := None |}).
  - repeat constructor; discriminate.
  - repeat constructor.
  - reflexivity.
  - reflexivity.
Defined.

(** X5.  The long-term summary: the excerpt sent to the reasoning service never
    exceeds 2000 characters, and a pass keeps a saved summary of at most 4000
    characters within 4000 characters. *)
Theorem long_term_summary_stays_bounded cfg w tr st :
  (forall m msgs,
     (String.length (p_long_term_summary (user_payload cfg w m msgs)) <= 2000)%nat)
  /\ ((String.length (stored_summary st) <= 4000)%nat ->
      (String.length (stored_summary (fst (main cfg w tr st))) <= 4000)%nat).
Proof.
  split.
  - intros m msgs. apply (sslice_prefix_length 2000). discriminate.
  - intros H. unfold main.
    destruct (last_event _) as [last_msg |]; [| exact H].
    destruct (advise w _) as [out |]; [| exact H].
    destruct (gate _ _ _ _ _ _); cbn [fst]; unfold stored_summary;
      cbn [memory_file long_term_summary Py.get];
      (destruct (Py.truthy (Py.strip (Py.or_empty (memory_update out))));
        [cbn [Py.get]; apply (sslice_prefix_length 4000); discriminate | exact H]).
Qed.

(** A summary of 3999 characters and an update of twelve: the saved summary
    is cut at 4000 characters. *)
Lemma long_term_summary_cut_at_four_thousand :
  let said :=
    Some {| timestamp := Some "t1"; type_ := Some "user";
            msg := Some {| role := Some "user"; body := Some (Plain "hi") |} |} in
  let stored :=
    {| last_timestamp := None; long_term_summary := Some (Py.repeat_char "x" 3999);
       last_nudge_hash := Some "" |} in
  let answer :=
    {| should_intervene := false; score := Some 0; reason := None;
       nudge_markdown := None; commands := []; memory_update := Some "prefers pnpm" |} in
  let w := {| now := 0; policy := ""; sha256_hex := fun s => s;
              advise := fun _ => Some answer |} in
  let st := {| memory_file := Some stored; pending_file := Pending.Absent |} in
  let saved := stored_summary (fst (main default_config w (Some [said]) st)) in
  (String.length saved <= 4000)%nat
  /\ saved = Py.repeat_char "x" 3999 ++ Py.nl.
Proof.
  cbv zeta. split; [| vm_compute; reflexivity].
  apply (proj2 (long_term_summary_stays_bounded default_config
                  {| now := 0; policy := ""; sha256_hex := fun s => s;
                     advise := fun _ =>
                       Some {| should_intervene := false; score := Some 0; reason := None;
                               nudge_markdown := None; commands := [];
                               memory_update := Some "prefers pnpm" |} |}
                  (Some [Some {| timestamp := Some "t1"; type_ := Some "user";
                                 msg := Some {| role := Some "user";
                                                body := Some (Plain "hi") |} |}])
                  {| memory_file :=
                       Some {| last_timestamp := None;
                               long_term_summary := Some (Py.repeat_char "x" 3999);
                               last_nudge_hash := Some "" |};
                     pending_file := Pending.Absent |})).
  vm_compute. lia.
Defined.

(** X6.  A record the worker writes is delivered by the next call of the nudge
    hook made no more than [NUDGE_TTL] seconds after the pass: the hook
    prints the banner, the reason line when there is a reason, and the body,
    and deletes the record; called later than that, it prints nothing and
    deletes the record. *)
Theorem written_nudge_is_delivered_while_fresh cfg w tr st p fallback now' :
  snd (main cfg w tr st) = Some p ->
  exists nudge,
    Pending.nudge_markdown p = Some nudge /\ nudge <> ""
    /\ ((now' - now w <= inject_Z (NUDGE_TTL cfg))%Q ->
        Nudge.main fallback now' (pending_file (fst (main cfg w tr st)))
        = (Pending.Absent,
           Nudge.Exit1
             (Nudge.banner
              :: List.app
                   (if Py.truthy (Py.get (Pending.reason p) "")
                    then ["_Why_: " ++ Py.get (Pending.reason p) "" ++ Py.nl] else [])
                   [nudge])))
    /\ ((inject_Z (NUDGE_TTL cfg) < now' - now w)%Q ->
        Nudge.main fallback now' (pending_file (fst (main cfg w tr st)))
        = (Pending.Absent, Nudge.Exit0)).
Proof.
  unfold main.
  destruct (last_event _) as [last_msg |]; [| discriminate].
  destruct (advise w _) as [out |]; [| discriminate].
  destruct (gate _ _ _ _ _ _) eqn:G; cbn [fst snd]; [| discriminate].
  intros [= <-]. exists (nudge_of out).
  apply gate_iff in G. destruct G as (_ & _ & G3 & _).
  cbn [Pending.nudge_markdown Pending.reason pending_file].
  split; [reflexivity |]. split; [exact G3 |].
  assert (S : Py.strip (nudge_of out) = nudge_of out) by (unfold nudge_of; apply strip_strip).
  assert (T : Py.truthy (nudge_of out) = true) by now apply truthy_iff.
  split; intros H; unfold Nudge.main, Nudge.stale;
    cbn [Pending.ttl_seconds Pending.created_at Pending.nudge_markdown
         Pending.reason Py.get].
  - replace (Qle_bool (now' - now w) (inject_Z (NUDGE_TTL cfg))) with true
      by (symmetry; now apply Qle_bool_iff).
    cbn [negb]. rewrite S, T. reflexivity.
  - replace (Qle_bool (now' - now w) (inject_Z (NUDGE_TTL cfg))) with false
      by (symmetry; now apply Qle_bool_false).
    reflexivity.
Qed.

Lemma written_nudge_delivered_after_ten_minutes :
  let said ts text :=
    Some {| timestamp := Some ts; type_ := Some "user";
            msg := Some {| role := Some "user"; body := Some (Plain text) |} |} in
  let answer :=
    {| should_intervene := true; score := Some (9 # 10); reason := Some "why";
       nudge_markdown := Some " Run the tests "; commands := []; memory_update := None |} in
  let w := {| now := 1000; policy := ""; sha256_hex := fun s => s;
              advise := fun _ => Some answer |} in
  let st := {| memory_file := None; pending_file := Pending.Absent |} in
  Nudge.main 1600 1600 (pending_file (fst (main default_config w (Some [said "t1" "hi"]) st)))
  = (Pending.Absent,
     Nudge.Exit1 [Nudge.banner; "_Why_: why" ++ Py.nl; "Run the tests"]).
Proof.
  cbv zeta.
  destruct (written_nudge_is_delivered_while_fresh default_config
              {| now := 1000; policy := ""; sha256_hex := fun s => s;
                 advise := fun _ =>
                   Some {| should_intervene := true; score := Some (9 # 10);
                           reason := Some "why"; nudge_markdown := Some " Run the tests ";
                           commands := []; memory_update := None |} |}
              (Some [Some {| timestamp := Some "t1"; type_ := Some "user";
                             msg := Some {| role := Some "user";
                                            body := Some (Plain "hi") |} |}])
              {| memory_file := None; pending_file := Pending.Absent |}
              {| Pending.created_at := Some 1000; Pending.ttl_seconds := Some 900%Z;
                 Pending.nudge_markdown := Some "Run the tests"; Pending.commands := [];
                 Pending.score := Some (9 # 10); Pending.reason := Some "why";
                 Pending.context := None |}
              1600 1600 eq_refl) as (nudge & N & _ & Fresh & _).
  injection N as <-. apply Fresh. vm_compute. discriminate.
Defined.

End WorkerPass.

(** ** Blocks and plain text in the sanitizer *)
Section SanitizerParts.
Import Transcript.
Import Worker.

Lemma truncate_is_cap text max_lines :
  truncate_block_lines text max_lines = cap_lines max_lines text.
Proof.
  unfold truncate_block_lines, cap_lines.
  destruct (Z.leb_spec (Py.len (Py.splitlines text)) max_lines) as [L | L];
    destruct (Z.ltb_spec max_lines (Py.len (Py.splitlines text))) as [G | G];
    try lia; reflexivity.
Qed.

(** X7.  [truncate_block_lines], for a limit of at least one line: a text of at
    most [max_lines] lines is returned as it is; a longer one becomes its first
    [max_lines] lines and one marker line that counts the lines left out. *)
Theorem truncate_block_lines_keeps_head_and_counts text max_lines :
  (1 <= max_lines)%Z ->
  ((Py.line_count text <= max_lines)%Z -> truncate_block_lines text max_lines = text)
  /\ ((max_lines < Py.line_count text)%Z ->
      Py.splitlines (truncate_block_lines text max_lines)
      = (firstn (Z.to_nat max_lines) (Py.splitlines text)
         ++ [truncated_marker (Py.line_count text - max_lines)])%list).
Proof.
  intros H. rewrite truncate_is_cap.
  destruct (cap_lines_spec max_lines text H) as [Within Over].
  split; [exact Within |]. intros G. now destruct (Over G) as (_ & S & _).
Qed.

Lemma truncate_five_lines_to_two :
  Py.splitlines
    (truncate_block_lines
       ("a" ++ Py.nl ++ "b" ++ Py.nl ++ "c" ++ Py.nl ++ "d" ++ Py.nl ++ "e") 2)
  = ["a"; "b"; "... [truncated 3 lines]"].
Proof.
  apply (proj2 (truncate_block_lines_keeps_head_and_counts
                  ("a" ++ Py.nl ++ "b" ++ Py.nl ++ "c" ++ Py.nl ++ "d" ++ Py.nl ++ "e") 2
                  ltac:(discriminate))).
  reflexivity.
Defined.

Lemma chars_app a b : Py.chars (a ++ b) = (Py.chars a ++ Py.chars b)%list.
Proof. unfold Py.chars. induction a as [| c a IH]; cbn; congruence. Qed.

Lemma str_app a b : Py.str (a ++ b)%list = Py.str a ++ Py.str b.
Proof. unfold Py.str. induction a as [| c a IH]; cbn; congruence. Qed.

Lemma str_chars s : Py.str (Py.chars s) = s.
Proof. apply string_of_list_ascii_of_string. Qed.

(** X8.  [_trim_block] on a fenced block with a body keeps both fences and
    truncates the body alone.  On the block of two fences with nothing between
    them it returns one fence only when [MAX_BLOCK_LINES] is not negative,
    and one fence followed by a marker line when it is negative. *)
Theorem trim_block_keeps_fences_around_body cfg :
  (forall body, body <> "" ->
     _trim_block cfg (fence ++ body ++ fence)
     = fence ++ truncate_block_lines body (MAX_BLOCK_LINES cfg) ++ fence)
  /\ ((0 <= MAX_BLOCK_LINES cfg)%Z -> _trim_block cfg (fence ++ fence) = fence)
  /\ ((MAX_BLOCK_LINES cfg < 0)%Z ->
      _trim_block cfg (fence ++ fence)
      = fence ++ Py.nl ++ truncated_marker (- MAX_BLOCK_LINES cfg)).
Proof.
  split; [| split].
  2:{ intros H. unfold _trim_block. cbn [String.length fence String.append Nat.ltb Nat.leb].
      unfold truncate_block_lines. cbn [Py.splitlines Py.len List.length Z.of_nat].
      destruct (Z.leb_spec 0 (MAX_BLOCK_LINES cfg)); [reflexivity | lia]. }
  2:{ intros H. unfold _trim_block. cbn [String.length fence String.append Nat.ltb Nat.leb].
      unfold truncate_block_lines. cbn [Py.splitlines Py.len List.length Z.of_nat].
      destruct (Z.leb_spec 0 (MAX_BLOCK_LINES cfg)); [lia |].
      assert (F : Py.first_n (MAX_BLOCK_LINES cfg) (@nil string) = [])
        by (unfold Py.first_n, Py.slice; cbn [List.length]; now rewrite firstn_nil, skipn_nil).
      rewrite F, Z.sub_0_l, append_nil_r. reflexivity. }
  intros body N. unfold _trim_block.
  assert (Lb : (0 < String.length body)%nat) by (destruct body; [congruence | cbn; lia]).
  assert (Ln : String.length (fence ++ body ++ fence) = (6 + String.length body)%nat).
  { rewrite <- !length_chars, !chars_app, !length_app, !length_chars. cbn. lia. }
  rewrite Ln. replace (6 <? 6 + String.length body)%nat with true
    by (symmetry; apply Nat.ltb_lt; lia).
  assert (Lc : List.length (Py.chars (fence ++ body ++ fence))
               = (6 + List.length (Py.chars body))%nat).
  { rewrite !chars_app, !length_app. cbn. lia. }
  assert (L3 : List.length (Py.chars fence) = 3%nat) by reflexivity.
  assert (H1 : Py.sslice None (Some 3%Z) (fence ++ body ++ fence) = fence).
  { unfold Py.sslice, Py.slice. rewrite Lc. cbn [Py.clamp Z.ltb Z.compare].
    rewrite Nat.min_l by (cbn; lia). cbn [skipn].
    rewrite chars_app. change (Z.to_nat 3) with 3%nat.
    rewrite firstn_app, L3, Nat.sub_diag, firstn_O, app_nil_r.
    rewrite firstn_all2 by (rewrite L3; lia). reflexivity. }
  assert (H2 : Py.sslice (Some 3%Z) (Some (-3)%Z) (fence ++ body ++ fence) = body).
  { unfold Py.sslice, Py.slice. rewrite Lc. unfold Py.clamp.
    cbn [Z.ltb Z.compare].
    rewrite Nat.min_l by (cbn; lia). change (Z.to_nat 3) with 3%nat.
    replace (Z.to_nat (Z.max (-3 + Z.of_nat (6 + List.length (Py.chars body))) 0))
      with (3 + List.length (Py.chars body))%nat by lia.
    rewrite !chars_app.
    rewrite firstn_app, L3.
    rewrite firstn_all2 by (rewrite L3; lia).
    replace (3 + List.length (Py.chars body) - 3)%nat with (List.length (Py.chars body)) by lia.
    rewrite firstn_app, Nat.sub_diag, firstn_O, app_nil_r, firstn_all.
    rewrite skipn_app, L3, Nat.sub_diag. cbn [skipn].
    change (skipn 3 (Py.chars fence)) with (@nil ascii). cbn [app].
    apply str_chars. }
  assert (H3 : Py.sslice (Some (-3)%Z) None (fence ++ body ++ fence) = fence).
  { unfold Py.sslice, Py.slice. rewrite firstn_all, Lc. unfold Py.clamp.
    cbn [Z.ltb Z.compare].
    replace (Z.to_nat (Z.max (-3 + Z.of_nat (6 + List.length (Py.chars body))) 0))
      with (3 + List.length (Py.chars body))%nat by lia.
    rewrite !chars_app, app_assoc.
    rewrite skipn_app, length_app, L3.
    replace (3 + List.length (Py.chars body) - (3 + List.length (Py.chars body)))%nat
      with 0%nat by lia.
    rewrite skipn_all2 by (rewrite length_app, L3; lia). reflexivity. }
  rewrite H1, H2, H3. reflexivity.
Qed.

Lemma trim_block_of_short_block :
  _trim_block default_config (fence ++ "x = 1" ++ fence) = "```x = 1```"
  /\ _trim_block {| MAX_EVENTS := 60; MAX_LINES_TOTAL := 1200; MAX_BLOCK_LINES := -1;
                    THRESHOLD := 2 # 10; NUDGE_TTL := 900 |} (fence ++ fence)
     = "```" ++ Py.nl ++ "... [truncated 1 lines]".
Proof.
  split.
  - rewrite (proj1 (trim_block_keeps_fences_around_body default_config) "x = 1"
               ltac:(discriminate)).
    reflexivity.
  - rewrite (proj2 (proj2 (trim_block_keeps_fences_around_body
                             {| MAX_EVENTS := 60; MAX_LINES_TOTAL := 1200;
                                MAX_BLOCK_LINES := -1; THRESHOLD := 2 # 10;
                                NUDGE_TTL := 900 |})) ltac:(reflexivity)).
    reflexivity.
Defined.

Lemma every_drop p k s : Py.every p s = true -> Py.every p (drop k s) = true.
Proof.
  revert s. induction k as [| k IH]; intros s H; [destruct s; exact H |].
  destruct s as [| c r]; [exact H |]. cbn [drop]. apply IH.
  cbn [Py.every] in H. apply andb_true_iff in H. tauto.
Qed.

Lemma sub_from_no_match (m : matcher) repl prev s :
  (forall prev' s', Py.every inert s' = true -> m prev' s' = None) ->
  Py.every inert s = true -> sub_from m repl O prev s = s.
Proof.
  intros M. revert prev. induction s as [| c r IH]; intros prev H; [reflexivity |].
  cbn [sub_from]. rewrite (M prev (String c r) H).
  cbn [Py.every] in H. apply andb_true_iff in H. now rewrite IH.
Qed.

Lemma inert_no_noise_id prev s : Py.every inert s = true -> noise_id prev s = None.
Proof.
  intros H. unfold noise_id.
  destruct (match prev with Some p => negb (is_word p) | None => true end); [| reflexivity].
  destruct (if starts_with_nocase "uuid" s then Some 4%nat
            else if starts_with_nocase "request_id" s then Some 10%nat
            else if starts_with_nocase "trace_id" s then Some 8%nat else None)
    as [k |]; [| reflexivity].
  pose proof (every_drop inert k s H) as D.
  destruct (drop k s) as [| c r]; [reflexivity |].
  cbn [Py.every] in D. apply andb_true_iff in D. destruct D as [D _].
  unfold inert in D. rewrite !andb_true_iff in D. destruct D as [_ D].
  apply negb_true_iff in D. now rewrite D.
Qed.

Lemma inert_no_ansi prev s : Py.every inert s = true -> ansi_colour prev s = None.
Proof.
  intros H. unfold ansi_colour. destruct s as [| c0 [| c1 r]]; try reflexivity.
  cbn [Py.every] in H. apply andb_true_iff in H. destruct H as [H _].
  unfold inert in H. rewrite !andb_true_iff in H. destruct H as [[H _] _].
  apply negb_true_iff in H. now rewrite H.
Qed.

Lemma inert_no_fence prev s : Py.every inert s = true -> fenced_block prev s = None.
Proof.
  intros H. unfold fenced_block. destruct s as [| c r]; [reflexivity |].
  cbn [Py.every] in H. apply andb_true_iff in H. destruct H as [H _].
  unfold inert in H. rewrite !andb_true_iff in H. destruct H as [[_ H] _].
  apply negb_true_iff, Nat.eqb_neq in H.
  unfold fence. cbn [String.prefix].
  destruct (ascii_dec "`" c) as [E | E]; [| reflexivity].
  subst c. now elim H.
Qed.

(** X9.  A message whose text has no ESC, backtick, colon or equals sign goes
    through the three substitutions of [sanitize] unchanged: its chunk is the
    header line, the text and a newline. *)
Theorem plain_text_is_not_rewritten cfg m :
  Py.every inert (e_text m) = true ->
  clean_chunk cfg m
  = Py.upper (e_role m) ++ " @ " ++ e_timestamp m ++ Py.nl ++ e_text m ++ Py.nl.
Proof.
  intros H. unfold clean_chunk, re_sub.
  rewrite (sub_from_no_match noise_id _ None _ inert_no_noise_id H).
  rewrite (sub_from_no_match ansi_colour _ None _ inert_no_ansi H).
  rewrite (sub_from_no_match fenced_block _ None _ inert_no_fence H).
  reflexivity.
Qed.

Lemma plain_text_chunk_of_greeting :
  clean_chunk default_config
    {| e_role := "user"; e_text := "please add a uuid column";
       e_timestamp := "2024-05-01T10:00:01Z"; e_tools := [] |}
  = "USER @ 2024-05-01T10:00:01Z" ++ Py.nl ++ "please add a uuid column" ++ Py.nl.
Proof.
  apply (plain_text_is_not_rewritten default_config
           {| e_role := "user"; e_text := "please add a uuid column";
              e_timestamp := "2024-05-01T10:00:01Z"; e_tools := [] |}).
  reflexivity.
Defined.

End SanitizerParts.

(** ** What the readers return *)
Section ReaderFacts.
Import Transcript.

Lemma worker_read_lines_app old new w :
  Worker.read_lines (old ++ new)%list w
  = (Worker.read_lines old w ++ Worker.read_lines new w)%list.
Proof.
  induction old as [| [e |] old IH]; cbn [app Worker.read_lines]; [reflexivity | | exact IH].
  destruct (already_seen w _); [exact IH |].
  destruct (Worker.extract e); [cbn [app]; now rewrite IH | exact IH].
Qed.

Lemma worker_read_lines_length lines w :
  (List.length (Worker.read_lines lines w) <= List.length lines)%nat.
Proof.
  induction lines as [| [e |] lines IH]; cbn [Worker.read_lines List.length]; [lia | | lia].
  destruct (already_seen w _); [lia |].
  destruct (Worker.extract e); cbn [List.length]; lia.
Qed.

(** X10.  The reader follows the log: what it reads from a transcript with lines
    appended is what it read before, followed by what the new lines alone
    give; and it returns at most one event per line. *)
Theorem reading_appended_lines_appends_events :
  (forall old new w,
     Worker.read_messages_since (Some (old ++ new)%list) w
     = (Worker.read_messages_since (Some old) w
        ++ Worker.read_messages_since (Some new) w)%list)
  /\ (forall lines w,
        (List.length (Worker.read_messages_since (Some lines) w) <= List.length lines)%nat).
Proof.
  split.
  - intros old new w. apply worker_read_lines_app.
  - intros lines w. apply worker_read_lines_length.
Qed.

Lemma worker_extract_sound e ev :
  Worker.extract e = Some ev ->
  e_text ev <> "" /\ Py.strip (e_text ev) = e_text ev
  /\ e_timestamp ev = Py.get (timestamp e) ""
  /\ exists ty, type_ e = Some ty /\ mem ty ["user"; "assistant"; "system"] = true.
Proof.
  unfold Worker.extract.
  destruct (type_ e) as [ty |]; [| discriminate].
  destruct (msg e) as [m |]; [| discriminate].
  destruct (mem ty _) eqn:T; [| discriminate].
  destruct (Worker.flatten _) as [text_parts tools].
  destruct (Py.truthy _) eqn:N; [| discriminate].
  intros [= <-]. cbn [e_text e_timestamp].
  split; [now apply truthy_iff |]. split; [apply strip_strip |].
  split; [reflexivity |]. now exists ty.
Qed.

(** X11.  Every event the reader returns comes from a line of the file of type
    user, assistant or system; its text is not empty and has no white space
    at either end; and it is undated or newer than the watermark. *)
Theorem events_read_are_well_formed lines w ev :
  In ev (Worker.read_messages_since (Some lines) w) ->
  e_text ev <> "" /\ Py.strip (e_text ev) = e_text ev
  /\ undated_or_newer w ev = true
  /\ exists e ty,
       In (Some e) lines /\ Worker.extract e = Some ev
       /\ type_ e = Some ty /\ mem ty ["user"; "assistant"; "system"] = true.
Proof.
  cbn [Worker.read_messages_since].
  induction lines as [| [e |] lines IH]; cbn [Worker.read_lines]; [intros [] | |].
  - assert (Later : In ev (Worker.read_lines lines w) ->
                    e_text ev <> "" /\ Py.strip (e_text ev) = e_text ev
                    /\ undated_or_newer w ev = true
                    /\ exists e0 ty,
                         In (Some e0) (Some e :: lines) /\ Worker.extract e0 = Some ev
                         /\ type_ e0 = Some ty
                         /\ mem ty ["user"; "assistant"; "system"] = true).
    { intros H. destruct (IH H) as (A & B & C & e0 & ty & D & E).
      repeat split; try assumption. exists e0, ty. split; [now right | exact E]. }
    destruct (already_seen w (Py.get (timestamp e) "")) eqn:G; [exact Later |].
    destruct (Worker.extract e) as [ev' |] eqn:X; [| exact Later].
    intros [<- | H]; [| now apply Later].
    destruct (worker_extract_sound e ev' X) as (A & B & C & ty & D & E).
    repeat split; try assumption.
    + rewrite undated_or_newer_is_guard, C, G. reflexivity.
    + exists e, ty. repeat split; try assumption. now left.
  - intros H. destruct (IH H) as (A & B & C & e0 & ty & D & E).
    repeat split; try assumption. exists e0, ty. split; [now right | exact E].
Qed.

Lemma event_read_from_padded_message :
  let e := {| timestamp := Some "2024-05-01T10:00:01Z"; type_ := Some "user";
              msg := Some {| role := None; body := Some (Plain "  hello  ") |} |} in
  let ev := {| e_role := "user"; e_text := "hello";
               e_timestamp := "2024-05-01T10:00:01Z"; e_tools := [] |} in
  e_text ev <> "" /\ Py.strip (e_text ev) = e_text ev
  /\ undated_or_newer (Some "2024-05-01T10:00:00Z") ev = true
  /\ exists e' ty,
       In (Some e') [None; Some e] /\ Worker.extract e' = Some ev
       /\ type_ e' = Some ty /\ mem ty ["user"; "assistant"; "system"] = true.
Proof.
  cbv zeta.
  apply (events_read_are_well_formed
           [None;
            Some {| timestamp := Some "2024-05-01T10:00:01Z"; type_ := Some "user";
                    msg := Some {| role := None; body := Some (Plain "  hello  ") |} |}]
           (Some "2024-05-01T10:00:00Z")).
  left. reflexivity.
Defined.

Lemma advanced_read_lines_raises lines w e :
  In (Some e) lines ->
  already_seen w (Py.get (timestamp e) "") = false ->
  Advanced.extract e = Advanced.IndexError ->
  Advanced.read_lines lines w = Advanced.IndexError.
Proof.
  intros Hin G X. induction lines as [| [e' |] lines IH]; [now elim Hin | |].
  - cbn [Advanced.read_lines]. destruct Hin as [[= ->] | Hin].
    + now rewrite G, X.
    + specialize (IH Hin). rewrite IH.
      destruct (already_seen w (Py.get (timestamp e') "")); [reflexivity |].
      destruct (Advanced.extract e') as [[ev ch] |]; reflexivity.
  - destruct Hin as [[=] | Hin]. cbn [Advanced.read_lines]. now apply IH.
Qed.

(** X12.  In [sidekick-memory-advanced.py] a message that passes the watermark and
    whose content list starts with a Write, Edit or MultiEdit tool use (no
    text before it) makes the reader raise [IndexError] on [text_parts[-1]]:
    the pass ends there, with the memory and the pending record as they
    were. *)
Theorem edit_before_any_text_aborts_the_pass world lines st e ty m name inp rest :
  In (Some e) lines ->
  already_seen (Advanced.last_timestamp (Py.get (Advanced.memory_file st) Advanced.default_memory))
    (Py.get (timestamp e) "") = false ->
  type_ e = Some ty -> mem ty ["user"; "assistant"] = true ->
  msg e = Some m ->
  body m = Some (Segments (ToolUse (Some name) inp :: rest)) ->
  mem name Advanced.edit_tools = true ->
  Advanced.read_messages_since (Some lines)
    (Advanced.last_timestamp (Py.get (Advanced.memory_file st) Advanced.default_memory))
  = Advanced.IndexError
  /\ Advanced.main world (Some lines) st = (st, None).
Proof.
  intros Hin G T U M B N.
  assert (X : Advanced.extract e = Advanced.IndexError).
  { unfold Advanced.extract. rewrite T, M, U, B. cbn [Py.get Advanced.flatten_segments].
    unfold Advanced.flatten_segment. cbn [Py.get]. rewrite N. reflexivity. }
  assert (R : Advanced.read_messages_since (Some lines)
                (Advanced.last_timestamp
                   (Py.get (Advanced.memory_file st) Advanced.default_memory))
              = Advanced.IndexError)
    by (apply (advanced_read_lines_raises lines _ e Hin G X)).
  split; [exact R |]. unfold Advanced.main. now rewrite R.
Qed.

Lemma lone_edit_aborts_the_pass :
  let e := {| timestamp := Some "2024-05-01T10:00:01Z"; type_ := Some "assistant";
              msg := Some {| role := Some "assistant";
                             body := Some (Segments
                               [ToolUse (Some "Edit")
                                  [("file_path", {| shown := "src/auth.js";
                                                    dumped := "src/auth.js" |})]]) |} |} in
  let world := {| Advanced.now := 0; Advanced.branch := "main";
                  Advanced.recent_commits := ["3f2a9c1 add login form"];
                  Advanced.advise := fun _ _ => None |} in
  let st := {| Advanced.memory_file := None; Advanced.pending_file := Pending.Absent |} in
  Advanced.read_messages_since (Some [Some e])
    (Advanced.last_timestamp (Py.get (Advanced.memory_file st) Advanced.default_memory))
  = Advanced.IndexError
  /\ Advanced.main world (Some [Some e]) st = (st, None).
Proof.
  cbv zeta.
  apply (edit_before_any_text_aborts_the_pass _ _ _
           {| timestamp := Some "2024-05-01T10:00:01Z"; type_ := Some "assistant";
              msg := Some {| role := Some "assistant";
                             body := Some (Segments
                               [ToolUse (Some "Edit")
                                  [("file_path", {| shown := "src/auth.js";
                                                    dumped := "src/auth.js" |})]]) |} |}
           "assistant"
           {| role := Some "assistant";
              body := Some (Segments
                [ToolUse (Some "Edit")
                   [("file_path", {| shown := "src/auth.js"; dumped := "src/auth.js" |})]]) |}
           "Edit"
           [("file_path", {| shown := "src/auth.js"; dumped := "src/auth.js" |})] []);
    try reflexivity.
  left. reflexivity.
Defined.

End ReaderFacts.

(** ** The merge of the advanced worker *)
Section MergeFacts.
Import Transcript.
Import Advanced.

(** The cut keeps the end of the list, as long as the cap allows. *)
Lemma last_n_is_newest {A} (k : Z) (l : list A) :
  (0 < k)%Z ->
  (exists dropped, l = (dropped ++ Py.last_n k l)%list)
  /\ List.length (Py.last_n k l) = Nat.min (Z.to_nat k) (List.length l).
Proof.
  intros Hk. rewrite last_n_skipn by exact Hk. split.
  - exists (firstn (List.length l - Z.to_nat k) l). symmetry. apply firstn_skipn.
  - rewrite length_skipn. lia.
Qed.

Lemma last_of_somes {A} (l : list A) x :
  List.last (map Some l) None = Some x <-> exists older, l = (older ++ [x])%list.
Proof.
  split.
  - intros H. destruct (exists_last (l := l)) as (older & y & ->).
    + intros ->. discriminate H.
    + rewrite map_app in H. cbn [map] in H. rewrite last_last in H.
      injection H as ->. now exists older.
  - intros (older & ->). rewrite map_app. cbn [map]. apply last_last.
Qed.

(** The newest entry survives the cut. *)
Lemma last_n_keeps_last {A} (k : Z) (l : list A) x :
  (0 < k)%Z ->
  ((exists older, Py.last_n k l = (older ++ [x])%list)
   <-> exists older, l = (older ++ [x])%list).
Proof.
  intros Hk. destruct (last_n_is_newest k l Hk) as [[dropped D] L]. split.
  - intros (older & E). exists (dropped ++ older)%list.
    rewrite D at 1. rewrite E. apply app_assoc.
  - intros (older & E).
    destruct (exists_last (l := Py.last_n k l)) as (kept & y & K).
    + intros Z. rewrite Z in L. rewrite E, length_app in L. cbn [List.length] in L. lia.
    + exists kept. rewrite K. f_equal. f_equal.
      rewrite K, app_assoc, E in D. apply app_inj_tail in D. symmetry. tauto.
Qed.

(** X13.  [build_rich_memory] raises [KeyError] exactly when [git] reports
    commits and the newest struggling feature (of the stored ones followed by
    this pass's additions) lacks the key [file] or [edit_count], as the
    entries do that [main] appends for a recommended rollback.  Otherwise it
    returns the merged record, in which each feature list is the end of the
    stored list followed by this pass's additions, cut to 20 entries (the
    technical decisions to 30): entries are dropped from the front only, and
    only when the list is over its cap. *)
Theorem build_rich_memory_keeps_newest stored new_messages feature_changes recent_commits :
  let before := Py.get (feature_lifecycle stored) empty_lifecycle in
  let session := (Py.get (sessions stored) 0 + 1)%Z in
  let struggling :=
    (struggling_features before
     ++ new_struggling session (edit_counts new_messages))%list in
  let newest {A} (cap : nat) (all kept : list A) :=
    (exists dropped, all = (dropped ++ kept)%list)
    /\ List.length kept = Nat.min cap (List.length all) in
  (forall key,
     build_rich_memory stored new_messages feature_changes recent_commits = KeyError key
     <-> recent_commits <> []
         /\ exists older latest,
              struggling = (older ++ [latest])%list /\ missing_key latest = Some key)
  /\ (forall merged,
        build_rich_memory stored new_messages feature_changes recent_commits = Merged merged ->
        exists fl td,
          feature_lifecycle merged = Some fl /\ technical_decisions merged = Some td
          /\ newest 20%nat (active_features before ++ new_active feature_changes)%list
               (active_features fl)
          /\ newest 20%nat (completed_features before) (completed_features fl)
          /\ newest 20%nat struggling (struggling_features fl)
          /\ newest 20%nat (removed_features before ++ new_removed feature_changes)%list
               (removed_features fl)
          /\ newest 30%nat
               (Py.get (technical_decisions stored) []
                ++ new_decisions session new_messages)%list
               td).
Proof.
  cbv zeta. split.
  - intros key. unfold build_rich_memory. cbn [struggling_features].
    set (struggling :=
           (struggling_features (Py.get (feature_lifecycle stored) empty_lifecycle)
            ++ new_struggling (Py.get (sessions stored) 0 + 1)%Z
                 (edit_counts new_messages))%list).
    destruct (List.last (map Some (Py.last_n 20 struggling)) None) as [latest |] eqn:E.
    + apply last_of_somes in E.
      apply (proj1 (last_n_keeps_last 20 struggling latest eq_refl)) in E.
      destruct E as (older & E).
      destruct recent_commits as [| c cs].
      * split; [discriminate | intros [N _]; now elim N].
      * destruct (missing_key latest) as [k |] eqn:M; split.
        -- intros [= <-]. split; [discriminate |]. now exists older, latest.
        -- intros (_ & older' & latest' & E' & M'). rewrite E in E'.
           apply app_inj_tail in E'. destruct E' as [_ <-]. congruence.
        -- discriminate.
        -- intros (_ & older' & latest' & E' & M'). rewrite E in E'.
           apply app_inj_tail in E'. destruct E' as [_ <-]. congruence.
    + split; [discriminate |]. intros (_ & older & latest & E' & _). exfalso.
      assert (X : exists older0, Py.last_n 20 struggling = (older0 ++ [latest])%list)
        by (apply (proj2 (last_n_keeps_last 20 struggling latest eq_refl)); now exists older).
      apply last_of_somes in X. congruence.
  - intros merged B. apply build_rich_memory_merged in B. cbv zeta in B. subst merged.
    cbn [feature_lifecycle technical_decisions]. do 2 eexists.
    split; [reflexivity |]. split; [reflexivity |].
    cbn [active_features completed_features struggling_features removed_features].
    repeat split;
      first [ apply (proj1 (last_n_is_newest 20 _ eq_refl))
            | apply (proj2 (last_n_is_newest 20 _ eq_refl))
            | apply (proj1 (last_n_is_newest 30 _ eq_refl))
            | apply (proj2 (last_n_is_newest 30 _ eq_refl)) ].
Qed.

(** After a pass that recorded a recommended rollback, the merge of the next
    pass raises [KeyError] in a project with commits. *)
Lemma merge_after_recommended_rollback_raises :
  let stored :=
    {| last_timestamp := Some "t1"; sessions := Some 8%Z;
       feature_lifecycle :=
         Some {| active_features := []; completed_features := [];
                 struggling_features :=
                   [Struggling "auth.js" 6 7
                      "Consider reverting changes to auth.js and trying a different approach";
                    RollbackSuggested "src/login.js" 8];
                 removed_features := [] |};
       technical_decisions := Some []; ai_insights := None |} in
  build_rich_memory stored
    [{| e_role := "user"; e_text := "again"; e_timestamp := "t2"; e_tools := [] |}] []
    ["3f2a9c1 add login form"]
  = KeyError "file".
Proof.
  cbv zeta.
  apply (proj1 (build_rich_memory_keeps_newest
                  {| last_timestamp := Some "t1"; sessions := Some 8%Z;
                     feature_lifecycle :=
                       Some {| active_features := []; completed_features := [];
                               struggling_features :=
                                 [Struggling "auth.js" 6 7
                                    "Consider reverting changes to auth.js and trying a different approach";
                                  RollbackSuggested "src/login.js" 8];
                               removed_features := [] |};
                     technical_decisions := Some []; ai_insights := None |}
                  [{| e_role := "user"; e_text := "again"; e_timestamp := "t2";
                      e_tools := [] |}] []
                  ["3f2a9c1 add login form"]) "file").
  split; [discriminate |].
  exists [Struggling "auth.js" 6 7
            "Consider reverting changes to auth.js and trying a different approach"],
    (RollbackSuggested "src/login.js" 8).
  split; reflexivity.
Defined.

Lemma bump_keys file counts :
  map fst (bump file counts)
  = if existsb (String.eqb file) (map fst counts) then map fst counts
    else (map fst counts ++ [file])%list.
Proof.
  induction counts as [| [f n] counts IH]; [reflexivity |].
  cbn [bump map fst existsb]. rewrite (String.eqb_sym file f).
  destruct (String.eqb f file) eqn:E; [reflexivity |].
  cbn [map fst orb]. rewrite IH.
  destruct (existsb _ _); reflexivity.
Qed.

Lemma bump_keeps_keys_distinct file counts :
  NoDup (map fst counts) -> NoDup (map fst (bump file counts)).
Proof.
  intros H. rewrite bump_keys. destruct (existsb _ _) eqn:E; [exact H |].
  apply NoDup_app; [exact H | repeat constructor; intros [] |].
  intros x Hx [Ex | []]. subst x.
  assert (existsb (String.eqb file) (map fst counts) = true)
    by (apply existsb_exists; exists file; split; [exact Hx | apply String.eqb_refl]).
  congruence.
Qed.

Lemma edit_counts_fold new_messages :
  edit_counts new_messages
  = fold_left (fun counts file => bump file counts) (edited_files new_messages) [].
Proof.
  unfold edit_counts, edited_files. generalize (@nil (string * Z)) as counts.
  induction new_messages as [| m msgs IH]; intros counts; [reflexivity |].
  cbn [fold_left flat_map]. rewrite fold_left_app, IH. f_equal.
  unfold count_edits_of. generalize (e_tools m) as tools. intros tools. revert counts.
  induction tools as [| tool tools IHt]; intros counts; [reflexivity |].
  cbn [fold_left flat_map]. rewrite fold_left_app, IHt. f_equal.
  destruct (mem tool _); [| reflexivity].
  destruct (file_search _); reflexivity.
Qed.

Lemma bump_in f counts file n :
  NoDup (map fst counts) ->
  (In (file, n) (bump f counts) <->
   (file = f /\ (In (f, (n - 1)%Z) counts \/ (n = 1%Z /\ ~ In f (map fst counts))))
   \/ (file <> f /\ In (file, n) counts)).
Proof.
  induction counts as [| [g m] rest IH]; intros ND.
  - cbn [bump In map]. split.
    + intros [[= <- <-] | []]. left. split; [reflexivity |]. right. split; [reflexivity | tauto].
    + intros [[-> [[] | [-> _]]] | [_ []]]. now left.
  - cbn [map fst] in ND. inversion ND as [| ? ? Hg ND']; subst.
    cbn [bump]. destruct (String.eqb_spec g f) as [-> | Ngf].
    + cbn [In map fst]. split.
      * intros [[= <- <-] | H].
        -- left. split; [reflexivity |]. left. left. f_equal. lia.
        -- right. split; [| now right]. intros ->. apply Hg.
           apply in_map_iff. now exists (f, n).
      * intros [[-> [[[= E] | H] | [_ H]]] | [N [[= E _] | H]]].
        -- left. f_equal. lia.
        -- exfalso. apply Hg. apply in_map_iff. now exists (f, (n - 1)%Z).
        -- exfalso. apply H. now left.
        -- congruence.
        -- now right.
    + cbn [In map fst]. rewrite (IH ND'). split.
      * intros [[= <- <-] | [[-> [H | [-> H]]] | [N H]]].
        -- right. split; [exact Ngf | now left].
        -- left. split; [reflexivity |]. left. now right.
        -- left. split; [reflexivity |]. right. split; [reflexivity |].
           intros [E | H']; [congruence | contradiction].
        -- right. split; [exact N | now right].
      * intros [[-> [[[= E _] | H] | [-> H]]] | [N [[= <- <-] | H]]].
        -- congruence.
        -- right. left. split; [reflexivity |]. now left.
        -- right. left. split; [reflexivity |]. right. split; [reflexivity |]. tauto.
        -- now left.
        -- right. right. tauto.
Qed.

Lemma fold_bump_counts fs :
  NoDup (map fst (fold_left (fun counts file => bump file counts) fs []))
  /\ forall file n,
       In (file, n) (fold_left (fun counts file => bump file counts) fs [])
       <-> n = Z.of_nat (count_occ string_dec fs file) /\ (1 <= n)%Z.
Proof.
  induction fs as [| f fs IH] using rev_ind.
  - split; [constructor |]. intros file n. cbn. split; [tauto | lia].
  - destruct IH as [ND IH]. rewrite fold_left_app. cbn [fold_left].
    set (r := fold_left (fun counts file => bump file counts) fs []) in *.
    split; [now apply bump_keeps_keys_distinct |].
    intros file n. rewrite (bump_in f r file n ND), count_occ_app. cbn [count_occ].
    assert (K : In f (map fst r) <-> (1 <= Z.of_nat (count_occ string_dec fs f))%Z).
    { split.
      - intros H. apply in_map_iff in H. destruct H as ([g m] & E & H). cbn in E. subst g.
        apply IH in H. lia.
      - intros H. apply in_map_iff. exists (f, Z.of_nat (count_occ string_dec fs f)).
        split; [reflexivity |]. apply IH. lia. }
    destruct (string_dec f file) as [-> | N].
    + rewrite (IH file (n - 1)%Z). split.
      * intros [[_ [[E L] | [-> H]]] | [N _]]; [lia | | congruence].
        rewrite K in H. lia.
      * intros [E L]. left. split; [reflexivity |].
        destruct (Z.le_gt_cases 1 (Z.of_nat (count_occ string_dec fs file))) as [C | C].
        -- left. lia.
        -- right. rewrite K. lia.
    + rewrite (IH file n). split.
      * intros [[E _] | [_ H]]; [congruence |]. lia.
      * intros [E L]. right. split; [congruence |]. lia.
Qed.

Lemma in_new_struggling session counts entry :
  In entry (new_struggling session counts) <->
  exists file n,
    In (file, n) counts /\ (5 < n)%Z
    /\ entry = Struggling file n session
                 ("Consider reverting changes to " ++ file
                  ++ " and trying a different approach").
Proof.
  unfold new_struggling. rewrite in_flat_map. split.
  - intros ([file n] & H & E). cbn [fst snd] in E.
    destruct (Z.ltb_spec 5 n) as [L | L]; [| now elim E].
    destruct E as [<- | []]. now exists file, n.
  - intros (file & n & H & L & ->). exists (file, n). split; [exact H |].
    cbn [fst snd]. apply Z.ltb_lt in L. rewrite L. now left.
Qed.

Lemma new_struggling_distinct session counts :
  NoDup (map fst counts) -> NoDup (new_struggling session counts).
Proof.
  induction counts as [| [f n] rest IH]; intros ND; [constructor |].
  cbn [map fst] in ND. inversion ND as [| ? ? Hf ND']; subst.
  change (new_struggling session ((f, n) :: rest))
    with ((if (5 <? n)%Z
           then [Struggling f n session
                   ("Consider reverting changes to " ++ f
                    ++ " and trying a different approach")]
           else []) ++ new_struggling session rest)%list.
  destruct (5 <? n)%Z; cbn [app]; [| now apply IH].
  constructor; [| now apply IH].
  intros H. apply in_new_struggling in H. destruct H as (file & m & H & _ & [= <- <-]).
  apply Hf. apply in_map_iff. now exists (f, n).
Qed.

(** X14.  The struggling features one merge adds: exactly one entry for each
    file that the Edit and MultiEdit tool uses of the new messages name more
    than five times, with that number of edits and the number of the session;
    no other entry, and none twice. *)
Theorem struggling_files_are_flagged_once session new_messages :
  let times file := Z.of_nat (count_occ string_dec (edited_files new_messages) file) in
  let added := new_struggling session (edit_counts new_messages) in
  (forall entry,
     In entry added <->
     exists file,
       (5 < times file)%Z
       /\ entry = Struggling file (times file) session
                    ("Consider reverting changes to " ++ file
                     ++ " and trying a different approach"))
  /\ NoDup added.
Proof.
  cbv zeta. rewrite edit_counts_fold.
  destruct (fold_bump_counts (edited_files new_messages)) as [ND S]. split.
  - intros entry. rewrite in_new_struggling. split.
    + intros (file & n & H & L & ->). apply S in H. destruct H as [-> _]. now exists file.
    + intros (file & L & ->). exists file, (Z.of_nat (count_occ string_dec (edited_files new_messages) file)).
      split; [apply S; lia |]. split; [exact L | reflexivity].
  - now apply new_struggling_distinct.
Qed.

(** Six edits of one file and five of another: the first is flagged. *)
Lemma six_edits_of_a_file_are_flagged :
  let edit path :=
    {| e_role := "assistant"; e_text := "[Edit: " ++ path ++ "]";
       e_timestamp := "t"; e_tools := ["Edit"] |} in
  let new_messages := (repeat (edit "src/auth.js") 6 ++ repeat (edit "src/login.js") 5)%list in
  new_struggling 3 (edit_counts new_messages)
  = [Struggling "auth.js" 6 3
       "Consider reverting changes to auth.js and trying a different approach"]
  /\ In (Struggling "auth.js" 6 3
           "Consider reverting changes to auth.js and trying a different approach")
       (new_struggling 3 (edit_counts new_messages)).
Proof.
  cbv zeta. split; [vm_compute; reflexivity |].
  apply (proj1 (struggling_files_are_flagged_once 3
                  (repeat {| e_role := "assistant"; e_text := "[Edit: src/auth.js]";
                             e_timestamp := "t"; e_tools := ["Edit"] |} 6
                   ++ repeat {| e_role := "assistant"; e_text := "[Edit: src/login.js]";
                                e_timestamp := "t"; e_tools := ["Edit"] |} 5)%list)).
  exists "auth.js". split; [vm_compute; reflexivity | vm_compute; reflexivity].
Defined.

End MergeFacts.

(** ** The selection of the enhanced sanitizer *)
Section Selection.
Import Transcript.

Lemma skipn_incl {A} (n : nat) (l : list A) : incl (skipn n l) l.
Proof.
  revert l. induction n as [| n IH]; intros [| x l] y H; try exact H.
  right. exact (IH _ _ H).
Qed.

Lemma firstn_incl {A} (n : nat) (l : list A) : incl (firstn n l) l.
Proof.
  revert l. induction n as [| n IH]; intros [| x l] y H; try exact H; try now elim H.
  destruct H as [<- | H]; [now left | right; exact (IH _ _ H)].
Qed.

Lemma slice_incl {A} (start stop : option Z) (l : list A) : incl (Py.slice start stop l) l.
Proof.
  unfold Py.slice. intros x H. apply skipn_incl, firstn_incl in H. exact H.
Qed.

Lemma last_n_incl {A} (k : Z) (l : list A) : incl (Py.last_n k l) l.
Proof. apply slice_incl. Qed.

Lemma every_fifth_incl {A} phase (l : list A) : incl (Enhanced.every_fifth_from phase l) l.
Proof.
  revert phase. induction l as [| x l IH]; intros phase y H; [exact H |].
  cbn [Enhanced.every_fifth_from] in H. destruct phase as [| k].
  - destruct H as [<- | H]; [now left | right; exact (IH _ _ H)].
  - right. exact (IH _ _ H).
Qed.

(** X15.  [sanitize] of the enhanced worker formats the messages of
    [messages_to_process] and nothing else.  With [MAX_EVENTS] of at least
    one, these are the last [MAX_EVENTS] messages, preceded, when older
    context is asked for, by at most 20 messages sampled from those before
    them: never more than [MAX_EVENTS + 20] messages, however long the
    transcript. *)
Theorem enhanced_sanitize_selects_recent_and_sampled cfg messages include_older :
  Enhanced.all_text cfg messages include_older
  = Py.join Worker.separator
      (map (Worker.clean_chunk cfg)
         (Enhanced.messages_to_process cfg messages include_older))
  /\ ((1 <= Worker.MAX_EVENTS cfg)%Z ->
      exists sampled,
        Enhanced.messages_to_process cfg messages include_older
        = (sampled ++ Py.last_n (Worker.MAX_EVENTS cfg) messages)%list
        /\ (List.length sampled <= 20)%nat
        /\ (include_older = false -> sampled = [])
        /\ incl sampled (Py.slice None (Some (- Worker.MAX_EVENTS cfg)%Z) messages)
        /\ (List.length (Enhanced.messages_to_process cfg messages include_older)
            <= Z.to_nat (Worker.MAX_EVENTS cfg) + 20)%nat).
Proof.
  split; [reflexivity |]. intros H.
  assert (R : (List.length (Py.last_n (Worker.MAX_EVENTS cfg) messages)
               <= Z.to_nat (Worker.MAX_EVENTS cfg))%nat)
    by (apply last_n_length; lia).
  unfold Enhanced.messages_to_process. destruct include_older.
  - eexists. split; [reflexivity |].
    assert (S : (List.length
                   (Py.last_n 20
                      (Enhanced.every_fifth_from 0
                         (if (Worker.MAX_EVENTS cfg <? Py.len messages)%Z
                          then Py.slice None (Some (- Worker.MAX_EVENTS cfg)%Z) messages
                          else []))) <= 20)%nat)
      by (apply (last_n_length 20); reflexivity).
    split; [exact S |]. split; [discriminate |]. split.
    + intros x Hx. apply last_n_incl, every_fifth_incl in Hx.
      destruct (Worker.MAX_EVENTS cfg <? Py.len messages)%Z; [exact Hx | now elim Hx].
    + rewrite length_app. lia.
  - exists []. cbn [app List.length]. repeat split; try lia. intros x [].
Qed.

Lemma enhanced_selection_of_three_messages :
  let m text := {| e_role := "user"; e_text := text; e_timestamp := "t"; e_tools := [] |} in
  let cfg := {| Worker.MAX_EVENTS := 2; Worker.MAX_LINES_TOTAL := 2000;
                Worker.MAX_BLOCK_LINES := 500; Worker.THRESHOLD := 0;
                Worker.NUDGE_TTL := 900 |} in
  Enhanced.messages_to_process cfg [m "a"; m "b"; m "c"] true = [m "a"; m "b"; m "c"].
Proof.
  cbv zeta.
  destruct (proj2 (enhanced_sanitize_selects_recent_and_sampled
                     {| Worker.MAX_EVENTS := 2; Worker.MAX_LINES_TOTAL := 2000;
                        Worker.MAX_BLOCK_LINES := 500; Worker.THRESHOLD := 0;
                        Worker.NUDGE_TTL := 900 |}
                     [{| e_role := "user"; e_text := "a"; e_timestamp := "t"; e_tools := [] |};
                      {| e_role := "user"; e_text := "b"; e_timestamp := "t"; e_tools := [] |};
                      {| e_role := "user"; e_text := "c"; e_timestamp := "t"; e_tools := [] |}]
                     true) ltac:(discriminate)) as (sampled & E & _).
  reflexivity.
Defined.

End Selection.

(** ** Key points and the choice of the transcript *)
Section KeyPoints.
Import Advanced.

Lemma key_lines_from_firstn max_points found lines :
  (found < Z.to_nat (Z.max 1 max_points))%nat ->
  key_lines_from max_points found lines
  = firstn (Z.to_nat (Z.max 1 max_points) - found)
      (map (Py.sslice None (Some 150%Z)) (filter is_key_line lines)).
Proof.
  revert found. induction lines as [| line rest IH]; intros found H.
  - now rewrite firstn_nil.
  - cbn [key_lines_from filter]. destruct (is_key_line line).
    + cbn [map].
      replace (Z.to_nat (Z.max 1 max_points) - found)%nat
        with (S (Z.to_nat (Z.max 1 max_points) - S found)) by lia.
      cbn [firstn]. f_equal.
      destruct (Z.leb_spec max_points (Z.of_nat (S found))) as [L | L].
      * replace (Z.to_nat (Z.max 1 max_points) - S found)%nat with 0%nat by lia.
        reflexivity.
      * apply IH. lia.
    + now apply IH.
Qed.

(** X16.  [extract_key_points] joins the first [max_points] lines of the text
    that contain one of the twelve keywords in any letter case, each cut to
    its first 150 characters, in the order of the text.  The limit is checked
    after a line is added, so a limit of zero or less still lets one line
    through. *)
Theorem extract_key_points_takes_first_keyword_lines text max_points :
  let picked :=
    firstn (Z.to_nat (Z.max 1 max_points))
      (map (Py.sslice None (Some 150%Z)) (filter is_key_line (Py.split_lf text))) in
  extract_key_points text max_points = Py.join Py.nl picked
  /\ (List.length picked <= Z.to_nat (Z.max 1 max_points))%nat
  /\ Forall (fun line => (String.length line <= 150)%nat) picked.
Proof.
  cbv zeta. split; [| split].
  - unfold extract_key_points, key_lines.
    rewrite key_lines_from_firstn by lia. now rewrite Nat.sub_0_r.
  - apply firstn_le_length.
  - apply Forall_forall. intros line H. apply firstn_incl in H.
    apply in_map_iff in H. destruct H as (full & <- & _).
    apply (sslice_prefix_length 150). lia.
Qed.

End KeyPoints.

Section TranscriptChoice.
Import Worker.

Lemma newest_not_older best rest : (snd best <= snd (newest best rest))%Q.
Proof.
  revert best. induction rest as [| c rest IH]; intros best; cbn [newest]; [lra |].
  destruct (Qle_bool (snd c) (snd best)) eqn:E; [apply IH |].
  apply Qle_bool_false in E. specialize (IH c). lra.
Qed.

(** [max] returns the first of the candidates with the greatest key. *)
Lemma newest_is_first_maximum best rest :
  exists before after,
    (best :: rest = before ++ newest best rest :: after)%list
    /\ Forall (fun c => (snd c < snd (newest best rest))%Q) before
    /\ Forall (fun c => (snd c <= snd (newest best rest))%Q) after.
Proof.
  revert best. induction rest as [| c rest IH]; intros best; cbn [newest].
  - exists [], []. repeat split; constructor.
  - destruct (Qle_bool (snd c) (snd best)) eqn:E.
    + apply Qle_bool_iff in E.
      destruct (IH best) as (before & after & D & B & A).
      destruct before as [| b before].
      * cbn [app] in D. injection D as D1 D2.
        exists [], (c :: rest). cbn [app].
        split; [now rewrite <- D1 |]. split; [constructor |].
        constructor; [now rewrite <- D1 |]. now rewrite D2 at 1.
      * cbn [app] in D. injection D as D1 D2. subst b.
        exists (best :: c :: before), after. cbn [app].
        split; [do 2 f_equal; exact D2 |]. split; [| exact A].
        inversion B as [| ? ? B1 B2]; subst.
        constructor; [exact B1 |]. constructor; [lra | exact B2].
    + apply Qle_bool_false in E.
      destruct (IH c) as (before & after & D & B & A).
      exists (best :: before), after. cbn [app].
      split; [f_equal; exact D |]. split; [| exact A].
      constructor; [| exact B].
      pose proof (newest_not_older c rest). lra.
Qed.

(** X17.  [find_transcript] returns the path the event names whenever that
    path is not empty and exists.  Otherwise it returns nothing exactly when
    the project's [.claude] directory is missing or holds no [*.jsonl] file,
    and else the file modified last; of several modified last, the first one
    listed. *)
Theorem find_transcript_explicit_then_newest d tp :
  let candidates := Py.get (claude_jsonl d) [] in
  (forall p, tp = Some p -> p <> "" -> path_exists d p = true ->
             find_transcript d tp = Some p)
  /\ ((forall p, tp = Some p -> p = "" \/ path_exists d p = false) ->
      (find_transcript d tp = None <-> candidates = [])
      /\ (forall found, find_transcript d tp = Some found ->
          exists mtime before after,
            (candidates = before ++ (found, mtime) :: after)%list
            /\ Forall (fun c => (snd c < mtime)%Q) before
            /\ Forall (fun c => (snd c <= mtime)%Q) after)).
Proof.
  cbv zeta. unfold find_transcript. split.
  - intros p -> Hp He. destruct p; [congruence |]. cbn [Py.truthy andb].
    now rewrite He.
  - intros H.
    assert (E : match tp with
                | Some p => Py.truthy p && path_exists d p
                | None => false
                end = false).
    { destruct tp as [p |]; [| reflexivity].
      destruct (H p eq_refl) as [-> | ->]; [reflexivity | apply andb_false_r]. }
    rewrite E. destruct (Py.get (claude_jsonl d) []) as [| c rest].
    + split; [tauto | discriminate].
    + split; [split; discriminate |]. intros found [= <-].
      destruct (newest_is_first_maximum c rest) as (before & after & D & B & A).
      exists (snd (newest c rest)), before, after.
      rewrite <- surjective_pairing. auto.
Qed.

Lemma find_transcript_of_two_sessions :
  let d := {| path_exists := fun _ => false;
              claude_jsonl := Some [("a.jsonl", 5%Q); ("b.jsonl", 9%Q); ("c.jsonl", 9%Q)] |} in
  find_transcript d (Some "gone.jsonl") = Some "b.jsonl"
  /\ find_transcript d None <> None.
Proof.
  cbv zeta. split; [reflexivity |].
  intros E.
  apply (proj1 (proj2 (find_transcript_explicit_then_newest
                         {| path_exists := fun _ => false;
                            claude_jsonl :=
                              Some [("a.jsonl", 5%Q); ("b.jsonl", 9%Q); ("c.jsonl", 9%Q)] |}
                         None)
                  ltac:(discriminate))) in E.
  discriminate E.
Defined.

End TranscriptChoice.

(** ** The package-manager guard *)
Section PnpmGuard.
Import EnforcePnpm.

Lemma after_iff lit s rest : Re.after lit s = Some rest <-> s = lit ++ rest.
Proof.
  revert s. induction lit as [| a lit IH]; intros s; cbn [Re.after append].
  - split; congruence.
  - destruct s as [| c s]; [split; discriminate |].
    destruct (Ascii.eqb_spec a c) as [-> | N].
    + rewrite IH. split; congruence.
    + split; [discriminate | congruence].
Qed.

Lemma after_append lit rest : Re.after lit (lit ++ rest) = Some rest.
Proof. now apply after_iff. Qed.

(** Leading blanks are skipped before a pattern that cannot start with one. *)
Lemma many_spaces_then k s :
  (forall c r, Py.is_space c = true -> k (String c r) = false) ->
  Re.many Py.is_space k s = k (Py.lstrip s).
Proof.
  intros H. induction s as [| c r IH]; [reflexivity |].
  cbn [Re.many Py.lstrip]. destruct (Py.is_space c) eqn:E.
  - now rewrite IH, (H c r E), orb_false_r.
  - reflexivity.
Qed.

Lemma many_of_total p s : Re.many p (fun _ => true) s = true.
Proof. destruct s; cbn [Re.many]; [reflexivity | apply orb_true_r]. Qed.

(** A blank is none of the letters a word of the patterns starts with. *)
Lemma blank_is_no_letter c l r :
  Py.is_space c = true -> Py.between 97 122 l = true ->
  forall k, match Re.after (String l r) (String c k) with
            | Some _ => false | None => true end = true.
Proof.
  intros Hc Hl k. cbn [Re.after]. destruct (Ascii.eqb_spec l c) as [-> | N]; [| reflexivity].
  exfalso. unfold Py.is_space, Py.between in *.
  rewrite !orb_true_iff, !andb_true_iff, !Nat.leb_le, Nat.eqb_eq in Hc.
  rewrite andb_true_iff, !Nat.leb_le in Hl. lia.
Qed.

Lemma after_blank l lit c k :
  Py.is_space c = true -> Py.between 97 122 l = true ->
  Re.after (String l lit) (String c k) = None.
Proof.
  intros Hc Hl. pose proof (blank_is_no_letter c l lit Hc Hl k) as H.
  destruct (Re.after _ _); [discriminate | reflexivity].
Qed.

(** [^\s*(npm|npx)\s+]: the first word is [npm] or [npx], and a blank
    follows it. *)
Lemma npm_pattern_spec command :
  Re.match_ npm_pattern command = true <->
  exists word c rest,
    (word = "npm" \/ word = "npx")
    /\ Py.lstrip command = word ++ String c rest /\ Py.is_space c = true.
Proof.
  unfold Re.match_, npm_pattern. cbn [Re.run].
  rewrite many_spaces_then.
  2:{ intros c r Hc. cbn [Re.run].
      rewrite (after_blank "n" "pm" c r Hc eq_refl), (after_blank "n" "px" c r Hc eq_refl).
      reflexivity. }
  cbn [Re.run Re.Many1]. set (s := Py.lstrip command). split.
  - intros H. apply orb_true_iff in H. destruct H as [H | H].
    + destruct (Re.after "npm" s) as [r |] eqn:A; [| discriminate].
      apply after_iff in A. destruct r as [| c rest]; [discriminate |].
      apply andb_true_iff in H. exists "npm", c, rest. tauto.
    + destruct (Re.after "npx" s) as [r |] eqn:A; [| discriminate].
      apply after_iff in A. destruct r as [| c rest]; [discriminate |].
      apply andb_true_iff in H. exists "npx", c, rest. tauto.
  - intros (word & c & rest & [-> | ->] & -> & Hc); apply orb_true_iff; [left | right];
      rewrite after_append, Hc, many_of_total; reflexivity.
Qed.

Lemma test_ahead_spec rest :
  Re.run (Re.Seq (Re.Lit "test") (Re.Alt (Re.Class Py.is_space) Re.End_)) (fun _ => true) rest
  = true <-> test_word rest.
Proof.
  cbn [Re.run]. unfold test_word. split.
  - destruct (Re.after "test" rest) as [r |] eqn:A; [| discriminate].
    apply after_iff in A. subst rest. destruct r as [| c r]; [now left |].
    intros H. right. exists c, r. split; [reflexivity |].
    apply orb_true_iff in H. destruct H as [H | H].
    + now apply andb_true_iff in H.
    + rewrite andb_true_r in H. apply orb_true_iff in H.
      destruct H as [H | H]; apply String.eqb_eq in H; [discriminate |].
      unfold Py.nl in H. injection H as -> _. reflexivity.
  - intros [-> | (c & r & -> & Hc)]; [reflexivity |].
    rewrite after_append, Hc. reflexivity.
Qed.

(** [^\s*bun\s+(?!test(\s|$))]: the first word is [bun], a blank follows it,
    and what comes after that one blank is not the word [test]. *)
Lemma bun_pattern_spec command :
  Re.match_ bun_pattern command = true <->
  exists c rest,
    Py.lstrip command = "bun" ++ String c rest /\ Py.is_space c = true
    /\ ~ test_word rest.
Proof.
  unfold Re.match_, bun_pattern.
  change (Re.run (Re.Seq (Re.Many Py.is_space) ?r) ?k command)
    with (Re.many Py.is_space (Re.run r k) command).
  rewrite many_spaces_then.
  2:{ intros c r Hc. cbn [Re.run].
      now rewrite (after_blank "b" "un" c r Hc eq_refl). }
  set (s := Py.lstrip command).
  set (T := Re.Seq (Re.Lit "test") (Re.Alt (Re.Class Py.is_space) Re.End_)).
  assert (N : forall rest,
             Re.many Py.is_space (Re.run (Re.NotAhead T) (fun _ => true)) rest
             = negb (Re.run T (fun _ => true) rest)).
  { intros [| c2 r2]; cbn [Re.many Re.run]; [now rewrite andb_true_r |].
    destruct (Py.is_space c2) eqn:E.
    - unfold T. cbn [Re.run]. rewrite (after_blank "t" "est" c2 r2 E eq_refl).
      cbn [negb andb]. apply orb_true_r.
    - cbn [andb orb]. now rewrite andb_true_r. }
  cbn [Re.run Re.Many1]. fold T. split.
  - destruct (Re.after "bun" s) as [r |] eqn:A; [| discriminate].
    apply after_iff in A. destruct r as [| c rest]; [discriminate |].
    intros H. apply andb_true_iff in H. destruct H as [Hc H].
    change (Re.many Py.is_space (Re.run (Re.NotAhead T) (fun _ => true)) rest = true) in H.
    rewrite N in H. apply negb_true_iff in H.
    exists c, rest. split; [exact A |]. split; [exact Hc |].
    intros W. apply test_ahead_spec in W. fold T in W. congruence.
  - intros (c & rest & -> & Hc & W). rewrite after_append, Hc. cbn [andb].
    change (Re.many Py.is_space (Re.run (Re.NotAhead T) (fun _ => true)) rest = true).
    rewrite N. apply negb_true_iff. apply not_true_iff_false.
    intros H. apply W. now apply test_ahead_spec.
Qed.

Lemma bash_tool e : String.eqb (Py.get (tool_name e) "") "Bash" = true <-> tool_name e = Some "Bash".
Proof.
  rewrite String.eqb_eq. destruct (tool_name e) as [n |]; cbn [Py.get]; split; congruence.
Qed.

(** X18.  The guard blocks a tool call (exit status 2, with the message that
    names pnpm) exactly when the tool is [Bash], the project is a pnpm
    project, and the command's first word is [npm] or [npx] followed by a
    blank, or [bun] followed by a blank and then anything but the word
    [test]; every other input is let through with exit status 0. *)
Theorem guard_blocks_exactly_npm_npx_and_bun input :
  (main input = Exit2 error_message <->
   exists e,
     input = Decoded e /\ tool_name e = Some "Bash" /\ is_pnpm_repo (at_cwd e) = true
     /\ ((exists word c rest,
            (word = "npm" \/ word = "npx")
            /\ Py.lstrip (Py.get (command e) "") = word ++ String c rest
            /\ Py.is_space c = true)
         \/ (exists c rest,
               Py.lstrip (Py.get (command e) "") = "bun" ++ String c rest
               /\ Py.is_space c = true /\ ~ test_word rest)))
  /\ (main input <> Exit2 error_message -> main input = Exit0).
Proof.
  split.
  - destruct input as [| e]; cbn [main].
    + split; [discriminate | intros (e & E & _); discriminate].
    + destruct (String.eqb (Py.get (tool_name e) "") "Bash") eqn:B; cbn [negb orb].
      2:{ split; [discriminate |]. intros (e' & [= <-] & T & _).
          apply bash_tool in T. congruence. }
      apply bash_tool in B.
      destruct (is_pnpm_repo (at_cwd e)) eqn:P; cbn [negb].
      2:{ split; [discriminate |]. intros (e' & [= <-] & _ & P' & _). congruence. }
      destruct (Re.match_ npm_pattern _ || Re.match_ bun_pattern _) eqn:M.
      * split; [| reflexivity]. intros _. exists e.
        rewrite orb_true_iff, npm_pattern_spec, bun_pattern_spec in M. auto.
      * split; [discriminate |]. intros (e' & [= <-] & _ & _ & M').
        rewrite <- npm_pattern_spec, <- bun_pattern_spec, <- orb_true_iff in M'.
        congruence.
  - destruct input as [| e]; cbn [main]; [reflexivity |].
    destruct (_ || _); [reflexivity |]. destruct (_ || _); [| reflexivity].
    intros H. now elim H.
Qed.

(** The first word of a text that starts with [word], a blank after it. *)
Lemma first_word_before_blank word c rest :
  Py.every (fun a => negb (Py.is_space a)) word = true -> Py.is_space c = true ->
  Worker.take (Worker.span (fun a => negb (Py.is_space a)) (word ++ String c rest))
    (word ++ String c rest)
  = word.
Proof.
  intros W Hc. unfold Worker.take. induction word as [| a word IH].
  - cbn [append Worker.span]. rewrite Hc. reflexivity.
  - cbn [Py.every] in W. apply andb_true_iff in W. destruct W as [Ha W].
    cbn [append Worker.span]. rewrite Ha. cbn [String.substring]. now rewrite (IH W).
Qed.

(** X19.  Only the first word counts: a command whose first word (its
    characters from the first that is not a blank up to the next blank) is
    none of [npm], [npx] and [bun] is let through, whatever follows, in any
    project and for any tool. *)
Theorem commands_led_by_other_words_pass e :
  let text := Py.lstrip (Py.get (command e) "") in
  let first_word :=
    Worker.take (Worker.span (fun a => negb (Py.is_space a)) text) text in
  first_word <> "npm" -> first_word <> "npx" -> first_word <> "bun" ->
  main (Decoded e) = Exit0.
Proof.
  cbv zeta. intros H1 H2 H3. cbn [main].
  destruct (_ || _); [reflexivity |].
  destruct (Re.match_ npm_pattern _) eqn:M1.
  - apply npm_pattern_spec in M1. destruct M1 as (word & c & rest & [-> | ->] & E & Hc).
    + rewrite E, (first_word_before_blank "npm" c rest eq_refl Hc) in H1. congruence.
    + rewrite E, (first_word_before_blank "npx" c rest eq_refl Hc) in H2. congruence.
  - destruct (Re.match_ bun_pattern _) eqn:M2; [| reflexivity].
    apply bun_pattern_spec in M2. destruct M2 as (c & rest & E & Hc & _).
    rewrite E, (first_word_before_blank "bun" c rest eq_refl Hc) in H3. congruence.
Qed.

Lemma bundle_install_and_chained_npm_pass :
  let run text :=
    main (Decoded {| tool_name := Some "Bash"; command := Some text;
                     at_cwd := {| pnpm_lock_exists := true; pkg := Missing |} |}) in
  run "bundle install" = Exit0 /\ run "cd app && npm install" = Exit0.
Proof.
  cbv zeta. split.
  - apply (commands_led_by_other_words_pass
             {| tool_name := Some "Bash"; command := Some "bundle install";
                at_cwd := {| pnpm_lock_exists := true; pkg := Missing |} |});
      vm_compute; discriminate.
  - apply (commands_led_by_other_words_pass
             {| tool_name := Some "Bash"; command := Some "cd app && npm install";
                at_cwd := {| pnpm_lock_exists := true; pkg := Missing |} |});
      vm_compute; discriminate.
Defined.

(** X20.  [bun test] is let through only when exactly one blank separates the
    two words: with a second blank after [bun] the command is blocked,
    whatever follows, [test] included. *)
Theorem bun_and_two_blanks_is_blocked e c1 c2 rest :
  tool_name e = Some "Bash" -> is_pnpm_repo (at_cwd e) = true ->
  Py.lstrip (Py.get (command e) "") = "bun" ++ String c1 (String c2 rest) ->
  Py.is_space c1 = true -> Py.is_space c2 = true ->
  main (Decoded e) = Exit2 error_message.
Proof.
  intros T P E H1 H2. cbn [main].
  apply bash_tool in T. rewrite T, P. cbn [negb orb].
  assert (M : Re.match_ bun_pattern (Py.get (command e) "") = true).
  { apply bun_pattern_spec. exists c1, (String c2 rest).
    split; [exact E |]. split; [exact H1 |].
    intros [W | (c & r & W & _)]; cbn [append] in W; injection W as -> _;
      vm_compute in H2; discriminate. }
  rewrite M, orb_true_r. reflexivity.
Qed.

Lemma bun_test_one_blank_passes_two_blanks_blocked :
  let repo := {| pnpm_lock_exists := false; pkg := Object (Some (Str "pnpm@9.1.0")) |} in
  let run text := main (Decoded {| tool_name := Some "Bash"; command := Some text;
                                   at_cwd := repo |}) in
  run "bun test --watch" = Exit0 /\ run "bun  test" = Exit2 error_message.
Proof.
  cbv zeta. split; [vm_compute; reflexivity |].
  apply (bun_and_two_blanks_is_blocked
           {| tool_name := Some "Bash"; command := Some "bun  test";
              at_cwd := {| pnpm_lock_exists := false;
                           pkg := Object (Some (Str "pnpm@9.1.0")) |} |}
           " "%char " "%char "test"); reflexivity.
Defined.

End PnpmGuard.

(** ** The reader of the enhanced worker *)
Section EnhancedReader.
Import Transcript.

Lemma enhanced_read_lines_cons_some entry rest w :
  Enhanced.read_lines (Some entry :: rest) w
  = if already_seen w (Py.get (timestamp entry) "") then Enhanced.read_lines rest w
    else match Enhanced.extract entry with
         | Some ev =>
             (ev :: fst (Enhanced.read_lines rest w),
              (Enhanced.key_decision_of ev ++ snd (Enhanced.read_lines rest w))%list)
         | None => Enhanced.read_lines rest w
         end.
Proof.
  cbn [Enhanced.read_lines]. destruct (already_seen _ _); [reflexivity |].
  destruct (Enhanced.extract entry); [| reflexivity].
  now destruct (Enhanced.read_lines rest w).
Qed.

Lemma key_decision_of_shape m :
  Enhanced.key_decision_of m = []
  \/ (Enhanced.extract_key_info m <> []
      /\ Enhanced.key_decision_of m
         = [Enhanced.Observed (e_timestamp m) (Enhanced.extract_key_info m)
              (Py.sslice None (Some 100%Z) (e_text m))]).
Proof.
  unfold Enhanced.key_decision_of.
  destruct (Enhanced.extract_key_info m); [now left | right]. split; [discriminate | reflexivity].
Qed.

(** X21.  The key decisions the enhanced reader returns are made from the
    messages it returns, in their order and at most one for each: the
    message's timestamp, its key events (at least one), and the first 100
    characters of its text. *)
Theorem enhanced_key_decisions_follow_messages lines w :
  let msgs := fst (Enhanced.read_lines lines w) in
  let key_decisions := snd (Enhanced.read_lines lines w) in
  key_decisions = flat_map Enhanced.key_decision_of msgs
  /\ (List.length key_decisions <= List.length msgs)%nat
  /\ Forall (fun kd =>
               exists m,
                 In m msgs /\ Enhanced.extract_key_info m <> []
                 /\ kd = Enhanced.Observed (e_timestamp m) (Enhanced.extract_key_info m)
                           (Py.sslice None (Some 100%Z) (e_text m))
                 /\ (String.length (Py.sslice None (Some 100%Z) (e_text m)) <= 100)%nat)
       key_decisions.
Proof.
  cbv zeta.
  assert (F : snd (Enhanced.read_lines lines w)
              = flat_map Enhanced.key_decision_of (fst (Enhanced.read_lines lines w))).
  { induction lines as [| [entry |] rest IH]; [reflexivity | | exact IH].
    rewrite enhanced_read_lines_cons_some.
    destruct (already_seen _ _); [exact IH |].
    destruct (Enhanced.extract entry) as [ev |]; [| exact IH].
    cbn [fst snd flat_map]. now rewrite IH. }
  rewrite F. split; [reflexivity |].
  generalize (fst (Enhanced.read_lines lines w)). intros msgs. split.
  - induction msgs as [| m msgs IH]; [constructor |].
    cbn [flat_map]. rewrite length_app. cbn [List.length].
    destruct (key_decision_of_shape m) as [-> | [_ ->]]; cbn [List.length]; lia.
  - apply Forall_forall. intros kd H. apply in_flat_map in H.
    destruct H as (m & Hm & Hkd). exists m.
    destruct (key_decision_of_shape m) as [E | [N E]]; rewrite E in Hkd;
      [now elim Hkd |].
    destruct Hkd as [<- | []]. repeat split; try assumption.
    apply (sslice_prefix_length 100). lia.
Qed.

Lemma flat_map_agree {A B} (f g : A -> list B) (l : list A) :
  (forall a, In a l -> f a = g a) -> flat_map f l = flat_map g l.
Proof.
  induction l as [| a l IH]; intros H; [reflexivity |].
  cbn [flat_map]. rewrite (H a (or_introl eq_refl)), IH; [reflexivity |].
  intros b Hb. apply H. now right.
Qed.

(** X22.  On a transcript with no call of an editing tool, and whose tool
    results carry the same text under [output] and under [content], the
    enhanced reader returns the messages of the reader of
    [sidekick-review-worker.py]: the two differ only in the excerpt they keep of
    an editing tool's input and in the key they read a tool result from. *)
Theorem enhanced_reader_agrees_with_worker lines w :
  (forall e m cs c,
      In (Some e) lines -> msg e = Some m -> body m = Some (Segments cs) -> In c cs ->
      match c with
      | ToolUse name _ => mem (Py.get name "") Enhanced.edit_tools = false
      | ToolResult output content => output = content
      | _ => True
      end) ->
  fst (Enhanced.read_lines lines w) = Worker.read_lines lines w.
Proof.
  induction lines as [| [entry |] rest IH]; intros H; [reflexivity | |].
  - assert (IH' : fst (Enhanced.read_lines rest w) = Worker.read_lines rest w).
    { apply IH. intros e m cs c He. apply H. now right. }
    rewrite enhanced_read_lines_cons_some. cbn [Worker.read_lines].
    destruct (already_seen _ _); [exact IH' |].
    assert (X : Enhanced.extract entry = Worker.extract entry).
    { unfold Enhanced.extract, Worker.extract.
      destruct (type_ entry) as [ty |]; [| reflexivity].
      destruct (msg entry) as [m |] eqn:M; [| reflexivity].
      destruct (mem ty _); [| reflexivity].
      assert (Fl : Enhanced.flatten (Py.get (body m) (Plain ""))
                   = Worker.flatten (Py.get (body m) (Plain ""))).
      { destruct (body m) as [[cs | s |] |] eqn:B; try reflexivity.
        cbn [Py.get]. unfold Enhanced.flatten, Worker.flatten.
        assert (S : forall c, In c cs ->
                      Enhanced.flatten_segment c = Worker.flatten_segment c).
        { intros c Hc. specialize (H entry m cs c (or_introl eq_refl) M B Hc).
          destruct c as [t | name inp | output content |]; try reflexivity.
          - cbn [Enhanced.flatten_segment Worker.flatten_segment]. now rewrite H.
          - cbn [Enhanced.flatten_segment Worker.flatten_segment]. now rewrite H. }
        f_equal; apply flat_map_agree; intros c Hc; now rewrite S. }
      now rewrite Fl. }
    rewrite X. destruct (Worker.extract entry); [| exact IH'].
    cbn [fst]. now rewrite IH'.
  - cbn [Enhanced.read_lines Worker.read_lines]. apply IH.
    intros e m cs c He. apply H. now right.
Qed.

Lemma enhanced_reader_agrees_on_a_command :
  let ran :=
    Some {| timestamp := Some "t1"; type_ := Some "assistant";
            msg := Some {| role := Some "assistant";
                           body := Some (Segments [Text (Some "Running the tests");
                                                   ToolUse (Some "Bash") []]) |} |} in
  fst (Enhanced.read_lines [ran] None) = Worker.read_lines [ran] None
  /\ List.length (Worker.read_lines [ran] None) = 1%nat.
Proof.
  cbv zeta. split; [| reflexivity].
  apply (enhanced_reader_agrees_with_worker
           [Some {| timestamp := Some "t1"; type_ := Some "assistant";
                    msg := Some {| role := Some "assistant";
                                   body := Some (Segments [Text (Some "Running the tests");
                                                           ToolUse (Some "Bash") []]) |} |}]
           None).
  intros e m cs c [E | []] M B Hc. injection E as <-.
  cbn [msg] in M. injection M as <-. cbn [body] in B. injection B as <-.
  destruct Hc as [<- | [<- | []]]; [exact I | reflexivity].
Defined.

End EnhancedReader.

(** ** Instances *)
Section Instances.
Import Transcript.

(** A confident verdict with a new body, on an empty state directory, is
    written. *)
Lemma worker_writes_confident_verdict :
  let answer :=
    {| Worker.should_intervene := true; Worker.score := Some (9 # 10);
       Worker.reason := Some "why"; Worker.nudge_markdown := Some "Run the tests";
       Worker.commands := []; Worker.memory_update := None |} in
  let w := {| Worker.now := 0; Worker.policy := ""; Worker.sha256_hex := fun s => s;
              Worker.advise := fun _ => Some answer |} in
  let said :=
    Some {| timestamp := Some "t1"; type_ := Some "user";
            msg := Some {| role := Some "user"; body := Some (Plain "hi") |} |} in
  let st := {| Worker.memory_file := None; Worker.pending_file := Pending.Absent |} in
  snd (Worker.main Worker.default_config w (Some [said]) st) <> None.
Proof.
  cbv zeta.
  apply (proj2 (worker_writes_iff Worker.default_config
                  {| Worker.now := 0; Worker.policy := ""; Worker.sha256_hex := fun s => s;
                     Worker.advise := fun _ =>
                       Some {| Worker.should_intervene := true;
                               Worker.score := Some (9 # 10);
                               Worker.reason := Some "why";
                               Worker.nudge_markdown := Some "Run the tests";
                               Worker.commands := []; Worker.memory_update := None |} |}
                  (Some [Some {| timestamp := Some "t1"; type_ := Some "user";
                                 msg := Some {| role := Some "user";
                                                body := Some (Plain "hi") |} |}])
                  {| Worker.memory_file := None; Worker.pending_file := Pending.Absent |}
                  {| e_role := "user"; e_text := "hi"; e_timestamp := "t1"; e_tools := [] |}
                  {| Worker.should_intervene := true; Worker.score := Some (9 # 10);
                     Worker.reason := Some "why";
                     Worker.nudge_markdown := Some "Run the tests";
                     Worker.commands := []; Worker.memory_update := None |}
                  eq_refl eq_refl)).
  split; [reflexivity |]. split; [vm_compute; discriminate |].
  split; vm_compute; discriminate.
Defined.

(** Two passes that get the same advice: the second writes nothing. *)
Lemma same_advice_twice_is_written_once :
  let answer :=
    {| Worker.should_intervene := true; Worker.score := Some (9 # 10);
       Worker.reason := Some "why"; Worker.nudge_markdown := Some "Run the tests";
       Worker.commands := []; Worker.memory_update := None |} in
  let w := {| Worker.now := 0; Worker.policy := ""; Worker.sha256_hex := fun s => s;
              Worker.advise := fun _ => Some answer |} in
  let said ts text :=
    Some {| timestamp := Some ts; type_ := Some "user";
            msg := Some {| role := Some "user"; body := Some (Plain text) |} |} in
  let passes := [(w, Some [said "t1" "hi"]); (w, Some [said "t1" "hi"; said "t2" "again"])] in
  let st := {| Worker.memory_file := None; Worker.pending_file := Pending.Absent |} in
  Worker.no_repeat (Worker.stored_digest st)
    (Worker.written_digests (fun s => s) (snd (Worker.run Worker.default_config passes st)))
  /\ Worker.written_digests (fun s => s) (snd (Worker.run Worker.default_config passes st))
     = ["Run the tests"].
Proof.
  cbv zeta. split; [| reflexivity].
  apply (worker_never_repeats Worker.default_config (fun s => s)).
  repeat constructor.
Defined.

(** The save of [memory.json] over an older record. *)
Lemma worker_save_of_memory_json :
  let target :=
    {| FS.parent := "~/.claude/sidekick/0123456789ab"; FS.stem := "memory";
       FS.suffix := ".json" |} in
  let disk : FS.t := FS.set target (Some "{old}") (fun _ => None) in
  let chunks := ["{"; "new"; "}"] in
  Forall (fun fs' => fs' target = Some "{old}" \/ fs' target = Some "{new}")
    (FS.trace (Worker.save_json target chunks) disk)
  /\ FS.exec (Worker.save_json target chunks) disk target = Some "{new}".
Proof.
  cbv zeta.
  exact (worker_save_json_atomic
           {| FS.parent := "~/.claude/sidekick/0123456789ab"; FS.stem := "memory";
              FS.suffix := ".json" |}
           ["{"; "new"; "}"]
           (FS.set {| FS.parent := "~/.claude/sidekick/0123456789ab"; FS.stem := "memory";
                      FS.suffix := ".json" |} (Some "{old}") (fun _ => None))
           ltac:(discriminate)).
Defined.

(** A pass of the enhanced worker on a memory of 50 key decisions, with a
    verdict that lists one more: 50 are saved. *)
Lemma enhanced_fifty_key_decisions_stay_fifty :
  let answer :=
    {| Enhanced.should_intervene := false; Enhanced.score := Some 0;
       Enhanced.reason := None; Enhanced.nudge_markdown := None;
       Enhanced.commands := []; Enhanced.memory_update := None;
       Enhanced.v_key_decisions := ["use pnpm"] |} in
  let w := {| Enhanced.now := 7; Enhanced.policy := ""; Enhanced.sha256_hex := fun s => s;
              Enhanced.advise := fun _ => Some answer |} in
  let said :=
    Some {| timestamp := Some "t1"; type_ := Some "user";
            msg := Some {| role := Some "user"; body := Some (Plain "hi") |} |} in
  let stored :=
    {| Enhanced.last_timestamp := None; Enhanced.long_term_summary := None;
       Enhanced.last_nudge_hash := None;
       Enhanced.key_decisions := Some (repeat (Enhanced.Decided 1 "older") 50);
       Enhanced.session_count := Some 3%Z |} in
  let st := {| Enhanced.memory_file := Some stored; Enhanced.pending_file := Pending.Absent |} in
  (List.length
     (Enhanced.stored_key_decisions
        (fst (Enhanced.main Enhanced.default_config w (Some [said]) st))) <= 50)%nat.
Proof.
  cbv zeta.
  apply (enhanced_key_decisions_bounded Enhanced.default_config
           {| Enhanced.now := 7; Enhanced.policy := ""; Enhanced.sha256_hex := fun s => s;
              Enhanced.advise := fun _ =>
                Some {| Enhanced.should_intervene := false; Enhanced.score := Some 0;
                        Enhanced.reason := None; Enhanced.nudge_markdown := None;
                        Enhanced.commands := []; Enhanced.memory_update := None;
                        Enhanced.v_key_decisions := ["use pnpm"] |} |}).
  vm_compute. lia.
Defined.

(** An insight added to a memory that holds 20 of them. *)
Lemma advanced_twenty_insights_stay_twenty :
  let w := {| Advanced.now := 7; Advanced.branch := "main";
              Advanced.recent_commits := ["3f2a9c1 add login form"];
              Advanced.advise := fun _ _ => None |} in
  let answer :=
    {| Advanced.should_intervene := false; Advanced.score := Some 0;
       Advanced.reason := None; Advanced.nudge_markdown := None; Advanced.commands := [];
       Advanced.memory_insights := Some "tests are slow";
       Advanced.feature_recommendations := None |} in
  let merged :=
    {| Advanced.last_timestamp := None; Advanced.sessions := Some 4%Z;
       Advanced.feature_lifecycle := None; Advanced.technical_decisions := None;
       Advanced.ai_insights :=
         Some (repeat {| Advanced.i_timestamp := 1; Advanced.i_insight := "older";
                         Advanced.i_session := 3%Z |} 20) |} in
  (List.length
     (Py.get (Advanced.ai_insights (Advanced.absorb w merged answer "t1")) []) <= 20)%nat.
Proof.
  cbv zeta.
  apply (absorb_insights_bounded
           {| Advanced.now := 7; Advanced.branch := "main";
              Advanced.recent_commits := ["3f2a9c1 add login form"];
              Advanced.advise := fun _ _ => None |}).
  vm_compute. lia.
Defined.

End Instances.

(** ** The names of the dumps *)
Section DumpNames.
Import LastMessages.

Local Open Scope Z_scope.

Lemma of_uint_acc_int_from d acc :
  Z.pos (Pos.of_uint_acc d acc) = Py.int_from (Z.pos acc) (NilEmpty.string_of_uint d).
Proof.
  revert acc. induction d; intros acc;
    cbn [Pos.of_uint_acc NilEmpty.string_of_uint Py.int_from]; [reflexivity | ..];
    rewrite IHd; f_equal;
    match goal with
    | |- context [Z.of_nat (Py.code ?c)] =>
        let v := eval vm_compute in (Z.of_nat (Py.code c)) in
        change (Z.of_nat (Py.code c)) with v
    end; lia.
Qed.

Lemma of_uint_int_from d :
  Z.of_N (Pos.of_uint d) = Py.int_from 0 (NilEmpty.string_of_uint d).
Proof.
  induction d; cbn [Pos.of_uint NilEmpty.string_of_uint Py.int_from];
    [reflexivity | exact IHd | ..];
    cbn [Z.of_N]; rewrite of_uint_acc_int_from; reflexivity.
Qed.

Lemma digits_of_uint d : Py.every Worker.is_digit (NilEmpty.string_of_uint d) = true.
Proof.
  induction d; cbn [NilEmpty.string_of_uint Py.every]; [reflexivity | ..];
    rewrite IHd; reflexivity.
Qed.

Lemma str_of_Z_pos p : Py.str_of_Z (Z.pos p) = NilEmpty.string_of_uint (Pos.to_uint p).
Proof.
  unfold Py.str_of_Z. cbn [Z.to_int NilZero.string_of_int]. unfold NilZero.string_of_uint.
  pose proof (DecimalPos.Unsigned.to_uint_nonnil p) as N.
  destruct (Pos.to_uint p); [congruence | ..]; reflexivity.
Qed.

(** [str] of a number that is not negative writes it in digits. *)
Lemma int_of_str n :
  0 <= n ->
  Py.int_from 0 (Py.str_of_Z n) = n /\ Py.every Worker.is_digit (Py.str_of_Z n) = true.
Proof.
  intros H. destruct n as [| p | p]; [split; reflexivity | | lia].
  rewrite str_of_Z_pos. split; [| apply digits_of_uint].
  rewrite <- of_uint_int_from. now rewrite DecimalPos.Unsigned.of_to.
Qed.

Lemma int_from_acc s acc :
  Py.int_from acc s = acc * 10 ^ Z.of_nat (String.length s) + Py.int_from 0 s.
Proof.
  revert acc. induction s as [| c r IH]; intros acc; cbn [Py.int_from String.length].
  - cbn. lia.
  - rewrite IH, (IH (10 * 0 + _)). rewrite Nat2Z.inj_succ, Z.pow_succ_r by lia. lia.
Qed.

Lemma digit_range c : Worker.is_digit c = true -> 0 <= Z.of_nat (Py.code c) - 48 <= 9.
Proof.
  unfold Worker.is_digit, Py.between. rewrite andb_true_iff, !Nat.leb_le. lia.
Qed.

Lemma int_from_range s :
  Py.every Worker.is_digit s = true ->
  0 <= Py.int_from 0 s < 10 ^ Z.of_nat (String.length s).
Proof.
  induction s as [| c r IH]; cbn [Py.every Py.int_from String.length]; [cbn; lia |].
  rewrite andb_true_iff. intros [Hc Hr]. specialize (IH Hr). apply digit_range in Hc.
  rewrite int_from_acc, Nat2Z.inj_succ, Z.pow_succ_r by lia. nia.
Qed.

Lemma ascii_compare_code c1 c2 :
  Ascii.compare c1 c2 = (Z.of_nat (Py.code c1) ?= Z.of_nat (Py.code c2)).
Proof.
  unfold Ascii.compare, Py.code, nat_of_ascii.
  rewrite !N_nat_Z. symmetry. apply N2Z.inj_compare.
Qed.

(** Texts of digits of one length compare as the numbers they write. *)
Lemma compare_digits s t :
  Py.every Worker.is_digit s = true -> Py.every Worker.is_digit t = true ->
  String.length s = String.length t ->
  String.compare s t = (Py.int_from 0 s ?= Py.int_from 0 t).
Proof.
  revert t. induction s as [| c r IH]; intros [| c' r'] Hs Ht L; try discriminate L.
  - reflexivity.
  - cbn [Py.every] in Hs, Ht. apply andb_true_iff in Hs, Ht.
    destruct Hs as [Hc Hr], Ht as [Hc' Hr']. cbn [String.length] in L. injection L as L.
    cbn [String.compare Py.int_from]. rewrite ascii_compare_code.
    rewrite (int_from_acc r), (int_from_acc r'), <- L.
    pose proof (int_from_range r Hr) as B. pose proof (int_from_range r' Hr') as B'.
    rewrite <- L in B'. specialize (IH r' Hr Hr' L).
    set (k := 10 ^ Z.of_nat (String.length r)) in *.
    destruct (Z.compare_spec (Z.of_nat (Py.code c)) (Z.of_nat (Py.code c'))) as [E | E | E].
    + rewrite E, IH. symmetry.
      destruct (Z.compare_spec (Py.int_from 0 r) (Py.int_from 0 r')) as [E' | E' | E'].
      * apply Z.compare_eq_iff. lia.
      * apply Z.compare_lt_iff. lia.
      * apply Z.compare_gt_iff. lia.
    + symmetry. apply Z.compare_lt_iff. nia.
    + symmetry. apply Z.compare_gt_iff. nia.
Qed.

(** Texts of one length that differ are ordered before anything is appended. *)
Lemma compare_append s t x y :
  String.length s = String.length t -> String.compare s t <> Eq ->
  String.compare (s ++ x) (t ++ y) = String.compare s t.
Proof.
  revert t. induction s as [| c r IH]; intros [| c' r'] L N; try discriminate L.
  - now elim N.
  - cbn [String.length] in L. injection L as L. cbn [append String.compare] in *.
    destruct (Ascii.compare c c'); [now apply IH | reflexivity | reflexivity].
Qed.

Lemma length_append s t : String.length (s ++ t) = (String.length s + String.length t)%nat.
Proof. induction s as [| c r IH]; cbn; [reflexivity | now rewrite IH]. Qed.

Lemma length_repeat_char c n : String.length (Py.repeat_char c n) = n.
Proof. induction n; cbn; congruence. Qed.

Lemma int_from_zeros n s : Py.int_from 0 (Py.repeat_char "0" n ++ s) = Py.int_from 0 s.
Proof.
  induction n as [| n IH]; [reflexivity |].
  cbn [Py.repeat_char append Py.int_from]. exact IH.
Qed.

Lemma every_append p s t : Py.every p (s ++ t) = Py.every p s && Py.every p t.
Proof. induction s as [| c r IH]; cbn; [reflexivity | now rewrite IH, andb_assoc]. Qed.

Lemma every_zeros n : Py.every Worker.is_digit (Py.repeat_char "0" n) = true.
Proof. induction n as [| n IH]; [reflexivity | exact IH]. Qed.

(** The first digit of a positive number is not zero. *)
Lemma leading_digit p :
  exists c r, NilEmpty.string_of_uint (Pos.to_uint p) = String c r
              /\ 1 <= Z.of_nat (Py.code c) - 48.
Proof.
  assert (U : Decimal.unorm (Pos.to_uint p) = Pos.to_uint p).
  { rewrite <- (DecimalPos.Unsigned.to_of (Pos.to_uint p)).
    now rewrite DecimalPos.Unsigned.of_to. }
  pose proof (DecimalPos.Unsigned.to_uint_nonzero p) as NZ.
  unfold Decimal.unorm in U.
  pose proof (DecimalFacts.nzhead_nonzero (Pos.to_uint p)) as H0.
  destruct (Decimal.nzhead (Pos.to_uint p)) eqn:E;
    [congruence | now elim (H0 u) | ..];
    rewrite <- U; cbn [NilEmpty.string_of_uint]; do 2 eexists;
    (split; [reflexivity | cbn; lia]).
Qed.

(** A number below [10 ^ w] is written with at most [w] digits. *)
Lemma length_str_of_Z n w :
  0 <= n < 10 ^ Z.of_nat w -> (1 <= w)%nat -> (String.length (Py.str_of_Z n) <= w)%nat.
Proof.
  intros [H0 H1] Hw. destruct n as [| p | p]; [cbn; lia | | lia].
  rewrite str_of_Z_pos.
  destruct (leading_digit p) as (c & r & E & Hc).
  pose proof (int_of_str (Z.pos p) H0) as [V D]. rewrite str_of_Z_pos in V, D.
  rewrite E in *. cbn [Py.every] in D. apply andb_true_iff in D. destruct D as [_ D].
  cbn [Py.int_from] in V. rewrite int_from_acc in V.
  pose proof (int_from_range r D) as B. cbn [String.length].
  destruct (Nat.le_gt_cases (S (String.length r)) w) as [L | L]; [exact L | exfalso].
  assert (P : 10 ^ Z.of_nat w <= 10 ^ Z.of_nat (String.length r))
    by (apply Z.pow_le_mono_r; lia).
  nia.
Qed.

(** A number from 0 to [10 ^ w - 1] is printed on exactly [w] digits, which
    write the number. *)
Lemma format_0d_digits w n :
  0 <= n < 10 ^ Z.of_nat w -> (1 <= w)%nat ->
  String.length (Py.format_0d w n) = w
  /\ Py.every Worker.is_digit (Py.format_0d w n) = true
  /\ Py.int_from 0 (Py.format_0d w n) = n.
Proof.
  intros H Hw. unfold Py.format_0d. destruct (Z.ltb_spec n 0) as [N | _]; [lia |].
  pose proof (length_str_of_Z n w H Hw) as L.
  destruct (int_of_str n (proj1 H)) as [V D]. unfold Py.zfill.
  rewrite length_append, length_repeat_char, every_append, every_zeros, D, int_from_zeros, V.
  repeat split. lia.
Qed.

Lemma format_0d_lt w a b x y :
  (1 <= w)%nat -> 0 <= a < b -> b < 10 ^ Z.of_nat w ->
  String.ltb (Py.format_0d w a ++ x) (Py.format_0d w b ++ y) = true.
Proof.
  intros Hw Ha Hb.
  destruct (format_0d_digits w a) as (La & Da & Va); [lia | exact Hw |].
  destruct (format_0d_digits w b) as (Lb & Db & Vb); [lia | exact Hw |].
  assert (C : String.compare (Py.format_0d w a) (Py.format_0d w b) = Lt).
  { rewrite compare_digits by congruence. rewrite Va, Vb. apply Z.compare_lt_iff. lia. }
  unfold String.ltb. rewrite compare_append by congruence. now rewrite C.
Qed.

(** X28.  The dumps list newest first: of two dumps made at different
    seconds of the clock, from the epoch to second 9 999 999 999, the name of
    the later one sorts before the name of the earlier one, whatever the two
    sessions; the name is 10 digits, an underscore, at most 8 characters of
    the session id, and [.txt]. *)
Theorem newer_dump_sorts_first e1 e2 s1 s2 :
  0 <= e1 < e2 -> e2 <= 9999999999 ->
  String.ltb (file_name e2 s2) (file_name e1 s1) = true
  /\ (exists digits,
        file_name e2 s2 = digits ++ "_" ++ Py.sslice None (Some 8) s2 ++ ".txt"
        /\ String.length digits = 10%nat /\ Py.every Worker.is_digit digits = true
        /\ (String.length (Py.sslice None (Some 8%Z) s2) <= 8)%nat).
Proof.
  intros H1 H2. unfold file_name. cbv zeta. split.
  - apply (format_0d_lt 10); [lia | lia |]. change (10 ^ Z.of_nat 10) with 10000000000. lia.
  - exists (Py.format_0d 10 (9999999999 - e2)).
    destruct (format_0d_digits 10 (9999999999 - e2)) as (L & D & _);
      [change (10 ^ Z.of_nat 10) with 10000000000; lia | lia |].
    repeat split; try assumption. apply (sslice_prefix_length 8). lia.
Qed.

Lemma dumps_one_second_apart_sort_newest_first :
  String.ltb (file_name 1754000001 "0f3a9c2e-77aa") (file_name 1754000000 "ffffffff-0000")
  = true
  /\ file_name 1754000001 "0f3a9c2e-77aa" = "8245999998_0f3a9c2e.txt".
Proof.
  split; [| vm_compute; reflexivity].
  apply (newer_dump_sorts_first 1754000000 1754000001 "ffffffff-0000" "0f3a9c2e-77aa"); lia.
Defined.

End DumpNames.

(** ** The messages of a dump *)
Section DumpMessages.
Import Transcript.
Import LastMessages.

Variable dumps_indent : list (string * jvalue) -> string.

Lemma skipn_min {A} (k : nat) (l : list A) :
  skipn (Nat.min k (List.length l)) l = skipn k l.
Proof.
  destruct (Nat.le_gt_cases k (List.length l)) as [H | H].
  - now rewrite Nat.min_l by exact H.
  - rewrite Nat.min_r by lia. rewrite !skipn_all2 by lia. reflexivity.
Qed.

(** X29.  [extract_messages] returns the last [limit] messages of the
    transcript for a limit of at least one.  A limit of zero returns every
    message, and a negative limit every message but the first [-limit]: the
    slice [msgs[-limit:]] then starts from the front. *)
Theorem extract_messages_keeps_the_last lines limit :
  let msgs := all_messages dumps_indent lines in
  let kept := extract_messages dumps_indent lines limit in
  ((1 <= limit)%Z ->
   (exists older, msgs = (older ++ kept)%list)
   /\ List.length kept = Nat.min (Z.to_nat limit) (List.length msgs))
  /\ (limit = 0%Z -> kept = msgs)
  /\ ((limit < 0)%Z -> kept = skipn (Z.to_nat (- limit)) msgs).
Proof.
  cbv zeta. unfold extract_messages. split; [| split].
  - intros H. apply last_n_is_newest. lia.
  - intros ->. unfold Py.last_n, Py.slice, Py.clamp. cbn [Z.opp Z.ltb Z.compare Z.to_nat].
    cbn [Nat.min skipn]. apply firstn_all.
  - intros H. unfold Py.last_n, Py.slice, Py.clamp.
    destruct (Z.ltb_spec (- limit) 0) as [N | _]; [lia |].
    rewrite firstn_all. apply skipn_min.
Qed.

Lemma join_of_parts sep p ps : p <> "" -> Py.join sep (p :: ps) <> "".
Proof.
  intros H. unfold Py.join. destruct ps as [| q ps]; cbn [String.concat]; [exact H |].
  destruct p; [congruence | discriminate].
Qed.

Lemma parts_are_not_empty cont :
  Forall (fun p => p <> "") (content_parts dumps_indent cont).
Proof.
  destruct cont as [[cs | s |] |]; cbn [content_parts]; try constructor.
  - induction cs as [| c cs IH]; [constructor |].
    cbn [flat_map]. apply Forall_app. split; [| exact IH].
    destruct c as [t | name inp | out cont |]; cbn [part_of].
    + destruct (Py.strip (Py.get t "")) eqn:E; cbn [Py.truthy]; repeat constructor;
        discriminate.
    + constructor; [discriminate | constructor].
    + constructor; [discriminate | constructor].
    + constructor.
  - destruct (Py.strip s) eqn:E; cbn [Py.truthy]; repeat constructor; discriminate.
Qed.

(** X30.  Every message [extract_messages] returns is the text of a [user]
    or [assistant] line of the transcript, framed by the tags of its role;
    the text between the tags is never empty. *)
Theorem extracted_messages_are_framed lines limit :
  Forall (fun m =>
            exists tag text,
              (tag = "User" \/ tag = "Assistant") /\ text <> ""
              /\ m = "<" ++ tag ++ ">" ++ Py.nl ++ text ++ Py.nl ++ "</" ++ tag ++ ">")
    (extract_messages dumps_indent lines limit).
Proof.
  apply Forall_forall. intros m H. apply last_n_incl in H.
  unfold all_messages in H. apply in_flat_map in H. destruct H as ([e |] & _ & H);
    [| now elim H].
  unfold message_of in H. destruct (role_of e) as [role |]; [| now elim H].
  destruct (mem role ["user"; "assistant"]) eqn:R; [| now elim H].
  pose proof (parts_are_not_empty
                match l_message e with Some msg_obj => body msg_obj | None => None end) as P.
  destruct (content_parts dumps_indent _) as [| p ps]; [now elim H |].
  destruct H as [<- | []]. inversion P as [| ? ? Hp _]; subst.
  unfold mem in R. cbn [existsb] in R. rewrite !orb_true_iff in R.
  destruct R as [R | [R | R]]; [| | discriminate];
    apply String.eqb_eq in R; subst role.
  - exists "User", (Py.join (Py.nl ++ Py.nl) (p :: ps)).
    split; [now left |]. split; [now apply join_of_parts | reflexivity].
  - exists "Assistant", (Py.join (Py.nl ++ Py.nl) (p :: ps)).
    split; [now right |]. split; [now apply join_of_parts | reflexivity].
Qed.

End DumpMessages.

Section DumpInstances.
Import Transcript.
Import LastMessages.

(** Asked for the last zero messages of a transcript of two, the reader
    returns both. *)
Lemma last_zero_messages_are_all_messages :
  let said who text :=
    Some {| l_type := Some who; l_role := None;
            l_message := Some {| role := Some who; body := Some (Plain text) |} |} in
  let lines := [said "user" "hello"; said "assistant" "hi there"] in
  extract_messages (fun _ => "{}") lines 0
  = ["<User>" ++ Py.nl ++ "hello" ++ Py.nl ++ "</User>";
     "<Assistant>" ++ Py.nl ++ "hi there" ++ Py.nl ++ "</Assistant>"].
Proof.
  cbv zeta.
  exact (proj1 (proj2 (extract_messages_keeps_the_last (fun _ => "{}")
                         [Some {| l_type := Some "user"; l_role := None;
                                  l_message := Some {| role := Some "user";
                                                       body := Some (Plain "hello") |} |};
                          Some {| l_type := Some "assistant"; l_role := None;
                                  l_message := Some {| role := Some "assistant";
                                                       body := Some (Plain "hi there") |} |}]
                         0%Z)) eq_refl).
Defined.

End DumpInstances.
